(** * The decision core of the absence-request expert system

    A shallow embedding of [expert/inference_engine.py] (the safe expression
    evaluator and the forward-chaining engine), of the condition validator of
    [expert/rules_manager.py] and of the case-based reasoning engine of
    [expert/case_based_learning.py], with the properties of the
    specification stated over it.

    Conventions.
    - A Python [dict] keyed by strings is a [gmap string _]; where the
      iteration order of the dict is observable (the weighted votes of the
      recommendation) it is an association list in insertion order.
    - A Python [str] is the string of the bytes of its UTF-8 encoding; the
      operations on characters that the code uses ([split], [in],
      [startswith], slices at a quote) act on ASCII characters, which are
      one byte each, and [strip] knows the white space of Unicode.
    - A Python [float] is an exact rational ([Qc]); NaN, infinities and
      rounding are outside the model.
    - A [datetime] is a number of microseconds ([Z]); the clock reads the
      same instant throughout a call.
    - An exception is a value of [exn]; a computation that may raise has
      type [result A]. *)

From Stdlib Require Import ZArith QArith Qcanon String Ascii List Bool Lia DecimalString Sorted Permutation.
From stdpp Require Import base option list strings gmap.

Set Warnings "-register-all".

Local Open Scope Z_scope.
Local Open Scope string_scope.
Local Open Scope list_scope.

(** ** Python strings *)

Module PyStr.

Definition quote2 : ascii := ascii_of_nat 34.
Definition quote1 : ascii := ascii_of_nat 39.
Definition lparen : ascii := ascii_of_nat 40.
Definition rparen : ascii := ascii_of_nat 41.
Definition comma : ascii := ascii_of_nat 44.

(** [c in s] for a one-character [c]. *)
Fixpoint contains_char (c : ascii) (s : string) : bool :=
  match s with
  | EmptyString => false
  | String a r => if Ascii.eqb a c then true else contains_char c r
  end.

(** [s.split(c, 1)]: the text before the first [c] and, when there is
    one, the text after it. *)
Fixpoint split1 (c : ascii) (s : string) : string * option string :=
  match s with
  | EmptyString => (EmptyString, None)
  | String a r =>
      if Ascii.eqb a c then (EmptyString, Some r)
      else let '(h, t) := split1 c r in (String a h, t)
  end.

(** [s.split(c)[0]]. *)
Definition before_first (c : ascii) (s : string) : string := fst (split1 c s).

(** The text before the last [c], when [s] has one. *)
Fixpoint before_last_opt (c : ascii) (s : string) : option string :=
  match s with
  | EmptyString => None
  | String a r =>
      match before_last_opt c r with
      | Some p => Some (String a p)
      | None => if Ascii.eqb a c then Some EmptyString else None
      end
  end.

(** [s.rsplit(c, 1)[0]]. *)
Definition rsplit1_head (c : ascii) (s : string) : string :=
  match before_last_opt c s with
  | Some p => p
  | None => s
  end.

(** The characters for which [str.isspace] holds, as they stand in UTF-8.
    One byte: U+0009 to U+000D and U+001C to U+0020. *)
Definition is_space (a : ascii) : bool :=
  let n := nat_of_ascii a in
  ((9 <=? n)%nat && (n <=? 13)%nat) || ((28 <=? n)%nat && (n <=? 32)%nat).

(** Two bytes: U+0085 and U+00A0. *)
Definition is_space2 (a b : ascii) : bool :=
  Nat.eqb (nat_of_ascii a) 194
  && (Nat.eqb (nat_of_ascii b) 133 || Nat.eqb (nat_of_ascii b) 160).

(** Three bytes: U+1680, U+2000 to U+200A, U+2028, U+2029, U+202F, U+205F
    and U+3000. *)
Definition is_space3 (a b c : ascii) : bool :=
  let x := nat_of_ascii a in
  let y := nat_of_ascii b in
  let z := nat_of_ascii c in
  (Nat.eqb x 225 && Nat.eqb y 154 && Nat.eqb z 128)
  || (Nat.eqb x 226 && Nat.eqb y 128
      && (((128 <=? z)%nat && (z <=? 138)%nat)
          || Nat.eqb z 168 || Nat.eqb z 169 || Nat.eqb z 175))
  || (Nat.eqb x 226 && Nat.eqb y 129 && Nat.eqb z 159)
  || (Nat.eqb x 227 && Nat.eqb y 128 && Nat.eqb z 128).

Fixpoint lstrip (s : string) : string :=
  match s with
  | EmptyString => EmptyString
  | String a r =>
      if is_space a then lstrip r
      else
        match r with
        | EmptyString => s
        | String b r' =>
            if is_space2 a b then lstrip r'
            else
              match r' with
              | EmptyString => s
              | String c r'' => if is_space3 a b c then lstrip r'' else s
              end
        end
  end.

(** [s] holds white space only. *)
Definition all_space (s : string) : bool :=
  match lstrip s with
  | EmptyString => true
  | String _ _ => false
  end.

(** The text before the longest tail of white space. *)
Fixpoint rstrip (s : string) : string :=
  match s with
  | EmptyString => EmptyString
  | String a r => if all_space s then EmptyString else String a (rstrip r)
  end.

Definition strip (s : string) : string := rstrip (lstrip s).

Definition startswith (c : ascii) (s : string) : bool :=
  match s with
  | EmptyString => false
  | String a _ => Ascii.eqb a c
  end.

Fixpoint endswith (c : ascii) (s : string) : bool :=
  match s with
  | EmptyString => false
  | String a EmptyString => Ascii.eqb a c
  | String _ r => endswith c r
  end.

Fixpoint drop_last (s : string) : string :=
  match s with
  | EmptyString => EmptyString
  | String _ EmptyString => EmptyString
  | String a r => String a (drop_last r)
  end.

(** [s[1:-1]]. *)
Definition slice_1_m1 (s : string) : string :=
  match s with
  | EmptyString => EmptyString
  | String _ r => drop_last r
  end.

(** [s[:n]]. *)
Fixpoint take (n : nat) (s : string) : string :=
  match n, s with
  | O, _ => EmptyString
  | _, EmptyString => EmptyString
  | S n', String a r => String a (take n' r)
  end.

(** [t in s] for strings. *)
Fixpoint contains (t s : string) : bool :=
  if String.prefix t s then true
  else match s with
       | EmptyString => false
       | String _ r => contains t r
       end.

(** Number of occurrences of the character [c]. *)
Fixpoint count_char (c : ascii) (s : string) : nat :=
  match s with
  | EmptyString => O
  | String a r => ((if Ascii.eqb a c then 1 else 0) + count_char c r)%nat
  end.

End PyStr.

(** ** Values of the fact environment *)

(** [SafeExpressionEvaluator.ALLOWED_FUNCTIONS]: the Python builtins a
    condition may call. *)
Inductive builtin : Type :=
| Blen | Bstr | Bint | Bfloat | Bbool | Babs | Bmin | Bmax.

(** The callables that occur in a fact environment: an allow-listed builtin,
    the special functions injected by [_add_special_functions], and the
    constant lambdas of [RulesManager.validate_condition]. *)
Inductive callable : Type :=
| Builtin (b : builtin)
| DaysSince
| HoursSince
| IsWeekend
| Lambda1Int (n : Z)
| Lambda0Bool (b : bool).

Inductive value : Type :=
| VNone
| VBool (b : bool)
| VInt (n : Z)
| VFloat (q : Qc)
| VStr (s : string)
| VList (l : list value)
| VDict (d : list (string * value))
| VTime (t : Z)
| VFun (f : callable).

(** The exceptions of the model.  [KeyboardInterrupt] and [SystemExit] are
    the ones that [except Exception] does not catch. *)
Inductive exn : Type :=
| SyntaxError | ValueError | TypeError | IndexError | KeyError
| AttributeError | ZeroDivisionError | OverflowError | RecursionError
| MemoryError | KeyboardInterrupt | SystemExit.

Definition is_Exception (e : exn) : bool :=
  match e with
  | KeyboardInterrupt | SystemExit => false
  | _ => true
  end.

(** A computation that returns or raises. *)
Inductive result (A : Type) : Type :=
| Ok (a : A)
| Raise (e : exn).
Arguments Ok {A} a.
Arguments Raise {A} e.

Definition bind {A B} (k : A -> result B) (r : result A) : result B :=
  match r with
  | Ok a => k a
  | Raise e => Raise e
  end.

#[global] Instance result_ret : MRet result := @Ok.
#[global] Instance result_bind : MBind result := @bind.

(** [try: c except Exception: h]. *)
Definition try_except_Exception {A} (c : result A) (h : exn -> result A) : result A :=
  match c with
  | Ok a => Ok a
  | Raise e => if is_Exception e then h e else Raise e
  end.

Definition raises_only_Exception {A} (r : result A) : Prop :=
  forall e, r = Raise e -> is_Exception e = true.

(** ** Python semantics of the values *)

Module Py.

(** [bool(v)]. *)
Definition truthy (v : value) : bool :=
  match v with
  | VNone => false
  | VBool b => b
  | VInt n => negb (Z.eqb n 0)
  | VFloat q => negb (Qeq_bool q 0)
  | VStr s => negb (String.eqb s EmptyString)
  | VList l => match l with [] => false | _ => true end
  | VDict d => match d with [] => false | _ => true end
  | VTime _ => true
  | VFun _ => true
  end.

(** The number a bool, an int or a float stands for in a comparison. *)
Definition num_of (v : value) : option Qc :=
  match v with
  | VBool b => Some (Q2Qc (inject_Z (if b then 1 else 0)))
  | VInt n => Some (Q2Qc (inject_Z n))
  | VFloat q => Some q
  | _ => None
  end.

Definition builtin_eqb (a b : builtin) : bool :=
  match a, b with
  | Blen, Blen | Bstr, Bstr | Bint, Bint | Bfloat, Bfloat
  | Bbool, Bbool | Babs, Babs | Bmin, Bmin | Bmax, Bmax => true
  | _, _ => false
  end.

(** Function objects compare by identity. *)
Definition callable_eqb (f g : callable) : bool :=
  match f, g with
  | Builtin a, Builtin b => builtin_eqb a b
  | DaysSince, DaysSince | HoursSince, HoursSince | IsWeekend, IsWeekend => true
  | Lambda1Int a, Lambda1Int b => Z.eqb a b
  | Lambda0Bool a, Lambda0Bool b => Bool.eqb a b
  | _, _ => false
  end.

Fixpoint assoc {A} (k : string) (d : list (string * A)) : option A :=
  match d with
  | [] => None
  | (k', v) :: r => if String.eqb k k' then Some v else assoc k r
  end.

(** [a == b]. *)
Fixpoint eq (a b : value) {struct a} : bool :=
  match a, b with
  | VNone, VNone => true
  | VStr s, VStr t => String.eqb s t
  | VTime s, VTime t => Z.eqb s t
  | VFun f, VFun g => callable_eqb f g
  | VList la, VList lb =>
      (fix go (la lb : list value) {struct la} : bool :=
         match la, lb with
         | [], [] => true
         | x :: la', y :: lb' => eq x y && go la' lb'
         | _, _ => false
         end) la lb
  | VDict da, VDict db =>
      Nat.eqb (length da) (length db) &&
      (fix go (da : list (string * value)) {struct da} : bool :=
         match da with
         | [] => true
         | (k, v) :: da' =>
             match assoc k db with
             | Some w => eq v w && go da'
             | None => false
             end
         end) da
  | _, _ =>
      match num_of a, num_of b with
      | Some p, Some q => Qeq_bool p q
      | _, _ => false
      end
  end.

Inductive ordop : Type := OLt | OLe | OGt | OGe.

Definition ord_of_comparison (op : ordop) (c : comparison) : bool :=
  match op, c with
  | OLt, Datatypes.Lt => true
  | OLe, (Datatypes.Lt | Datatypes.Eq) => true
  | OGt, Datatypes.Gt => true
  | OGe, (Datatypes.Gt | Datatypes.Eq) => true
  | _, _ => false
  end.

(** [a < b], [a <= b], [a > b], [a >= b]: numbers with numbers, strings
    with strings, lists with lists (at the first pair of unequal
    elements, else by length), datetimes with datetimes; [TypeError]
    otherwise. *)
Fixpoint ord (op : ordop) (a b : value) {struct a} : result bool :=
  match a, b with
  | VStr s, VStr t => Ok (ord_of_comparison op (String.compare s t))
  | VTime s, VTime t => Ok (ord_of_comparison op (Z.compare s t))
  | VList la, VList lb =>
      (fix go (la lb : list value) {struct la} : result bool :=
         match la, lb with
         | x :: la', y :: lb' => if eq x y then go la' lb' else ord op x y
         | [], [] => Ok (ord_of_comparison op Datatypes.Eq)
         | [], _ :: _ => Ok (ord_of_comparison op Datatypes.Lt)
         | _ :: _, [] => Ok (ord_of_comparison op Datatypes.Gt)
         end) la lb
  | _, _ =>
      match num_of a, num_of b with
      | Some p, Some q => Ok (ord_of_comparison op (p ?= q)%Qc)
      | _, _ => Raise TypeError
      end
  end.

(** [x in c]. *)
Definition contains (x c : value) : result bool :=
  match c with
  | VList l => Ok (existsb (eq x) l)
  | VStr s =>
      match x with
      | VStr t => Ok (PyStr.contains t s)
      | _ => Raise TypeError
      end
  | VDict d =>
      match x with
      | VStr k => Ok (match assoc k d with Some _ => true | None => false end)
      | VList _ | VDict _ => Raise TypeError
      | _ => Ok false
      end
  | _ => Raise TypeError
  end.

End Py.

(** ** Syntax trees of conditions

    The node kinds of Python's [ast] that [_eval_node] tells apart; every
    other kind of node is [Other]. *)

Module ast.

Inductive cmpop : Type :=
| Eq | NotEq | Lt | LtE | Gt | GtE | Is | IsNot | In | NotIn.

Inductive boolop : Type := And | Or.

Inductive unaryop : Type := Invert | Not | UAdd | USub.

Inductive expr : Type :=
| Constant (v : value)
| Name (id : string)
| List_ (elts : list expr)
| Compare (lhs : expr) (ops : list cmpop) (comparators : list expr)
| BoolOp (op : boolop) (values : list expr)
| UnaryOp (op : unaryop) (operand : expr)
| Call (func : expr) (args : list expr)
| BinOp (lhs : expr) (op : string) (rhs : expr)
| Attribute (obj : expr) (attr : string)
| Subscript (obj : expr) (index : expr)
| Starred (obj : expr)
| Other (kind : string).

End ast.

(** ** Datetimes

    A naive [datetime] is the number of microseconds since
    1970-01-01T00:00:00 on its own clock. *)

Module DateTime.

Definition us_per_second : Z := 1000000.
Definition us_per_hour : Z := 3600000000.
Definition us_per_day : Z := 86400000000.

(** [(a - b).days]. *)
Definition days_between (a b : Z) : Z := (a - b) / us_per_day.

(** [(a - b).total_seconds() / 3600]. *)
Definition hours_between (a b : Z) : Qc := Q2Qc (Qmake (a - b) (Z.to_pos us_per_hour)).

(** [d.hour]. *)
Definition hour (d : Z) : Z := (d / us_per_hour) mod 24.

(** [d.weekday()]: Monday is 0; day 0 was a Thursday. *)
Definition weekday (d : Z) : Z := (d / us_per_day + 3) mod 7.

(** Year, month and day of a day number. *)
Definition civil_from_days (z : Z) : Z * Z * Z :=
  let z := z + 719468 in
  let era := z / 146097 in
  let doe := z - era * 146097 in
  let yoe := (doe - doe / 1460 + doe / 36524 - doe / 146096) / 365 in
  let doy := doe - (365 * yoe + yoe / 4 - yoe / 100) in
  let mp := (5 * doy + 2) / 153 in
  let d := doy - (153 * mp + 2) / 5 + 1 in
  let m := if (mp <? 10)%Z then mp + 3 else mp - 9 in
  let y := yoe + era * 400 + (if (m <=? 2)%Z then 1 else 0) in
  (y, m, d).

(** [z] in decimal on [width] digits. *)
Fixpoint pad_dec (width : nat) (z : Z) : string :=
  match width with
  | O => EmptyString
  | S w => pad_dec w (z / 10) +:+ String (ascii_of_nat (48 + Z.to_nat (z mod 10))) EmptyString
  end.

(** [d.isoformat()]. *)
Definition isoformat (d : Z) : string :=
  let '(y, m, dd) := civil_from_days (d / us_per_day) in
  let us_of_day := d mod us_per_day in
  let secs := us_of_day / us_per_second in
  let frac := us_of_day mod us_per_second in
  pad_dec 4 y +:+ "-" +:+ pad_dec 2 m +:+ "-" +:+ pad_dec 2 dd +:+ "T" +:+
  pad_dec 2 (secs / 3600) +:+ ":" +:+ pad_dec 2 ((secs / 60) mod 60) +:+ ":" +:+
  pad_dec 2 (secs mod 60) +:+
  (if (frac =? 0)%Z then EmptyString else "." +:+ pad_dec 6 frac).

End DateTime.

(** ** The Python runtime the core runs on

    What the code takes from the interpreter and its standard library, with
    the two facts about them that the evaluator relies on: the parser and
    the allow-listed builtins raise subclasses of [Exception] only. *)

Class PyRuntime : Type := {
  (** [ast.parse(text, mode='eval').body] *)
  ast_parse : string -> result ast.expr;
  (** the builtin [f] applied to the argument list *)
  call_builtin : builtin -> list value -> result value;
  (** [datetime.now()] *)
  datetime_now : Z;
  (** [json.dumps(v, sort_keys=True)] *)
  json_dumps : value -> result string;
  (** [hashlib.md5(s.encode()).hexdigest()] *)
  md5_hexdigest : string -> string;
  ast_parse_exn : forall text, raises_only_Exception (ast_parse text);
  call_builtin_exn : forall b args, raises_only_Exception (call_builtin b args)
}.

(** [[f(x) for x in l]]: left to right, the first exception ends it. *)
Definition mapM {A B} (f : A -> result B) : list A -> result (list B) :=
  fix go (l : list A) : result (list B) :=
    match l with
    | [] => Ok []
    | x :: r => y ← f x; ys ← go r; Ok (y :: ys)
    end.

(** ** SafeExpressionEvaluator *)

Section Evaluator.

Context `{PyRuntime}.

(** [ALLOWED_FUNCTIONS]. *)
Definition ALLOWED_FUNCTIONS (name : string) : option builtin :=
  if String.eqb name "len" then Some Blen
  else if String.eqb name "str" then Some Bstr
  else if String.eqb name "int" then Some Bint
  else if String.eqb name "float" then Some Bfloat
  else if String.eqb name "bool" then Some Bbool
  else if String.eqb name "abs" then Some Babs
  else if String.eqb name "min" then Some Bmin
  else if String.eqb name "max" then Some Bmax
  else None.

Definition lift_bool (r : result bool) : result value :=
  b ← r; Ok (VBool b).

(** The entries of [ALLOWED_OPERATORS] for the comparison operators;
    [is] and [is not] have none. *)
Definition ALLOWED_OPERATORS_cmp (op : ast.cmpop)
  : option (value -> value -> result value) :=
  match op with
  | ast.Lt => Some (fun x y => lift_bool (Py.ord Py.OLt x y))
  | ast.LtE => Some (fun x y => lift_bool (Py.ord Py.OLe x y))
  | ast.Gt => Some (fun x y => lift_bool (Py.ord Py.OGt x y))
  | ast.GtE => Some (fun x y => lift_bool (Py.ord Py.OGe x y))
  | ast.Eq => Some (fun x y => Ok (VBool (Py.eq x y)))
  | ast.NotEq => Some (fun x y => Ok (VBool (negb (Py.eq x y))))
  | ast.In => Some (fun x y => lift_bool (Py.contains x y))
  | ast.NotIn => Some (fun x y => b ← Py.contains x y; Ok (VBool (negb b)))
  | ast.Is | ast.IsNot => None
  end.

(** [lambda x, y: x and y] and [lambda x, y: x or y]. *)
Definition ALLOWED_OPERATORS_bool (op : ast.boolop) : option (value -> value -> value) :=
  match op with
  | ast.And => Some (fun x y => if Py.truthy x then y else x)
  | ast.Or => Some (fun x y => if Py.truthy x then x else y)
  end.

(** Only [not] has an entry. *)
Definition ALLOWED_OPERATORS_unary (op : ast.unaryop) : option (value -> value) :=
  match op with
  | ast.Not => Some (fun x => VBool (negb (Py.truthy x)))
  | _ => None
  end.

(** A callable of the fact environment applied to an argument list. *)
Definition call (f : callable) (args : list value) : result value :=
  match f with
  | Builtin b => call_builtin b args
  | DaysSince =>
      match args with
      | [date] =>
          if Py.truthy date then
            match date with
            | VTime t => Ok (VInt (DateTime.days_between datetime_now t))
            | _ => Raise TypeError
            end
          else Ok (VInt 999)
      | _ => Raise TypeError
      end
  | HoursSince =>
      match args with
      | [date] =>
          if Py.truthy date then
            match date with
            | VTime t => Ok (VFloat (DateTime.hours_between datetime_now t))
            | _ => Raise TypeError
            end
          else Ok (VInt 999)
      | _ => Raise TypeError
      end
  | IsWeekend =>
      match args with
      | [] => Ok (VBool (5 <=? DateTime.weekday datetime_now)%Z)
      | _ => Raise TypeError
      end
  | Lambda1Int n =>
      match args with
      | [_] => Ok (VInt n)
      | _ => Raise TypeError
      end
  | Lambda0Bool b =>
      match args with
      | [] => Ok (VBool b)
      | _ => Raise TypeError
      end
  end.

Fixpoint _eval_node (facts : gmap string value) (node : ast.expr) {struct node}
  : result value :=
  match node with
  | ast.Constant v => Ok v
  | ast.Name id =>
      match ALLOWED_FUNCTIONS id with
      | Some b => Ok (VFun (Builtin b))
      | None => Ok (default VNone (facts !! id))
      end
  | ast.List_ elts =>
      items ← mapM (_eval_node facts) elts; Ok (VList items)
  | ast.Compare lhs ops comparators =>
      l ← _eval_node facts lhs;
      (fix loop (ops : list ast.cmpop) (comparators : list ast.expr)
                (lhs res : value) {struct comparators} : result value :=
         match ops, comparators with
         | op :: ops', comparator :: comparators' =>
             rhs ← _eval_node facts comparator;
             match ALLOWED_OPERATORS_cmp op with
             | Some f =>
                 res' ← (if Py.truthy res then f lhs rhs else Ok res);
                 loop ops' comparators' rhs res'
             | None => Raise ValueError
             end
         | _, _ => Ok res
         end) ops comparators l (VBool true)
  | ast.BoolOp op values =>
      match ALLOWED_OPERATORS_bool op with
      | None => Raise ValueError
      | Some op_func =>
          vs ← mapM (_eval_node facts) values;
          match vs with
          | [] => Raise IndexError
          | v0 :: rest => Ok (fold_left op_func rest v0)
          end
      end
  | ast.UnaryOp op operand =>
      match ALLOWED_OPERATORS_unary op with
      | None => Raise ValueError
      | Some op_func => v ← _eval_node facts operand; Ok (op_func v)
      end
  | ast.Call func args =>
      match func with
      | ast.Name func_name =>
          match ALLOWED_FUNCTIONS func_name with
          | Some b =>
              vs ← mapM (_eval_node facts) args; call_builtin b vs
          | None =>
              match facts !! func_name with
              | Some (VFun f) =>
                  vs ← mapM (_eval_node facts) args; call f vs
              | _ => Raise ValueError
              end
          end
      | _ => Raise ValueError
      end
  | _ => Raise ValueError
  end.

(** [SafeExpressionEvaluator(facts).evaluate(expression)]. *)
Definition evaluate (facts : gmap string value) (expression : string) : result value :=
  try_except_Exception
    (tree ← ast_parse expression; _eval_node facts tree)
    (fun _ => Ok (VBool false)).

End Evaluator.

(** ** Stable sorting

    [sorted(l, key=...)] and [l.sort(key=..., reverse=True)] are stable:
    elements with equal keys keep their order.  [le x y] says that [x] may
    stand before [y]. *)

Section StableSort.

Context {A : Type} (le : A -> A -> bool).

Fixpoint insert_sorted (x : A) (l : list A) : list A :=
  match l with
  | [] => [x]
  | y :: r => if le x y then x :: y :: r else y :: insert_sorted x r
  end.

Definition py_sorted (l : list A) : list A := foldr insert_sorted [] l.

End StableSort.

(** ** Rules, steps and results *)

Module Rule.

(** One entry of the ["rules"] array of the rules file. *)
Record t : Type := mk {
  id : string;
  name : string;
  condition : string;
  action : string;
  priority : option Z;
  severity : option string;
  activation_condition : option string
}.

End Rule.

Record InferenceStep : Type := {
  rule_id : string;
  rule_name : string;
  condition : string;
  condition_result : bool;
  action : string;
  timestamp : Z;
  facts_used : gmap string value
}.

(** [execution_time], a difference of two readings of the wall clock, is
    left out. *)
Record InferenceResult : Type := {
  conclusions : list string;
  actions_taken : list string;
  steps : list InferenceStep;
  final_facts : gmap string value
}.

(** The variables of one run of [forward_chaining]: [self.facts],
    [self.inference_steps], the two local lists and the loop counter. *)
Record Run : Type := {
  run_facts : gmap string value;
  run_steps : list InferenceStep;
  run_conclusions : list string;
  run_actions : list string;
  iteration : nat
}.

(** ** InferenceEngine *)

Section InferenceEngine.

Context `{PyRuntime}.

(** [x.get('priority', 999)]. *)
Definition priority_key (r : Rule.t) : Z := default 999 (Rule.priority r).

(** [_load_rules]: the parsed file content, or the exception that reading
    or parsing it raised. *)
Definition _load_rules (data : result (list Rule.t)) : list Rule.t :=
  match data with
  | Ok rules => py_sorted (fun a b => (priority_key a <=? priority_key b)%Z) rules
  | Raise _ => []
  end.

(** The name of the fact that marks a rule as executed. *)
Definition executed_flag (id : string) : string :=
  "rule_" +:+ id +:+ "_executed".

Definition _add_special_functions (facts : gmap string value) : gmap string value :=
  <["current_hour" := VInt (DateTime.hour datetime_now)]>
    (<["is_weekend" := VFun IsWeekend]>
       (<["hours_since" := VFun HoursSince]>
          (<["days_since" := VFun DaysSince]> facts))).

Definition _should_evaluate_rule (facts : gmap string value) (rule : Rule.t)
  : result bool :=
  if Py.truthy (default (VBool false) (facts !! executed_flag (Rule.id rule)))
  then Ok false
  else
    match Rule.activation_condition rule with
    | Some activation_condition =>
        if Py.truthy (VStr activation_condition)
        then v ← evaluate facts activation_condition; Ok (Py.truthy v)
        else Ok true
    | None => Ok true
    end.

(** [isinstance(v, (str, int, float, bool, type(None)))]. *)
Definition is_scalar (v : value) : bool :=
  match v with
  | VStr _ | VInt _ | VFloat _ | VBool _ | VNone => true
  | _ => false
  end.

(** The [InferenceStep] that [_evaluate_rule] builds. *)
Definition make_step (facts : gmap string value) (rule : Rule.t) (condition_result : value)
  : InferenceStep :=
  {| rule_id := Rule.id rule;
     rule_name := Rule.name rule;
     condition := Rule.condition rule;
     condition_result := Py.truthy condition_result;
     action := Rule.action rule;
     timestamp := datetime_now;
     facts_used := filter (fun kv => is_scalar (snd kv) = true) facts |}.

Definition _evaluate_rule (facts : gmap string value) (rule : Rule.t)
  : result (option InferenceStep) :=
  try_except_Exception
    (condition_result ← evaluate facts (Rule.condition rule);
     Ok (Some (make_step facts rule condition_result)))
    (fun _ => Ok None).

Definition _extract_string_arg (arg_str : string) : string :=
  let arg_str := PyStr.strip arg_str in
  if PyStr.startswith PyStr.quote2 arg_str && PyStr.endswith PyStr.quote2 arg_str
  then PyStr.slice_1_m1 arg_str
  else if PyStr.startswith PyStr.quote1 arg_str && PyStr.endswith PyStr.quote1 arg_str
  then PyStr.slice_1_m1 arg_str
  else arg_str.

(** [rule.get('severity', 'info')]. *)
Definition severity_of (rule : Rule.t) : string := default "info" (Rule.severity rule).

Definition _add_observacion (facts : gmap string value) (message : string)
  (rule : Rule.t) : result (gmap string value) :=
  let entry := VDict [("message", VStr message);
                      ("severity", VStr (severity_of rule));
                      ("rule_id", VStr (Rule.id rule));
                      ("timestamp", VStr (DateTime.isoformat datetime_now))] in
  match facts !! "observaciones" with
  | None => Ok (<["observaciones" := VList [entry]]> facts)
  | Some (VList l) => Ok (<["observaciones" := VList (l ++ [entry])]> facts)
  | Some _ => Raise AttributeError
  end.

Definition _mark_sanction (facts : gmap string value) (rule : Rule.t)
  : gmap string value :=
  <["sancion_motivo" := VStr (Rule.name rule)]>
    (<["sancion_aplicada" := VBool true]> facts).

Definition _require_approval (facts : gmap string value) (rule : Rule.t)
  : gmap string value :=
  <["aprobacion_motivo" := VStr (Rule.name rule)]>
    (<["requiere_aprobacion" := VBool true]> facts).

(** The text before the first parenthesis, stripped, and the text between
    the first [(] and the last [)]; [None] unless the action has both
    characters. *)
Definition parse_call (action : string) : option (string * string) :=
  if PyStr.contains_char PyStr.lparen action && PyStr.contains_char PyStr.rparen action
  then
    let func_name := PyStr.strip (PyStr.before_first PyStr.lparen action) in
    let args_str :=
      PyStr.rsplit1_head PyStr.rparen
        (default EmptyString (snd (PyStr.split1 PyStr.lparen action))) in
    Some (func_name, args_str)
  else None.

(** The fact name and the text that an action of the form
    [set_fact(name, text)] carries, as [_execute_action] reads them. *)
Definition set_fact_call (action : string) : option (string * string) :=
  match parse_call action with
  | Some (func_name, args_str) =>
      if String.eqb func_name "set_fact" then
        match PyStr.split1 PyStr.comma args_str with
        | (part0, Some part1) =>
            Some (_extract_string_arg (PyStr.strip part0),
                  _extract_string_arg (PyStr.strip part1))
        | (_, None) => None
        end
      else None
  | None => None
  end.

(** [_execute_action]: the summary it returns and the facts it leaves. *)
Definition _execute_action (facts : gmap string value) (action : string)
  (rule : Rule.t) : result (option string * gmap string value) :=
  try_except_Exception
    (match parse_call action with
     | Some (func_name, args_str) =>
         if String.eqb func_name "add_observacion" then
           let message := _extract_string_arg args_str in
           facts' ← _add_observacion facts message rule;
           Ok (Some ("Observación agregada: " +:+ message), facts')
         else if String.eqb func_name "mark_sanction" then
           Ok (Some "Sanción aplicada", _mark_sanction facts rule)
         else if String.eqb func_name "set_fact" then
           match PyStr.split1 PyStr.comma args_str with
           | (part0, Some part1) =>
               let fact_name := _extract_string_arg (PyStr.strip part0) in
               let fact_value := _extract_string_arg (PyStr.strip part1) in
               Ok (Some ("Hecho establecido: " +:+ fact_name +:+ " = " +:+ fact_value),
                   <[fact_name := VStr fact_value]> facts)
           | (_, None) => Ok (None, facts)
           end
         else if String.eqb func_name "require_approval" then
           Ok (Some "Requiere aprobación supervisor", _require_approval facts rule)
         else Ok (None, facts)
     | None => Ok (None, facts)
     end)
    (fun _ => Ok (None, facts)).

(** The body of [if step and step.condition_result:]. *)
Definition fire (st : Run) (rule : Rule.t) (step : InferenceStep) : result Run :=
  '(action_result, facts') ← _execute_action (run_facts st) (Rule.action rule) rule;
  Ok {| run_facts := <[executed_flag (Rule.id rule) := VBool true]> facts';
        run_steps := run_steps st ++ [step];
        run_conclusions :=
          match action_result with
          | Some _ => run_conclusions st ++ [rule_name step]
          | None => run_conclusions st
          end;
        run_actions :=
          match action_result with
          | Some a => run_actions st ++ [a]
          | None => run_actions st
          end;
        iteration := iteration st |}.

(** One pass of [for rule in self.rules]: the run after the first rule
    that fires, or [None] when the pass ends with [rule_fired] false. *)
Fixpoint scan (rules : list Rule.t) (st : Run) : result (option Run) :=
  match rules with
  | [] => Ok None
  | rule :: rest =>
      go ← _should_evaluate_rule (run_facts st) rule;
      if go : bool then
        step ← _evaluate_rule (run_facts st) rule;
        match step with
        | Some s =>
            if condition_result s
            then st' ← fire st rule s; Ok (Some st')
            else scan rest st
        | None => scan rest st
        end
      else scan rest st
  end.

Definition next_iteration (st : Run) : Run :=
  {| run_facts := run_facts st; run_steps := run_steps st;
     run_conclusions := run_conclusions st; run_actions := run_actions st;
     iteration := S (iteration st) |}.

(** [while iteration < max_iterations]; [budget] is
    [max_iterations - iteration]. *)
Fixpoint while_loop (rules : list Rule.t) (budget : nat) (st : Run) : result Run :=
  match budget with
  | O => Ok st
  | S budget' =>
      let st := next_iteration st in
      fired ← scan rules st;
      match fired with
      | Some st' => while_loop rules budget' st'
      | None => Ok st
      end
  end.

Definition initial_run (initial_facts : gmap string value) : Run :=
  {| run_facts := _add_special_functions (<["now" := VTime datetime_now]> initial_facts);
     run_steps := [];
     run_conclusions := [];
     run_actions := [];
     iteration := O |}.

(** The default of the parameter [max_iterations]. *)
Definition max_iterations_default : Z := 100.

Definition run_loop (rules : list Rule.t) (initial_facts : gmap string value)
  (max_iterations : Z) : result Run :=
  while_loop rules (Z.to_nat max_iterations) (initial_run initial_facts).

Definition result_of (st : Run) : InferenceResult :=
  {| conclusions := run_conclusions st;
     actions_taken := run_actions st;
     steps := run_steps st;
     final_facts := run_facts st |}.

(** [InferenceEngine.forward_chaining], for an engine whose [self.rules]
    is [rules]. *)
Definition forward_chaining (rules : list Rule.t) (initial_facts : gmap string value)
  (max_iterations : Z) : result InferenceResult :=
  st ← run_loop rules initial_facts max_iterations;
  Ok (result_of st).

End InferenceEngine.


(** ** RulesManager.validate_condition *)

Section RulesManager.

Context `{PyRuntime}.

(** The facts a condition is tried on. *)
Definition test_facts : gmap string value :=
  <["is_weekend" := VFun (Lambda0Bool false)]>
    (<["days_since" := VFun (Lambda1Int 1)]>
       (<["hours_since" := VFun (Lambda1Int 24)]>
          (<["current_hour" := VInt 14]>
             (<["sector" := VStr "linea1"]>
                (<["validation_status" := VStr "validated"]>
                   (<["certificate_deadline" := VTime datetime_now]>
                      (<["certificate_uploaded" := VBool false]>
                         (<["ausencias_ultimo_mes" := VInt 2]>
                            (<["duracion" := VInt 5]>
                               (<["motivo" := VStr "ART"]> ∅)))))))))).

(** The text of an exception; the model keeps its class only. *)
Definition exn_message (e : exn) : string :=
  match e with
  | SyntaxError => "SyntaxError" | ValueError => "ValueError"
  | TypeError => "TypeError" | IndexError => "IndexError"
  | KeyError => "KeyError" | AttributeError => "AttributeError"
  | ZeroDivisionError => "ZeroDivisionError" | OverflowError => "OverflowError"
  | RecursionError => "RecursionError" | MemoryError => "MemoryError"
  | KeyboardInterrupt => "KeyboardInterrupt" | SystemExit => "SystemExit"
  end.

(** [isinstance(v, bool)]. *)
Definition is_bool (v : value) : bool :=
  match v with VBool _ => true | _ => false end.

(** [v is False] and [v is True]. *)
Definition is_False (v : value) : bool :=
  match v with VBool false => true | _ => false end.
Definition is_True (v : value) : bool :=
  match v with VBool true => true | _ => false end.

Definition validate_condition (condition : string) : result (bool * string) :=
  if negb (Py.truthy (VStr condition)) || negb (Py.truthy (VStr (PyStr.strip condition)))
  then Ok (false, "Condición no puede estar vacía")
  else
    try_except_Exception
      (res ← evaluate test_facts condition;
       if is_False res then Ok (true, "Condición válida (evalúa a False)")
       else if is_True res then Ok (true, "Condición válida (evalúa a True)")
       else if is_bool res then Ok (true, "Condición válida")
       else Ok (false, "La condición debe evaluar a True/False"))
      (fun e => Ok (false, "Error en condición: " +:+ PyStr.take 100 (exn_message e))).

End RulesManager.

(** ** Case-based reasoning *)

Module Case.

Record t : Type := mk {
  case_id : string;
  facts : gmap string value;
  rules_applied : list string;
  actions_taken : list string;
  outcome : string;
  feedback : option string;
  similarity_features : gmap string Qc;
  timestamp : Z;
  expert_validation : bool
}.

End Case.

Record SimilarCase : Type := {
  case : Case.t;
  similarity_score : Qc;
  matching_features : list string
}.

(** One row of the table [cases]: the key [id] and the columns. *)
Record CaseRow : Type := {
  row_id : Z;
  row_case : Case.t
}.

(** A [CaseBasedLearning] object: the list [self.cases] and the table
    [cases] of the database behind it. *)
Record CaseStore : Type := {
  cases : list Case.t;
  table : list CaseRow;
  next_row_id : Z
}.

(** One entry of ['recommendations']. *)
Record RecItem : Type := {
  rec_type : string;
  suggestion : string;
  rec_confidence : Qc
}.

(** One entry of ['similar_cases']. *)
Record NeighborSummary : Type := {
  ns_case_id : string;
  ns_similarity : Qc;
  ns_outcome : string;
  ns_matching_features : list string;
  ns_timestamp : string
}.

(** The dictionary [get_recommendations] returns, without its
    ['reasoning'] texts. *)
Record Recommendation : Type := {
  recommendations : list RecItem;
  confidence : Qc;
  similar_cases_count : nat;
  similar_cases : list NeighborSummary
}.

Definition dec (n : Z) (d : positive) : Qc := Q2Qc (Qmake n d).

Definition qc_leb (x y : Qc) : bool := Qle_bool x y.
Definition qc_ltb (x y : Qc) : bool := negb (Qle_bool y x).
Definition qc_eqb (x y : Qc) : bool := Qeq_bool x y.

Definition qc_abs (x : Qc) : Qc := if qc_leb 0 x then x else (- x)%Qc.
Definition qc_max (x y : Qc) : Qc := if qc_ltb x y then y else x.

(** [a / b]. *)
Definition py_div (a b : Qc) : result Qc :=
  if qc_eqb b 0 then Raise ZeroDivisionError else Ok (a / b)%Qc.

(** [l[:k]]. *)
Definition slice_to {A} (k : Z) (l : list A) : list A :=
  if (0 <=? k)%Z then firstn (Z.to_nat k) l
  else firstn (length l - Z.to_nat (- k)) l.

(** [d[k] += w] on a [defaultdict(int)], in insertion order. *)
Fixpoint add_vote (k : string) (w : Qc) (d : list (string * Qc)) : list (string * Qc) :=
  match d with
  | [] => [(k, (0 + w)%Qc)]
  | (k', v) :: r =>
      if String.eqb k k' then (k', (v + w)%Qc) :: r else (k', v) :: add_vote k w r
  end.

(** [max(items, key=lambda x: x[1])]: the first item of maximal value;
    [ValueError] on an empty sequence. *)
Definition max_by_value (items : list (string * Qc)) : result (string * Qc) :=
  match items with
  | [] => Raise ValueError
  | x :: r => Ok (fold_left (fun best y => if qc_ltb (snd best) (snd y) then y else best) r x)
  end.

Section CaseBasedLearning.

Context `{PyRuntime}.

(** [_load_feature_weights], in the order of the dictionary. *)
Definition feature_weights : list (string * Qc) :=
  [ ("motivo", dec 25 100);
    ("duracion", dec 20 100);
    ("ausencias_ultimo_mes", dec 15 100);
    ("validation_status", dec 10 100);
    ("certificate_uploaded", dec 15 100);
    ("sector", dec 10 100);
    ("deadline_exceeded", dec 5 100) ].

Definition motivo_map : list (string * Qc) :=
  [ ("ART", dec 1 1); ("Licencia Enfermedad Personal", dec 2 1);
    ("Licencia Enfermedad Familiar", dec 3 1);
    ("Licencia por Fallecimiento Familiar", dec 4 1);
    ("Licencia por Matrimonio", dec 5 1); ("Licencia por Paternidad", dec 6 1);
    ("Licencia por Nacimiento", dec 7 1); ("Permiso Gremial", dec 8 1) ].

Definition sector_map : list (string * Qc) :=
  [ ("linea1", dec 1 1); ("linea2", dec 2 1); ("Mantenimiento", dec 3 1);
    ("RH", dec 4 1) ].

(** [table.get(key, 0.0)] for a table keyed by strings: a key that cannot
    be hashed raises. *)
Definition table_get (tbl : list (string * Qc)) (key : value) : result Qc :=
  match key with
  | VStr s => Ok (default (dec 0 1) (Py.assoc s tbl))
  | VList _ | VDict _ => Raise TypeError
  | _ => Ok (dec 0 1)
  end.

(** [float(v)]; the builtin answers with a float. *)
Definition py_float (v : value) : result Qc :=
  r ← call_builtin Bfloat [v];
  match r with
  | VFloat q => Ok q
  | _ => Raise TypeError
  end.

Definition extract_features (facts : gmap string value) : result (gmap string Qc) :=
  motivo ← table_get motivo_map (default (VStr "") (facts !! "motivo"));
  duracion ← py_float (default (VInt 0) (facts !! "duracion"));
  ausencias ← py_float (default (VInt 0) (facts !! "ausencias_ultimo_mes"));
  let certificate_uploaded :=
    if Py.truthy (default (VBool false) (facts !! "certificate_uploaded"))
    then dec 1 1 else dec 0 1 in
  let validation_status :=
    if Py.eq (default VNone (facts !! "validation_status")) (VStr "validated")
    then dec 1 1 else dec 1 2 in
  let deadline_exceeded :=
    match facts !! "certificate_deadline" with
    | Some (VTime t) =>
        qc_max (dec 0 1) (DateTime.hours_between datetime_now t / dec 24 1)%Qc
    | _ => dec 0 1
    end in
  sector ← table_get sector_map (default (VStr "") (facts !! "sector"));
  Ok (<["sector" := sector]>
        (<["deadline_exceeded" := deadline_exceeded]>
           (<["validation_status" := validation_status]>
              (<["certificate_uploaded" := certificate_uploaded]>
                 (<["ausencias_ultimo_mes" := ausencias]>
                    (<["duracion" := duracion]>
                       (<["motivo" := motivo]> ∅))))))).

(** The similarity of two values of one feature. *)
Definition feature_sim (feature : string) (val1 val2 : Qc) : Qc :=
  if String.eqb feature "motivo" then
    (if qc_eqb val1 val2 then dec 1 1 else dec 0 1)
  else if String.eqb feature "certificate_uploaded"
          || String.eqb feature "validation_status" then
    (if qc_eqb val1 val2 then dec 1 1 else dec 0 1)
  else
    let max_val := qc_max (qc_max val1 val2) (dec 1 1) in
    (dec 1 1 - qc_abs (val1 - val2) / max_val)%Qc.

(** [not d] for a dictionary. *)
Definition dict_empty {V} (d : gmap string V) : bool :=
  match map_to_list d with [] => true | _ => false end.

Definition calculate_similarity (features1 features2 : gmap string Qc) : Qc :=
  if dict_empty features1 || dict_empty features2 then dec 0 1
  else
    let '(similarity, total_weight) :=
      fold_left
        (fun '(similarity, total_weight) '(feature, weight) =>
           match features1 !! feature, features2 !! feature with
           | Some val1, Some val2 =>
               ((similarity + feature_sim feature val1 val2 * weight)%Qc,
                (total_weight + weight)%Qc)
           | _, _ => (similarity, total_weight)
           end)
        feature_weights (dec 0 1, dec 0 1) in
    if qc_ltb (dec 0 1) total_weight then (similarity / total_weight)%Qc else dec 0 1.

(** The features of [feature_weights] on which two vectors agree
    closely. *)
Definition matching (current other : gmap string Qc) : list string :=
  fold_left
    (fun acc '(feature, _) =>
       match current !! feature, other !! feature with
       | Some a, Some b =>
           if String.eqb feature "motivo" then
             (if qc_eqb a b then acc ++ [feature] else acc)
           else if qc_ltb (qc_abs (a - b)) (dec 1 10) then acc ++ [feature]
           else acc
       | _, _ => acc
       end)
    feature_weights [].

Definition find_similar_cases (store : CaseStore) (current_facts : gmap string value)
  (top_k : Z) (min_similarity : Qc) : result (list SimilarCase) :=
  match cases store with
  | [] => Ok []
  | _ =>
      current_features ← extract_features current_facts;
      let similar_cases :=
        fold_left
          (fun acc c =>
             let similarity :=
               calculate_similarity current_features (Case.similarity_features c) in
             if qc_leb min_similarity similarity then
               acc ++ [ {| case := c;
                           similarity_score := similarity;
                           matching_features :=
                             matching current_features (Case.similarity_features c) |} ]
             else acc)
          (cases store) [] in
      let similar_cases :=
        py_sorted (fun a b => qc_leb (similarity_score b) (similarity_score a))
          similar_cases in
      Ok (slice_to top_k similar_cases)
  end.

(** The facts with every datetime replaced by its ISO text. *)
Definition serializable (facts : gmap string value) : gmap string value :=
  (fun v => match v with VTime t => VStr (DateTime.isoformat t) | _ => v end) <$> facts.

(** The content the identifier of a case is derived from. *)
Definition case_content (serializable_facts : gmap string value)
  (rules_applied actions_taken : list string) : value :=
  VDict [ ("facts", VDict (map_to_list serializable_facts));
          ("rules", VList (VStr <$> py_sorted String.leb rules_applied));
          ("actions", VList (VStr <$> py_sorted String.leb actions_taken)) ].

(** [INSERT OR REPLACE INTO cases]: the column [case_id] is unique. *)
Definition insert_or_replace (c : Case.t) (store : CaseStore) : CaseStore :=
  {| cases := cases store;
     table :=
       filter (fun r => Case.case_id (row_case r) ≠ Case.case_id c) (table store)
         ++ [ {| row_id := next_row_id store; row_case := c |} ];
     next_row_id := (next_row_id store + 1)%Z |}.

(** [store_case]: the identifier and the store afterwards.  The database
    is taken to be reachable (a failure of it is caught and logged, and
    leaves the table as it was). *)
Definition store_case (store : CaseStore) (facts : gmap string value)
  (rules_applied actions_taken : list string) (outcome : string)
  : result (string * CaseStore) :=
  let serializable_facts := serializable facts in
  case_content ← json_dumps (case_content serializable_facts rules_applied actions_taken);
  let case_id := PyStr.take 12 (md5_hexdigest case_content) in
  similarity_features ← extract_features facts;
  let new_case :=
    {| Case.case_id := case_id;
       Case.facts := serializable_facts;
       Case.rules_applied := rules_applied;
       Case.actions_taken := actions_taken;
       Case.outcome := outcome;
       Case.feedback := None;
       Case.similarity_features := similarity_features;
       Case.timestamp := datetime_now;
       Case.expert_validation := false |} in
  let store :=
    {| cases := cases store ++ [new_case];
       table := table store;
       next_row_id := next_row_id store |} in
  Ok (case_id, insert_or_replace new_case store).

(** The weighted votes of the neighbours, in the order in which their
    keys first occur. *)
Definition tally (keys : SimilarCase -> list string) (neighbors : list SimilarCase)
  : list (string * Qc) :=
  fold_left
    (fun counts sc =>
       fold_left (fun counts k => add_vote k (similarity_score sc) counts)
         (keys sc) counts)
    neighbors [].

Definition total_similarity (neighbors : list SimilarCase) : Qc :=
  fold_left (fun total sc => (total + similarity_score sc)%Qc) neighbors (dec 0 1).

(** The part of [get_recommendations] after the retrieval.  The votes for
    the rules applied are tallied by the code and then not used; they are
    left out. *)
Definition synthesize (similar : list SimilarCase) : result Recommendation :=
  let outcome_counts := tally (fun sc => [Case.outcome (case sc)]) similar in
  let action_counts := tally (fun sc => Case.actions_taken (case sc)) similar in
  let total := total_similarity similar in
  most_likely_outcome ← max_by_value outcome_counts;
  confidence ← py_div (snd most_likely_outcome) total;
  let top_actions :=
    firstn 3 (py_sorted (fun a b => qc_leb (snd b) (snd a)) action_counts) in
  let outcome_prediction :=
    {| rec_type := "outcome_prediction";
       suggestion := "Outcome más probable: " +:+ fst most_likely_outcome;
       rec_confidence := confidence |} in
  action_suggestion ←
    match top_actions with
    | top :: _ =>
        c ← py_div (snd top) total;
        Ok [ {| rec_type := "action_suggestion";
                suggestion := "Acción recomendada: " +:+ fst top;
                rec_confidence := c |} ]
    | [] => Ok []
    end;
  let pattern_alert :=
    if qc_ltb (dec 8 10) confidence
    then [ {| rec_type := "pattern_alert";
              suggestion := "Patrón muy consistente detectado";
              rec_confidence := confidence |} ]
    else [] in
  Ok {| recommendations := [outcome_prediction] ++ action_suggestion ++ pattern_alert;
        confidence := confidence;
        similar_cases_count := length similar;
        similar_cases :=
          (fun sc => {| ns_case_id := Case.case_id (case sc);
                        ns_similarity := similarity_score sc;
                        ns_outcome := Case.outcome (case sc);
                        ns_matching_features := matching_features sc;
                        ns_timestamp := DateTime.isoformat (Case.timestamp (case sc)) |})
            <$> similar |}.

Definition get_recommendations (store : CaseStore) (current_facts : gmap string value)
  : result Recommendation :=
  similar ← find_similar_cases store current_facts 5 (dec 4 10);
  match similar with
  | [] => Ok {| recommendations := []; confidence := dec 0 1;
                similar_cases_count := O; similar_cases := [] |}
  | _ => synthesize similar
  end.

End CaseBasedLearning.

(** ** RulesManager: the other validators *)

(** [self.allowed_actions]. *)
Definition allowed_actions : list string :=
  ["add_observacion"; "mark_sanction"; "require_approval"; "set_fact"].

Definition validate_action (action : string) : bool * string :=
  if negb (Py.truthy (VStr action)) || negb (Py.truthy (VStr (PyStr.strip action)))
  then (false, "Acción no puede estar vacía")
  else if negb (PyStr.contains_char PyStr.lparen action)
          || negb (PyStr.contains_char PyStr.rparen action)
  then (false, "Acción debe tener formato: función('argumentos')")
  else
    let func_name := PyStr.strip (PyStr.before_first PyStr.lparen action) in
    if negb (existsb (String.eqb func_name) allowed_actions)
    then (false, "Acción '" +:+ func_name +:+ "' no permitida. Permitidas: "
                   +:+ String.concat ", " allowed_actions)
    else if String.eqb func_name "add_observacion" then
      if negb (PyStr.contains_char PyStr.quote1 action
               || PyStr.contains_char PyStr.quote2 action)
      then (false, "add_observacion requiere un mensaje entre comillas")
      else (true, "Acción válida")
    else if String.eqb func_name "set_fact" then
      if negb (Nat.eqb (PyStr.count_char PyStr.comma action) 1)
      then (false, "set_fact requiere exactamente 2 argumentos: nombre y valor")
      else (true, "Acción válida")
    else (true, "Acción válida").

(** [isinstance(v, int)]: a [bool] is an [int]. *)
Definition is_int (v : value) : option Z :=
  match v with
  | VInt n => Some n
  | VBool b => Some (if b then 1 else 0)
  | _ => None
  end.

(** [str(v)] for an [int] or a [bool]. *)
Definition format_int (v : value) : string :=
  match v with
  | VBool true => "True"
  | VBool false => "False"
  | VInt n => NilZero.string_of_int (Z.to_int n)
  | _ => EmptyString
  end.

Definition validate_priority (priority : value) (existing_rules : list Rule.t)
  : bool * string :=
  match is_int priority with
  | None => (false, "Prioridad debe ser un número entero")
  | Some p =>
      if (p <? 1)%Z || (100 <? p)%Z
      then (false, "Prioridad debe estar entre 1 y 100")
      else
        let existing_priorities := (fun r => default 999 (Rule.priority r)) <$> existing_rules in
        if existsb (Z.eqb p) existing_priorities
        then (true, "Advertencia: Ya existe una regla con prioridad " +:+ format_int priority)
        else (true, "Prioridad válida")
  end.

(** ** CaseBasedLearning: feedback and statistics *)

Definition with_feedback (feedback : string) (expert_validation : bool) (c : Case.t)
  : Case.t :=
  {| Case.case_id := Case.case_id c;
     Case.facts := Case.facts c;
     Case.rules_applied := Case.rules_applied c;
     Case.actions_taken := Case.actions_taken c;
     Case.outcome := Case.outcome c;
     Case.feedback := Some feedback;
     Case.similarity_features := Case.similarity_features c;
     Case.timestamp := Case.timestamp c;
     Case.expert_validation := expert_validation |}.

(** The loop over [self.cases]: the first case of the identifier is
    updated, and the loop ends there. *)
Fixpoint update_first (case_id feedback : string) (expert_validation : bool)
  (l : list Case.t) : list Case.t :=
  match l with
  | [] => []
  | c :: r =>
      if String.eqb (Case.case_id c) case_id
      then with_feedback feedback expert_validation c :: r
      else c :: update_first case_id feedback expert_validation r
  end.

(** [update_case_feedback]; the [UPDATE] reaches every row of the
    identifier.  The database is taken to be reachable. *)
Definition update_case_feedback (store : CaseStore) (case_id feedback : string)
  (expert_validation : bool) : CaseStore :=
  {| cases := update_first case_id feedback expert_validation (cases store);
     table :=
       (fun r =>
          if String.eqb (Case.case_id (row_case r)) case_id
          then {| row_id := row_id r;
                  row_case := with_feedback feedback expert_validation (row_case r) |}
          else r) <$> table store;
     next_row_id := next_row_id store |}.

(** [d[k] += 1] on a [defaultdict(int)], in insertion order. *)
Fixpoint count_up (k : string) (d : list (string * Z)) : list (string * Z) :=
  match d with
  | [] => [(k, (0 + 1)%Z)]
  | (k', n) :: r =>
      if String.eqb k k' then (k', (n + 1)%Z) :: r else (k', n) :: count_up k r
  end.

Section LearningStats.

Context `{PyRuntime}.

(** [get_learning_stats]: the dictionary, in the order of its keys. *)
Definition get_learning_stats (store : CaseStore) : list (string * value) :=
  match cases store with
  | [] => [("total_cases", VInt 0)]
  | _ =>
      let week_ago := (datetime_now - 7 * DateTime.us_per_day)%Z in
      let '(outcome_dist, validated_cases, recent_cases) :=
        fold_left
          (fun '(outcome_dist, validated_cases, recent_cases) c =>
             (count_up (Case.outcome c) outcome_dist,
              if Case.expert_validation c then (validated_cases + 1)%Z else validated_cases,
              if (week_ago <=? Case.timestamp c)%Z then (recent_cases + 1)%Z
              else recent_cases))
          (cases store) ([], 0%Z, 0%Z) in
      let total := Z.of_nat (length (cases store)) in
      [ ("total_cases", VInt total);
        ("validated_cases", VInt validated_cases);
        ("validation_rate", VFloat (dec validated_cases 1 / dec total 1)%Qc);
        ("recent_cases_week", VInt recent_cases);
        ("outcome_distribution",
          VDict ((fun '(k, n) => (k, VInt n)) <$> outcome_dist));
        ("feature_weights",
          VDict ((fun '(k, w) => (k, VFloat w)) <$> feature_weights));
        ("learning_active", VBool (10 <=? total)%Z) ]
  end.

End LearningStats.

(** ** IntegratedExpertSystem: what it reads off a run *)

(** One entry of [self.processing_history]. *)
Record HistoryEntry : Type := {
  h_timestamp : Z;
  h_case_id : string;
  h_outcome : string;
  h_user_type : string
}.

(** The dictionary [get_system_stats] returns; ['outcome_distribution'] is
    built from a set, so its order is not fixed. *)
Record SystemStats : Type := {
  system_version : string;
  components : list (string * string);
  total_processed : nat;
  outcome_distribution : gmap string nat;
  learning_stats : list (string * value);
  system_health : string
}.

(** [l[-n:]] for a positive [n]. *)
Definition last_n {A} (n : nat) (l : list A) : list A := skipn (length l - n) l.

(** [l.count(x)]. *)
Definition count_str (x : string) (l : list string) : nat :=
  length (List.filter (String.eqb x) l).

(** [d[key]]. *)
Definition dict_getitem {A} (d : list (string * A)) (key : string) : result A :=
  match Py.assoc key d with
  | Some v => Ok v
  | None => Raise KeyError
  end.

Section IntegratedExpertSystem.

Context `{PyRuntime}.

(** [str.lower]. *)
Variable lower : string -> string.

Definition _determine_outcome (inference_result : InferenceResult)
  (facts : gmap string value) : string :=
  let final_facts := final_facts inference_result in
  if Py.truthy (default (VBool false) (final_facts !! "sancion_aplicada"))
  then "sanctioned"
  else if Py.truthy (default (VBool false) (final_facts !! "requiere_aprobacion"))
  then "requires_approval"
  else if Nat.eqb (length (steps inference_result)) 0
  then "auto_approved"
  else if existsb
            (fun step => PyStr.contains "error" (lower (rule_name step))
                         || PyStr.contains "crítico" (lower (rule_name step)))
            (steps inference_result)
  then "rejected"
  else if Nat.ltb 0 (length (steps inference_result))
  then "approved_with_conditions"
  else "approved".

Definition _requires_human_review (inference_result : InferenceResult)
  (cbr_recommendations : Recommendation) : bool :=
  if Py.truthy (default (VBool false) (final_facts inference_result !! "sancion_aplicada"))
  then true
  else if Py.truthy
            (default (VBool false) (final_facts inference_result !! "requiere_aprobacion"))
  then true
  else if qc_ltb (confidence cbr_recommendations) (dec 5 10)
  then true
  else if Nat.leb 4 (length (steps inference_result))
  then true
  else false.

Definition _assess_risk_level (final_facts : gmap string value) : result string :=
  let risk_score := 0%Z in
  let risk_score :=
    if Py.truthy (default (VBool false) (final_facts !! "sancion_aplicada"))
    then (risk_score + 3)%Z else risk_score in
  let risk_score :=
    if Py.eq (default VNone (final_facts !! "riesgo_empleado")) (VStr "alto")
    then (risk_score + 2)%Z else risk_score in
  let ausencias := default (VInt 0) (final_facts !! "ausencias_ultimo_mes") in
  at_least_4 ← Py.ord Py.OGe ausencias (VInt 4);
  risk_score ←
    (if at_least_4 : bool then Ok (risk_score + 2)%Z
     else
       at_least_3 ← Py.ord Py.OGe ausencias (VInt 3);
       Ok (if at_least_3 : bool then (risk_score + 1)%Z else risk_score));
  let risk_score :=
    if negb (Py.truthy (default (VBool true) (final_facts !! "certificate_uploaded")))
    then (risk_score + 1)%Z else risk_score in
  Ok (if (5 <=? risk_score)%Z then "HIGH"
      else if (3 <=? risk_score)%Z then "MEDIUM"
      else if (1 <=? risk_score)%Z then "LOW"
      else "MINIMAL").

Definition _suggest_next_actions (outcome : string) (final_facts : gmap string value)
  : result (list string) :=
  let actions :=
    if String.eqb outcome "sanctioned" then
      ["Notificar sanción al empleado y RRHH"; "Documentar en expediente personal"]
    else if String.eqb outcome "requires_approval" then
      ["Escalar a supervisor para aprobación"; "Establecer plazo para decisión"]
    else if String.eqb outcome "rejected" then
      ["Notificar rechazo con explicación detallada"; "Ofrecer alternativas si aplica"]
    else if String.eqb outcome "approved_with_conditions" then
      ["Aprobar con observaciones indicadas"] ++
      (if negb (Py.truthy (default (VBool true) (final_facts !! "certificate_uploaded")))
       then ["Solicitar certificado médico pendiente"] else [])
    else if String.eqb outcome "auto_approved" then
      ["Procesar aprobación automática"; "Enviar confirmación al empleado"]
    else [] in
  at_least_3 ←
    Py.ord Py.OGe (default (VInt 0) (final_facts !! "ausencias_ultimo_mes")) (VInt 3);
  Ok (if at_least_3 : bool then actions ++ ["Programar seguimiento con RRHH"] else actions).

Definition get_system_stats (store : CaseStore) (processing_history : list HistoryEntry)
  : result SystemStats :=
  let cbr_stats := get_learning_stats store in
  let recent_processing := length processing_history in
  let outcomes := h_outcome <$> last_n 50 processing_history in
  let outcome_dist : gmap string nat :=
    list_to_map ((fun outcome => (outcome, count_str outcome outcomes)) <$> outcomes) in
  learning_active ← dict_getitem cbr_stats "learning_active";
  Ok {| system_version := "2.0";
        components :=
          [ ("inference_engine", "active");
            ("explanation_system", "active");
            ("case_based_learning",
              if Py.truthy learning_active then "active" else "training") ];
        total_processed := recent_processing;
        outcome_distribution := outcome_dist;
        learning_stats := cbr_stats;
        system_health := "operational" |}.

End IntegratedExpertSystem.

(** ** RulesPreview: the outcome it shows for a run *)

Definition _determine_outcome_preview (final_facts : gmap string value) : string :=
  if Py.truthy (default (VBool false) (final_facts !! "sancion_aplicada"))
  then "sanctioned"
  else if Py.truthy (default (VBool false) (final_facts !! "requiere_aprobacion"))
  then "requires_approval"
  else if Py.truthy (default (VList []) (final_facts !! "observaciones"))
  then "approved_with_conditions"
  else "auto_approved".

(** * Properties *)

(** ** Exceptions *)

Lemma bind_raises_only_Exception {A B} (r : result A) (k : A -> result B) :
  raises_only_Exception r ->
  (forall a, r = Ok a -> raises_only_Exception (k a)) ->
  raises_only_Exception (r ≫= k).
Proof.
  intros Hr Hk e. destruct r as [a|e']; simpl.
  - intros Hk'. exact (Hk a eq_refl e Hk').
  - intros He. apply Hr. congruence.
Qed.

Lemma ok_raises_only_Exception {A} (a : A) : raises_only_Exception (Ok a).
Proof. intros e; discriminate. Qed.

Lemma raise_raises_only_Exception {A} (e : exn) :
  is_Exception e = true -> raises_only_Exception (@Raise A e).
Proof. intros He e' [= <-]. exact He. Qed.

Create HintDb pyexn.
#[local] Hint Resolve ok_raises_only_Exception : pyexn.
#[local] Hint Extern 1 (raises_only_Exception (Raise _)) =>
  apply raise_raises_only_Exception; reflexivity : pyexn.

(** What a computation that returned shows of its result. *)
Lemma observe_inv {A B} (r : result A) (f : A -> B) (b : B) :
  (x ← r; Ok (f x)) = Ok b -> exists x, r = Ok x /\ f x = b.
Proof.
  destruct r as [x|e]; simpl; [|discriminate]. intros [= <-]. now exists x.
Qed.

Lemma try_except_returns {A} (c : result A) (h : exn -> result A) :
  raises_only_Exception c ->
  (forall e, exists a, h e = Ok a) ->
  exists a, try_except_Exception c h = Ok a.
Proof.
  intros Hc Hh. destruct c as [a|e]; simpl.
  - now exists a.
  - rewrite (Hc e eq_refl). apply Hh.
Qed.

Lemma try_except_raise {A} (c : result A) (h : exn -> result A) (e : exn) :
  raises_only_Exception c -> c = Raise e -> try_except_Exception c h = h e.
Proof. intros Hc ->. simpl. now rewrite (Hc e eq_refl). Qed.

Lemma mapM_raises_only_Exception {A B} (f : A -> result B) (l : list A) :
  Forall (fun x => raises_only_Exception (f x)) l ->
  raises_only_Exception (mapM f l).
Proof.
  induction 1 as [|x r Hx Hr IH]; simpl.
  - auto with pyexn.
  - apply bind_raises_only_Exception; [exact Hx|]. intros y _.
    apply bind_raises_only_Exception; [exact IH|]. intros ys _.
    auto with pyexn.
Qed.

(** Induction on a syntax tree, with the hypotheses for the sub-trees that
    are held in lists. *)
Lemma ast_expr_ind (P : ast.expr -> Prop)
  (HConstant : forall v, P (ast.Constant v))
  (HName : forall id, P (ast.Name id))
  (HList : forall elts, Forall P elts -> P (ast.List_ elts))
  (HCompare : forall l ops cs, P l -> Forall P cs -> P (ast.Compare l ops cs))
  (HBoolOp : forall op vs, Forall P vs -> P (ast.BoolOp op vs))
  (HUnaryOp : forall op e, P e -> P (ast.UnaryOp op e))
  (HCall : forall f args, P f -> Forall P args -> P (ast.Call f args))
  (HBinOp : forall l op r, P l -> P r -> P (ast.BinOp l op r))
  (HAttribute : forall e a, P e -> P (ast.Attribute e a))
  (HSubscript : forall e i, P e -> P i -> P (ast.Subscript e i))
  (HStarred : forall e, P e -> P (ast.Starred e))
  (HOther : forall k, P (ast.Other k)) :
  forall e, P e.
Proof.
  fix IH 1. intros e.
  assert (IHs : forall l : list ast.expr, Forall P l).
  { fix IHl 1. intros [|x l]; constructor; [apply IH | apply IHl]. }
  destruct e.
  - apply HConstant.
  - apply HName.
  - apply HList, IHs.
  - apply HCompare; [apply IH | apply IHs].
  - apply HBoolOp, IHs.
  - apply HUnaryOp, IH.
  - apply HCall; [apply IH | apply IHs].
  - apply HBinOp; apply IH.
  - apply HAttribute, IH.
  - apply HSubscript; apply IH.
  - apply HStarred, IH.
  - apply HOther.
Qed.

(** Induction on a value, with the hypotheses for the elements of a
    list. *)
Lemma value_list_ind (P : value -> Prop)
  (HNone : P VNone) (HBool : forall b, P (VBool b)) (HInt : forall n, P (VInt n))
  (HFloat : forall q, P (VFloat q)) (HStr : forall s, P (VStr s))
  (HList : forall l, Forall P l -> P (VList l))
  (HDict : forall d, P (VDict d)) (HTime : forall t, P (VTime t))
  (HFun : forall f, P (VFun f)) :
  forall v, P v.
Proof.
  fix IH 1. intros v.
  assert (IHs : forall l : list value, Forall P l).
  { fix IHl 1. intros [|x l]; constructor; [apply IH | apply IHl]. }
  destruct v;
    [apply HNone | apply HBool | apply HInt | apply HFloat | apply HStr
    | apply HList, IHs | apply HDict | apply HTime | apply HFun].
Qed.

Lemma ord_raises_only_Exception op a b : raises_only_Exception (Py.ord op a b).
Proof.
  revert b. induction a as [| | | | |la IH|da|t|f] using value_list_ind; intros b'.
  all: try (destruct b'; simpl;
            repeat match goal with
                   | |- context [if ?c then _ else _] => destruct c
                   end; auto with pyexn; fail).
  destruct b' as [| | | | |lb| | |]; simpl; auto with pyexn.
  revert lb. induction IH as [|x la Hx _ IHla]; intros [|y lb]; auto with pyexn.
  destruct (Py.eq x y); [apply IHla | apply Hx].
Qed.

Lemma contains_raises_only_Exception x c : raises_only_Exception (Py.contains x c).
Proof. destruct c, x; simpl; auto with pyexn. Qed.

Section EvaluatorFacts.

Context `{PyRuntime}.

Lemma lift_bool_raises_only_Exception r :
  raises_only_Exception r -> raises_only_Exception (lift_bool r).
Proof.
  intros Hr. apply bind_raises_only_Exception; [exact Hr|]. auto with pyexn.
Qed.

Lemma cmp_raises_only_Exception op f x y :
  ALLOWED_OPERATORS_cmp op = Some f -> raises_only_Exception (f x y).
Proof.
  destruct op; intros [= <-]; auto with pyexn;
    try (apply lift_bool_raises_only_Exception;
         first [apply ord_raises_only_Exception | apply contains_raises_only_Exception]).
  apply bind_raises_only_Exception;
    [apply contains_raises_only_Exception | auto with pyexn].
Qed.

Lemma call_raises_only_Exception f args : raises_only_Exception (call f args).
Proof.
  destruct f; simpl; [apply call_builtin_exn|..];
    repeat match goal with
           | |- context [match ?l with _ => _ end] => destruct l
           end; auto with pyexn.
Qed.

Lemma _eval_node_raises_only_Exception facts node :
  raises_only_Exception (_eval_node facts node).
Proof.
  induction node using ast_expr_ind; simpl; auto with pyexn.
  - destruct (ALLOWED_FUNCTIONS id); auto with pyexn.
  - apply bind_raises_only_Exception; [now apply mapM_raises_only_Exception|].
    auto with pyexn.
  - apply bind_raises_only_Exception; [assumption|]. intros l0 _.
    generalize (VBool true) as res. revert ops l0.
    induction H0 as [|c cs Hc _ IHcs]; intros [|op ops] l0 res; auto with pyexn.
    apply bind_raises_only_Exception; [exact Hc|]. intros r _.
    destruct (ALLOWED_OPERATORS_cmp op) as [f|] eqn:Hop; auto with pyexn.
    apply bind_raises_only_Exception; [|intros; apply IHcs].
    destruct (Py.truthy res); [exact (cmp_raises_only_Exception _ _ _ _ Hop) | auto with pyexn].
  - destruct (ALLOWED_OPERATORS_bool op); auto with pyexn.
    apply bind_raises_only_Exception; [now apply mapM_raises_only_Exception|].
    intros [|v0 rest] _; auto with pyexn.
  - destruct (ALLOWED_OPERATORS_unary op); auto with pyexn.
    apply bind_raises_only_Exception; [assumption | auto with pyexn].
  - destruct node; auto with pyexn.
    destruct (ALLOWED_FUNCTIONS id).
    + apply bind_raises_only_Exception; [now apply mapM_raises_only_Exception|].
      intros; apply call_builtin_exn.
    + destruct (facts !! id) as [[]|]; auto with pyexn.
      apply bind_raises_only_Exception; [now apply mapM_raises_only_Exception|].
      intros; apply call_raises_only_Exception.
Qed.

Lemma parse_eval_raises_only_Exception facts text :
  raises_only_Exception (tree ← ast_parse text; _eval_node facts tree).
Proof.
  apply bind_raises_only_Exception; [apply ast_parse_exn|].
  intros; apply _eval_node_raises_only_Exception.
Qed.

(** [evaluate] returns: what its body raises is caught. *)
Lemma evaluate_returns facts text : exists v, evaluate facts text = Ok v.
Proof.
  apply try_except_returns; [apply parse_eval_raises_only_Exception|].
  intros _. now eexists.
Qed.

Lemma evaluate_failure facts text e :
  (tree ← ast_parse text; _eval_node facts tree) = Raise e ->
  evaluate facts text = Ok (VBool false).
Proof.
  intros He. unfold evaluate.
  erewrite try_except_raise; [reflexivity| |exact He].
  apply parse_eval_raises_only_Exception.
Qed.

Lemma evaluate_parsed facts text tree v :
  ast_parse text = Ok tree -> _eval_node facts tree = Ok v ->
  evaluate facts text = Ok v.
Proof. intros Hp Hv. unfold evaluate. rewrite Hp. simpl. now rewrite Hv. Qed.

(** A comparison with one operator. *)
Lemma _eval_node_compare1 facts lhs op rhs f :
  ALLOWED_OPERATORS_cmp op = Some f ->
  _eval_node facts (ast.Compare lhs [op] [rhs]) =
    (l ← _eval_node facts lhs; r ← _eval_node facts rhs; res ← f l r; Ok res).
Proof.
  intros Hop. cbn [_eval_node]. rewrite Hop.
  destruct (_eval_node facts lhs) as [l|]; [|reflexivity]. cbn [mbind result_bind bind].
  destruct (_eval_node facts rhs) as [r|]; reflexivity.
Qed.

End EvaluatorFacts.

(** ** A runtime to run the examples on

    The theorems hold for every [PyRuntime].  The closed examples need one:
    [Demo.runtime]
    - knows the syntax trees of the condition texts that occur in the
      examples; every other text is a [SyntaxError] for it;
    - has the builtins [len], [bool] and [abs], and [float] on numbers; its
      other builtin calls raise [TypeError];
    - serialises [None], booleans, integers, lists, dictionaries and the
      strings in which JSON escapes nothing but quotes and backslashes;
    - knows the MD5 digest of the one case content that is stored in the
      examples;
    - has its clock at 2025-11-05T12:00:00, a Wednesday. *)

Module Demo.

Definition parse_table : list (string * result ast.expr) :=
  [ ("True", Ok (ast.Constant (VBool true)));
    ("False", Ok (ast.Constant (VBool false)));
    ("duracion", Ok (ast.Name "duracion"));
    ("duracion > 5",
      Ok (ast.Compare (ast.Name "duracion") [ast.Gt] [ast.Constant (VInt 5)]));
    ("nivel == 5",
      Ok (ast.Compare (ast.Name "nivel") [ast.Eq] [ast.Constant (VInt 5)]));
    ("nivel > 3",
      Ok (ast.Compare (ast.Name "nivel") [ast.Gt] [ast.Constant (VInt 3)]));
    ("unlock == 'yes'",
      Ok (ast.Compare (ast.Name "unlock") [ast.Eq] [ast.Constant (VStr "yes")]));
    ("riesgo == 'alto'",
      Ok (ast.Compare (ast.Name "riesgo") [ast.Eq] [ast.Constant (VStr "alto")]));
    ("motivo in ['ART'] and not certificate_uploaded",
      Ok (ast.BoolOp ast.And
            [ast.Compare (ast.Name "motivo") [ast.In]
               [ast.List_ [ast.Constant (VStr "ART")]];
             ast.UnaryOp ast.Not (ast.Name "certificate_uploaded")]));
    ("days_since(certificate_deadline) > 30",
      Ok (ast.Compare
            (ast.Call (ast.Name "days_since") [ast.Name "certificate_deadline"])
            [ast.Gt] [ast.Constant (VInt 30)]));
    ("hours_since(certificate_deadline) > 24",
      Ok (ast.Compare
            (ast.Call (ast.Name "hours_since") [ast.Name "certificate_deadline"])
            [ast.Gt] [ast.Constant (VInt 24)]));
    ("duracion + 1 > 5",
      Ok (ast.Compare
            (ast.BinOp (ast.Name "duracion") "Add" (ast.Constant (VInt 1)))
            [ast.Gt] [ast.Constant (VInt 5)]));
    ("motivo.upper() == 'ART'",
      Ok (ast.Compare
            (ast.Call (ast.Attribute (ast.Name "motivo") "upper") [])
            [ast.Eq] [ast.Constant (VStr "ART")]));
    ("open('x')", Ok (ast.Call (ast.Name "open") [ast.Constant (VStr "x")]));
    ("foo(", Raise SyntaxError);
    ("import os", Raise SyntaxError);
    ("duracion === 5", Raise SyntaxError) ].

Definition parse (text : string) : result ast.expr :=
  default (Raise SyntaxError) (Py.assoc text parse_table).

Definition builtins (b : builtin) (args : list value) : result value :=
  match b, args with
  | Blen, [VStr s] => Ok (VInt (Z.of_nat (String.length s)))
  | Blen, [VList l] => Ok (VInt (Z.of_nat (length l)))
  | Blen, [VDict d] => Ok (VInt (Z.of_nat (length d)))
  | Bbool, [] => Ok (VBool false)
  | Bbool, [v] => Ok (VBool (Py.truthy v))
  | Babs, [VInt n] => Ok (VInt (Z.abs n))
  | Babs, [VBool b] => Ok (VInt (if b then 1 else 0))
  | Bfloat, [VInt n] => Ok (VFloat (dec n 1))
  | Bfloat, [VBool b] => Ok (VFloat (dec (if b then 1 else 0) 1))
  | Bfloat, [VFloat q] => Ok (VFloat q)
  | _, _ => Raise TypeError
  end.

Fixpoint escape (s : string) : string :=
  match s with
  | EmptyString => EmptyString
  | String a r =>
      if Ascii.eqb a PyStr.quote2 || Ascii.eqb a (ascii_of_nat 92)
      then String (ascii_of_nat 92) (String a (escape r))
      else String a (escape r)
  end.

Definition quoted (s : string) : string :=
  String PyStr.quote2 (escape s) +:+ String PyStr.quote2 EmptyString.

Fixpoint join (sep : string) (l : list string) : string :=
  match l with
  | [] => EmptyString
  | [x] => x
  | x :: r => x +:+ sep +:+ join sep r
  end.

Fixpoint dumps (v : value) : result string :=
  match v with
  | VNone => Ok "null"
  | VBool b => Ok (if b then "true" else "false")
  | VInt n => Ok (NilZero.string_of_int (Z.to_int n))
  | VStr s => Ok (quoted s)
  | VList l =>
      items ← mapM dumps l; Ok ("[" +:+ join ", " items +:+ "]")
  | VDict d =>
      entries ←
        (fix go (d : list (string * value)) : result (list (string * string)) :=
           match d with
           | [] => Ok []
           | (k, x) :: r => t ← dumps x; ts ← go r; Ok ((k, t) :: ts)
           end) d;
      let sorted := py_sorted (fun a b => String.leb (fst a) (fst b)) entries in
      Ok ("{" +:+ join ", " ((fun e => quoted (fst e) +:+ ": " +:+ snd e) <$> sorted) +:+ "}")
  | VFloat _ | VTime _ | VFun _ => Raise TypeError
  end.

(** The content of the case stored in the examples. *)
Definition example_content : value :=
  VDict [ ("facts", VDict [("motivo", VStr "ART"); ("duracion", VInt 5)]);
          ("rules", VList [VStr "cert_missing_critical"]);
          ("actions", VList [VStr "add_observacion"]) ].

Definition md5_table : list (string * string) :=
  match dumps example_content with
  | Ok text => [(text, "29ac73e26bfb49cbd5b52867cdf60e84")]
  | Raise _ => []
  end.

Definition md5 (text : string) : string :=
  default EmptyString (Py.assoc text md5_table).

Lemma parse_exn text : raises_only_Exception (parse text).
Proof.
  unfold parse. intros e He.
  assert (Hall : Forall (fun p => raises_only_Exception (snd p)) parse_table).
  { repeat constructor; intros e'; simpl; intros He'; inversion He'; reflexivity. }
  induction Hall as [|[k r] tbl Hr _ IH]; simpl in He.
  - inversion He. reflexivity.
  - destruct (String.eqb text k); [exact (Hr e He) | exact (IH He)].
Qed.

Lemma builtins_exn b args : raises_only_Exception (builtins b args).
Proof.
  intros e He.
  assert (e = TypeError) as ->; [|reflexivity].
  unfold builtins in He.
  repeat match type of He with
         | match ?x with _ => _ end = _ => destruct x
         end; congruence.
Qed.

#[export] Instance runtime : PyRuntime := {|
  ast_parse := parse;
  call_builtin := builtins;
  datetime_now := 1762344000000000;
  json_dumps := dumps;
  md5_hexdigest := md5;
  ast_parse_exn := parse_exn;
  call_builtin_exn := builtins_exn
|}.

End Demo.

(** ** The evaluator never raises *)



Example ex_scenario1 :
  @evaluate Demo.runtime (<["duracion" := VInt 8]> ∅) "duracion > 5" = Ok (VBool true) /\
  @evaluate Demo.runtime (<["duracion" := VInt 3]> ∅) "duracion > 5" = Ok (VBool false).
Proof. split; vm_compute; reflexivity. Qed.

Example ex_arithmetic_is_rejected :
  @evaluate Demo.runtime (<["duracion" := VInt 8]> ∅) "duracion + 1 > 5" = Ok (VBool false).
Proof. vm_compute; reflexivity. Qed.

Example ex_clock :
  DateTime.isoformat (@datetime_now Demo.runtime) = "2025-11-05T12:00:00" /\
  DateTime.weekday (@datetime_now Demo.runtime) = 2 /\
  DateTime.hour (@datetime_now Demo.runtime) = 12 /\
  DateTime.isoformat 951782400000001 = "2000-02-29T00:00:00.000001".
Proof. repeat split; vm_compute; reflexivity. Qed.

(** ** Stable sorting *)

Lemma StronglySorted_mono {A} (R S : A -> A -> Prop) (l : list A) :
  (forall a b, R a b -> S a b) -> StronglySorted R l -> StronglySorted S l.
Proof.
  intros HRS. induction 1 as [|x l Hl IH Hx]; constructor; [exact IH|].
  eapply Forall_impl; [exact Hx|]. intros y. apply HRS.
Qed.

Section StableSortFacts.

Context {A : Type} (le : A -> A -> bool).

Lemma insert_sorted_perm x l : Permutation (insert_sorted le x l) (x :: l).
Proof.
  induction l as [|y l IH]; simpl; [reflexivity|].
  destruct (le x y); [reflexivity|].
  rewrite IH. apply perm_swap.
Qed.

Lemma py_sorted_perm l : Permutation (py_sorted le l) l.
Proof.
  induction l as [|x l IH]; simpl; [reflexivity|].
  rewrite insert_sorted_perm. now constructor.
Qed.

Lemma py_sorted_length l : length (py_sorted le l) = length l.
Proof. apply Permutation_length, py_sorted_perm. Qed.

Hypothesis le_total : forall x y, le x y = false -> le y x = true.
Hypothesis le_trans : forall x y z, le x y = true -> le y z = true -> le x z = true.

Lemma insert_sorted_sorted x l :
  StronglySorted (fun a b => le a b = true) l ->
  StronglySorted (fun a b => le a b = true) (insert_sorted le x l).
Proof.
  induction 1 as [|y l Hl IH Hy]; simpl.
  - repeat constructor.
  - destruct (le x y) eqn:Hxy.
    + constructor; [now constructor|].
      constructor; [exact Hxy|].
      eapply Forall_impl; [exact Hy|]. intros z Hz. now apply (le_trans x y z).
    + constructor; [exact IH|].
      eapply Permutation_Forall; [symmetry; apply insert_sorted_perm|].
      constructor; [now apply le_total | exact Hy].
Qed.

Lemma py_sorted_sorted l : StronglySorted (fun a b => le a b = true) (py_sorted le l).
Proof.
  induction l as [|x l IH]; simpl; [constructor | now apply insert_sorted_sorted].
Qed.

End StableSortFacts.

Section Stability.

Context {A : Type} (le : A -> A -> bool) (P : A -> bool).

(** [P] picks elements that are tied with one another. *)
Hypothesis tied : forall x y, P x = true -> P y = true -> le x y = true.

Lemma filter_insert_sorted x l :
  List.filter P (insert_sorted le x l) =
  if P x then x :: List.filter P l else List.filter P l.
Proof.
  induction l as [|y l IH]; simpl; [reflexivity|].
  destruct (le x y) eqn:Hxy; simpl; [reflexivity|].
  rewrite IH. destruct (P x) eqn:Hx, (P y) eqn:Hy; try reflexivity.
  now rewrite (tied x y Hx Hy) in Hxy.
Qed.

(** Sorting keeps the order of the elements that are tied. *)
Lemma py_sorted_stable l : List.filter P (py_sorted le l) = List.filter P l.
Proof.
  induction l as [|x l IH]; simpl; [reflexivity|].
  rewrite filter_insert_sorted, IH. reflexivity.
Qed.

End Stability.

(** ** One pass over the rules *)


(** The value of the [executed] flag of a rule, as
    [facts.get(flag, False)] reads it. *)
Definition flag_value (facts : gmap string value) (id : string) : value :=
  default (VBool false) (facts !! executed_flag id).

Lemma executed_flag_reserved id :
  executed_flag id <> "observaciones" /\
  executed_flag id <> "sancion_aplicada" /\ executed_flag id <> "sancion_motivo" /\
  executed_flag id <> "requiere_aprobacion" /\ executed_flag id <> "aprobacion_motivo".
Proof. unfold executed_flag; simpl; repeat split; discriminate. Qed.

Section EngineFacts.

Context `{PyRuntime}.

Lemma _should_evaluate_rule_returns facts rule :
  exists b, _should_evaluate_rule facts rule = Ok b.
Proof.
  unfold _should_evaluate_rule.
  destruct (Py.truthy (default _ _)); [eauto|].
  destruct (Rule.activation_condition rule) as [ac|]; [|eauto].
  destruct (Py.truthy (VStr ac)); [|eauto].
  destruct (evaluate_returns facts ac) as [v ->]. simpl. eauto.
Qed.

Lemma _should_evaluate_rule_flag facts rule :
  _should_evaluate_rule facts rule = Ok true ->
  Py.truthy (flag_value facts (Rule.id rule)) = false.
Proof.
  unfold _should_evaluate_rule, flag_value.
  destruct (Py.truthy (default _ _)); [discriminate | reflexivity].
Qed.

(** A rule with no flag and no activation condition is evaluated. *)
Lemma _should_evaluate_rule_plain facts rule :
  Py.truthy (flag_value facts (Rule.id rule)) = false ->
  Rule.activation_condition rule = None ->
  _should_evaluate_rule facts rule = Ok true.
Proof.
  unfold _should_evaluate_rule, flag_value. now intros -> ->.
Qed.

Lemma _evaluate_rule_spec facts rule :
  exists v, evaluate facts (Rule.condition rule) = Ok v /\
            _evaluate_rule facts rule = Ok (Some (make_step facts rule v)).
Proof.
  destruct (evaluate_returns facts (Rule.condition rule)) as [v Hv].
  exists v. split; [exact Hv|]. unfold _evaluate_rule. now rewrite Hv.
Qed.

(** What [_execute_action] can do to the facts. *)
Inductive action_effect (facts : gmap string value) (action : string) (rule : Rule.t)
  : option string -> gmap string value -> Prop :=
| effect_none : action_effect facts action rule None facts
| effect_observacion msg l :
    action_effect facts action rule (Some msg) (<["observaciones" := VList l]> facts)
| effect_sanction :
    action_effect facts action rule (Some "Sanción aplicada") (_mark_sanction facts rule)
| effect_approval :
    action_effect facts action rule (Some "Requiere aprobación supervisor")
      (_require_approval facts rule)
| effect_set_fact fact_name fact_value :
    set_fact_call action = Some (fact_name, fact_value) ->
    action_effect facts action rule
      (Some ("Hecho establecido: " +:+ fact_name +:+ " = " +:+ fact_value))
      (<[fact_name := VStr fact_value]> facts).

Lemma _execute_action_spec facts action rule :
  exists r facts', _execute_action facts action rule = Ok (r, facts') /\
                   action_effect facts action rule r facts'.
Proof.
  unfold _execute_action.
  destruct (parse_call action) as [[func_name args_str]|] eqn:Hp; simpl;
    [|eauto using action_effect].
  destruct (String.eqb func_name "add_observacion") eqn:E1.
  { unfold _add_observacion.
    destruct (facts !! "observaciones") as [[]|]; simpl; eauto using action_effect. }
  destruct (String.eqb func_name "mark_sanction") eqn:E2;
    [simpl; eauto using action_effect|].
  destruct (String.eqb func_name "set_fact") eqn:E3.
  { destruct (PyStr.split1 PyStr.comma args_str) as [part0 [part1|]] eqn:Es; simpl;
      [|eauto using action_effect].
    do 2 eexists; split; [reflexivity|]. apply effect_set_fact.
    unfold set_fact_call. now rewrite Hp, E3, Es. }
  destruct (String.eqb func_name "require_approval"); simpl; eauto using action_effect.
Qed.

Lemma fire_spec st rule step :
  exists r facts',
    _execute_action (run_facts st) (Rule.action rule) rule = Ok (r, facts') /\
    action_effect (run_facts st) (Rule.action rule) rule r facts' /\
    fire st rule step =
      Ok {| run_facts := <[executed_flag (Rule.id rule) := VBool true]> facts';
            run_steps := run_steps st ++ [step];
            run_conclusions :=
              match r with
              | Some _ => run_conclusions st ++ [rule_name step]
              | None => run_conclusions st
              end;
            run_actions :=
              match r with Some a => run_actions st ++ [a] | None => run_actions st end;
            iteration := iteration st |}.
Proof.
  destruct (_execute_action_spec (run_facts st) (Rule.action rule) rule)
    as (r & facts' & He & Heff).
  exists r, facts'. repeat split; [exact He | exact Heff |].
  unfold fire. now rewrite He.
Qed.

(** When a rule fires in a pass. *)
Definition fires (st : Run) (rule : Rule.t) : Prop :=
  _should_evaluate_rule (run_facts st) rule = Ok true /\
  exists v, evaluate (run_facts st) (Rule.condition rule) = Ok v /\ Py.truthy v = true.

Definition fires_not (st : Run) (rule : Rule.t) : Prop :=
  _should_evaluate_rule (run_facts st) rule = Ok false \/
  exists v, evaluate (run_facts st) (Rule.condition rule) = Ok v /\ Py.truthy v = false.

Lemma fires_dec st rule : fires st rule \/ fires_not st rule.
Proof.
  unfold fires, fires_not.
  destruct (_should_evaluate_rule_returns (run_facts st) rule) as [[] Hb]; [|auto].
  destruct (evaluate_returns (run_facts st) (Rule.condition rule)) as [v Hv].
  destruct (Py.truthy v) eqn:Ht; [left | right]; eauto.
Qed.

Lemma scan_cons_fires st rule rest :
  fires st rule ->
  scan (rule :: rest) st =
    (st' ← fire st rule
            (make_step (run_facts st) rule
               (default VNone (match evaluate (run_facts st) (Rule.condition rule) with
                               | Ok v => Some v | Raise _ => None end)));
     Ok (Some st')).
Proof.
  intros [Hs (v & Hv & Ht)]. simpl. rewrite Hs. simpl.
  unfold _evaluate_rule. rewrite Hv. simpl. now rewrite Ht.
Qed.

Lemma scan_cons_fires_not st rule rest :
  fires_not st rule -> scan (rule :: rest) st = scan rest st.
Proof.
  intros [Hs | (v & Hv & Ht)]; simpl.
  - now rewrite Hs.
  - destruct (_should_evaluate_rule_returns (run_facts st) rule) as [[] ->]; simpl;
      [|reflexivity].
    unfold _evaluate_rule. rewrite Hv. simpl. now rewrite Ht.
Qed.

(** The outcome of a pass: no rule fires, or the first rule that fires
    does. *)
Lemma scan_spec rules st :
  (scan rules st = Ok None /\ Forall (fires_not st) rules) \/
  (exists pre rule post v r facts',
      rules = pre ++ rule :: post /\
      Forall (fires_not st) pre /\
      _should_evaluate_rule (run_facts st) rule = Ok true /\
      evaluate (run_facts st) (Rule.condition rule) = Ok v /\ Py.truthy v = true /\
      _execute_action (run_facts st) (Rule.action rule) rule = Ok (r, facts') /\
      action_effect (run_facts st) (Rule.action rule) rule r facts' /\
      scan rules st =
        Ok (Some {| run_facts := <[executed_flag (Rule.id rule) := VBool true]> facts';
                    run_steps := run_steps st ++ [make_step (run_facts st) rule v];
                    run_conclusions :=
                      match r with
                      | Some _ => run_conclusions st ++ [Rule.name rule]
                      | None => run_conclusions st
                      end;
                    run_actions :=
                      match r with
                      | Some a => run_actions st ++ [a]
                      | None => run_actions st
                      end;
                    iteration := iteration st |})).
Proof.
  induction rules as [|rule rest IH].
  - left. split; [reflexivity | constructor].
  - destruct (fires_dec st rule) as [Hf | Hn].
    + right. pose proof Hf as [Hs (v & Hv & Ht)].
      destruct (fire_spec st rule (make_step (run_facts st) rule v))
        as (r & facts' & He & Heff & Hfire).
      exists [], rule, rest, v, r, facts'.
      repeat split; auto.
      rewrite (scan_cons_fires _ _ _ Hf), Hv. simpl. now rewrite Hfire.
    + rewrite (scan_cons_fires_not _ _ _ Hn).
      destruct IH as [[Hnone Hall] | (pre & r0 & post & v & r & facts' & -> & Hpre & Hrest)].
      * left. split; [exact Hnone | now constructor].
      * right. exists (rule :: pre), r0, post, v, r, facts'.
        split; [reflexivity|]. split; [now constructor | exact Hrest].
Qed.

Lemma scan_returns rules st : exists r, scan rules st = Ok r.
Proof.
  destruct (scan_spec rules st) as [[-> _] | (? & ? & ? & ? & ? & ? & _ & _ & _ & _ & _ & _ & _ & ->)];
    eauto.
Qed.

End EngineFacts.

(** ** Termination and the [executed] flags *)

(** No [set_fact] action of the rule set writes the empty text into the
    [executed] flag of a rule of the set. *)
Definition flags_kept (rules : list Rule.t) : Prop :=
  forall r r', r ∈ rules -> r' ∈ rules ->
    set_fact_call (Rule.action r) <> Some (executed_flag (Rule.id r'), EmptyString).

(** No rule has two steps in the trace. *)
Definition fires_at_most_once (trace : list InferenceStep) : Prop :=
  NoDup (rule_id <$> trace).

Section Termination.

Context `{PyRuntime}.

Lemma action_effect_keeps_flag facts action rule r facts' id :
  action_effect facts action rule r facts' ->
  set_fact_call action <> Some (executed_flag id, EmptyString) ->
  Py.truthy (flag_value facts id) = true ->
  Py.truthy (flag_value facts' id) = true.
Proof.
  destruct (executed_flag_reserved id) as (Ho & Hs1 & Hs2 & Ha1 & Ha2).
  intros Heff Hset Ht. unfold flag_value in *.
  destruct Heff as [|msg l| | |n v Hcall].
  - exact Ht.
  - now rewrite lookup_insert_ne.
  - unfold _mark_sanction. now rewrite !lookup_insert_ne.
  - unfold _require_approval. now rewrite !lookup_insert_ne.
  - destruct (decide (n = executed_flag id)) as [->|Hne].
    + rewrite lookup_insert_eq. simpl.
      destruct v; [|reflexivity]. now rewrite Hcall in Hset.
    + now rewrite lookup_insert_ne.
Qed.

(** The invariant of the loop: the rules that have a step are rules of the
    set, have one step each, and have their flag set. *)
Definition fired_once (rules : list Rule.t) (st : Run) : Prop :=
  fires_at_most_once (run_steps st) /\
  forall id, id ∈ rule_id <$> run_steps st ->
    (exists r, r ∈ rules /\ Rule.id r = id) /\
    Py.truthy (flag_value (run_facts st) id) = true.

Lemma scan_keeps_fired_once rules st st' :
  flags_kept rules -> fired_once rules st ->
  scan rules st = Ok (Some st') -> fired_once rules st'.
Proof.
  intros Hkept [Hnd Hfl] Hscan.
  destruct (scan_spec rules st) as [[Hnone _] |
    (pre & rule & post & v & r & facts' & Hrules & _ & Hs & _ & _ & _ & Heff & Heq)];
    [congruence|].
  rewrite Heq in Hscan. injection Hscan as <-.
  assert (Hin : rule ∈ rules) by (rewrite Hrules; apply elem_of_app; right; constructor).
  pose proof (_should_evaluate_rule_flag _ _ Hs) as Hflag.
  assert (Hfresh : Rule.id rule ∉ rule_id <$> run_steps st).
  { intros Hmem. pose proof (proj2 (Hfl _ Hmem)) as Ht. congruence. }
  unfold fired_once, fires_at_most_once. simpl. rewrite fmap_app. simpl. split.
  - apply NoDup_app. repeat split; [exact Hnd | | apply NoDup_singleton].
    intros x Hx Hx'. apply list_elem_of_singleton in Hx'. now subst.
  - intros id Hid. apply elem_of_app in Hid as [Hid | Hid].
    + destruct (Hfl _ Hid) as [(r0 & Hr0 & Hid0) Ht]. split; [eauto|].
      unfold flag_value.
      destruct (decide (executed_flag (Rule.id rule) = executed_flag id)) as [->|Hne];
        [now rewrite lookup_insert_eq|].
      rewrite lookup_insert_ne by exact Hne.
      eapply action_effect_keeps_flag; [exact Heff | | exact Ht].
      subst id. now apply Hkept.
    + apply list_elem_of_singleton in Hid as ->. split; [eauto|].
      unfold flag_value. now rewrite lookup_insert_eq.
Qed.

Lemma scan_grows rules st st' :
  scan rules st = Ok (Some st') ->
  iteration st' = iteration st /\
  exists s, run_steps st' = run_steps st ++ [s].
Proof.
  intros Hscan.
  destruct (scan_spec rules st) as [[Hnone _] |
    (pre & rule & post & v & r & facts' & _ & _ & _ & _ & _ & _ & _ & Heq)];
    [congruence|].
  rewrite Heq in Hscan. injection Hscan as <-. simpl. eauto.
Qed.

(** The loop returns; it makes at most [budget] passes, each of which but
    the last adds one step, and when it stops with budget left its last pass
    fired no rule. *)
Lemma while_loop_spec rules budget st :
  exists st' new,
    while_loop rules budget st = Ok st' /\
    run_steps st' = run_steps st ++ new /\
    (iteration st' <= iteration st + budget)%nat /\
    (length new + iteration st <= iteration st')%nat /\
    ((iteration st' < iteration st + budget)%nat -> scan rules st' = Ok None) /\
    (flags_kept rules -> fired_once rules st -> fired_once rules st').
Proof.
  revert st. induction budget as [|budget IH]; intros st; simpl.
  - exists st, []. rewrite app_nil_r.
    split; [reflexivity|]. split; [reflexivity|]. split; [lia|].
    split; [simpl; lia|]. split; [intros; lia | auto].
  - destruct (scan_returns rules (next_iteration st)) as [[st1|] Hscan];
      rewrite Hscan; simpl.
    + destruct (scan_grows _ _ _ Hscan) as [Hit [s Hs]].
      unfold next_iteration in Hit, Hs. simpl in Hit, Hs.
      destruct (IH st1) as (st' & new & Hloop & Hsteps & Hle & Hlen & Hstop & Hinv).
      exists st', (s :: new). rewrite Hloop, Hsteps, Hs, <- app_assoc. simpl.
      split; [reflexivity|]. split; [reflexivity|]. split; [lia|].
      split; [lia|]. split.
      * intros Hlt. apply Hstop. lia.
      * intros Hkept Hfo. apply Hinv; [exact Hkept|].
        eapply scan_keeps_fired_once; [exact Hkept | | exact Hscan]. exact Hfo.
    + exists (next_iteration st), []. rewrite app_nil_r. simpl.
      split; [reflexivity|]. split; [reflexivity|]. split; [lia|].
      split; [lia|]. split; [intros _; exact Hscan | auto].
Qed.

(** Every pass scans the whole list, from its top. *)
Lemma while_loop_S rules budget st :
  while_loop rules (S budget) st =
    (fired ← scan rules (next_iteration st);
     match fired with
     | Some st' => while_loop rules budget st'
     | None => Ok (next_iteration st)
     end).
Proof. reflexivity. Qed.

Lemma run_loop_spec rules initial_facts max_iterations :
  exists st,
    run_loop rules initial_facts max_iterations = Ok st /\
    (iteration st <= Z.to_nat max_iterations)%nat /\
    (length (run_steps st) <= iteration st)%nat /\
    ((iteration st < Z.to_nat max_iterations)%nat -> scan rules st = Ok None) /\
    (flags_kept rules -> fires_at_most_once (run_steps st)).
Proof.
  unfold run_loop.
  destruct (while_loop_spec rules (Z.to_nat max_iterations) (initial_run initial_facts))
    as (st & new & Hloop & Hsteps & Hle & Hlen & Hstop & Hinv).
  simpl in *. exists st. rewrite Hsteps.
  repeat split; auto; try lia.
  intros Hkept. rewrite <- Hsteps. apply Hinv; [exact Hkept|].
  split; [constructor | intros id Hid; simpl in Hid; set_solver].
Qed.

End Termination.




(** A rule whose action re-establishes its own condition. *)
Definition self_feeding_rules : list Rule.t :=
  [ Rule.mk "alto" "Riesgo alto" "riesgo == 'alto'" "set_fact('riesgo', 'alto')"
      (Some 1) None None ].



Example ex_self_feeding_rule_fires_once :
  (res ← @forward_chaining Demo.runtime self_feeding_rules (<["riesgo" := VStr "alto"]> ∅)
           max_iterations_default;
   Ok (rule_id <$> steps res, final_facts res !! "riesgo"))
  = Ok (["alto"], Some (VStr "alto")).
Proof. vm_compute. reflexivity. Qed.

(** ** Actions the engine does not recognise *)

(** The action texts [_execute_action] acts on: a call, by its shape
    [name(...)], of one of the four actions, with two arguments when it is
    [set_fact]. *)
Definition recognized_call (action : string) : bool :=
  match parse_call action with
  | Some (func_name, args_str) =>
      String.eqb func_name "add_observacion"
      || String.eqb func_name "mark_sanction"
      || String.eqb func_name "require_approval"
      || (String.eqb func_name "set_fact"
          && match snd (PyStr.split1 PyStr.comma args_str) with
             | Some _ => true
             | None => false
             end)
  | None => false
  end.

Section Actions.

Context `{PyRuntime}.



End Actions.


Definition foo_rule : Rule.t :=
  Rule.mk "cert" "Certificado" "True" "foo(" (Some 10) (Some "warning") None.


(** The fourth scenario of the specification. *)
Example ex_scenario4 :
  (res ← @forward_chaining Demo.runtime [foo_rule] ∅ max_iterations_default;
   Ok ((fun s => (rule_id s, condition_result s)) <$> steps res,
       conclusions res, actions_taken res, final_facts res))
  = Ok ([("cert", true)], [], [],
        <["rule_cert_executed" := VBool true]> (run_facts (@initial_run Demo.runtime ∅))).
Proof. vm_compute. reflexivity. Qed.

(** ** Priority order *)

Section Priority.

Context `{PyRuntime}.

Definition priority_le (a b : Rule.t) : bool := (priority_key a <=? priority_key b)%Z.

Lemma _load_rules_sorted data :
  Permutation (_load_rules (Ok data)) data /\
  StronglySorted (fun a b => (priority_key a <= priority_key b)%Z) (_load_rules (Ok data)) /\
  forall p, List.filter (fun r => (priority_key r =? p)%Z) (_load_rules (Ok data)) =
            List.filter (fun r => (priority_key r =? p)%Z) data.
Proof.
  unfold _load_rules. split; [apply py_sorted_perm|]. split.
  - eapply StronglySorted_mono; [|apply (py_sorted_sorted priority_le)].
    + intros a b Hab. unfold priority_le in Hab. lia.
    + intros x y Hxy. unfold priority_le in *. lia.
    + intros x y z Hxy Hyz. unfold priority_le in *. lia.
  - intros p. apply py_sorted_stable.
    intros x y Hx Hy. lia.
Qed.

Lemma fires_next_iteration st rule : fires st rule -> fires (next_iteration st) rule.
Proof. exact (fun Hf => Hf). Qed.

(** When the rule at the head of the list fires at the start, its step is
    the first of the run. *)
Lemma first_step_of_run rule rest budget st :
  fires st rule ->
  exists v st' new,
    evaluate (run_facts st) (Rule.condition rule) = Ok v /\ Py.truthy v = true /\
    while_loop (rule :: rest) (S budget) st = Ok st' /\
    run_steps st' = run_steps st ++ make_step (run_facts st) rule v :: new.
Proof.
  intros Hf. pose proof Hf as [_ (v & Hv & Ht)].
  destruct (fire_spec (next_iteration st) rule (make_step (run_facts st) rule v))
    as (r & facts' & _ & _ & Hfire).
  rewrite while_loop_S, (scan_cons_fires _ _ _ (fires_next_iteration _ _ Hf)).
  change (run_facts (next_iteration st)) with (run_facts st).
  rewrite Hv. simpl. rewrite Hfire. simpl.
  match goal with
  | |- context [while_loop ?rs budget ?s1] =>
      destruct (while_loop_spec rs budget s1) as (st' & new & Hloop & Hsteps & _)
  end.
  exists v, st', new. rewrite Hloop, Hsteps. simpl. rewrite <- app_assoc. auto.
Qed.

End Priority.




Definition two_rules : list Rule.t :=
  [ Rule.mk "p20" "Segunda" "True" "require_approval()" (Some 20) None None;
    Rule.mk "p10" "Primera" "True" "mark_sanction()" (Some 10) None None ].


Example ex_priority_order :
  (res ← @forward_chaining Demo.runtime (@_load_rules (Ok two_rules)) ∅
           max_iterations_default;
   Ok (rule_id <$> steps res)) = Ok ["p10"; "p20"].
Proof. vm_compute. reflexivity. Qed.

(** ** The action [set_fact] *)

Lemma contains_char_app c s t :
  PyStr.contains_char c (s +:+ String c t) = true.
Proof.
  induction s as [|a s IH]; simpl.
  - now rewrite Ascii.eqb_refl.
  - destruct (Ascii.eqb a c); [reflexivity | exact IH].
Qed.

Lemma before_last_opt_snoc c s :
  PyStr.before_last_opt c (s +:+ String c EmptyString) = Some s.
Proof.
  induction s as [|a s IH]; simpl.
  - now rewrite Ascii.eqb_refl.
  - now rewrite IH.
Qed.

Lemma split1_app c s t :
  PyStr.contains_char c s = false ->
  PyStr.split1 c (s +:+ String c t) = (s, Some t).
Proof.
  induction s as [|a s IH]; simpl.
  - now rewrite Ascii.eqb_refl.
  - destruct (Ascii.eqb a c); [discriminate|]. intros Hs. now rewrite (IH Hs).
Qed.

Lemma contains_char_append c s t :
  PyStr.contains_char c t = true -> PyStr.contains_char c (s +:+ t) = true.
Proof.
  intros Ht. induction s as [|a s IH]; [exact Ht|].
  change (PyStr.contains_char c (String a (s +:+ t)) = true). simpl.
  destruct (Ascii.eqb a c); [reflexivity | exact IH].
Qed.

Lemma append_assoc' s t u : s +:+ t +:+ u = (s +:+ t) +:+ u.
Proof.
  induction s as [|a s IH]; [reflexivity|].
  change (String a (s +:+ t +:+ u) = String a ((s +:+ t) +:+ u)).
  now rewrite IH.
Qed.

(** How [_execute_action] reads the text [set_fact(name,value)]. *)
Lemma set_fact_call_text name_text value_text :
  PyStr.contains_char PyStr.comma name_text = false ->
  parse_call ("set_fact(" +:+ name_text +:+ "," +:+ value_text +:+ ")")
    = Some ("set_fact", name_text +:+ "," +:+ value_text) /\
  PyStr.split1 PyStr.comma (name_text +:+ "," +:+ value_text)
    = (name_text, Some value_text).
Proof.
  intros Hname. split; [|now apply split1_app].
  unfold parse_call.
  rewrite (contains_char_append PyStr.rparen "set_fact("
             (name_text +:+ "," +:+ value_text +:+ ")")).
  2:{ do 2 apply contains_char_append. apply (contains_char_app _ _ EmptyString). }
  replace (PyStr.contains_char PyStr.lparen
             ("set_fact(" +:+ name_text +:+ "," +:+ value_text +:+ ")")) with true
    by reflexivity.
  replace (PyStr.split1 PyStr.lparen
             ("set_fact(" +:+ name_text +:+ "," +:+ value_text +:+ ")"))
    with ("set_fact", Some (name_text +:+ "," +:+ value_text +:+ ")")) by reflexivity.
  replace (PyStr.before_first PyStr.lparen
             ("set_fact(" +:+ name_text +:+ "," +:+ value_text +:+ ")"))
    with "set_fact" by reflexivity.
  cbn [andb snd default]. replace (PyStr.strip "set_fact") with "set_fact" by reflexivity.
  rewrite (append_assoc' "," value_text ")"), (append_assoc' name_text).
  unfold PyStr.rsplit1_head.
  pose proof (before_last_opt_snoc PyStr.rparen (name_text +:+ "," +:+ value_text)) as Hb.
  change (String PyStr.rparen EmptyString) with ")" in Hb.
  unfold id. rewrite Hb. reflexivity.
Qed.

Definition nivel_rule : Rule.t :=
  Rule.mk "n1" "Fija nivel" "True" "set_fact('nivel', 5)" (Some 1) None None.

(** C9, as stated, fails: [set_fact('nivel', 5)] stores the text ["5"], not
    the number 5, and a later condition that reads [nivel] as a number is
    false. *)
Lemma set_fact_stores_a_string :
  let facts' : gmap string value := <["nivel" := VStr "5"]> ∅ in
  @_execute_action Demo.runtime ∅ "set_fact('nivel', 5)" nivel_rule
    = Ok (Some "Hecho establecido: nivel = 5", facts') /\
  facts' !! "nivel" <> Some (VInt 5) /\
  @evaluate Demo.runtime facts' "nivel == 5" = Ok (VBool false) /\
  @evaluate Demo.runtime facts' "nivel > 3" = Ok (VBool false) /\
  @evaluate Demo.runtime (<["nivel" := VInt 5]> ∅) "nivel == 5" = Ok (VBool true) /\
  @evaluate Demo.runtime (<["nivel" := VInt 5]> ∅) "nivel > 3" = Ok (VBool true).
Proof.
  intros facts'. split; [vm_compute; reflexivity|].
  split; [unfold facts'; rewrite lookup_insert_eq; discriminate|].
  repeat split; vm_compute; reflexivity.
Qed.

(** C9, amended.  Executing the action [set_fact(n,v)], where the text [n]
    has no comma, stores under the key that [n] denotes (the text stripped
    of white space and of one pair of enclosing quotes) the text that [v]
    denotes, as a string, whatever type the text [v] would have as a Python
    literal.  After the rule has fired the fact is still there (unless it is
    the rule's own [executed] flag), and a condition that reads the name
    observes that string (unless the name is that of an allow-listed
    function). *)
Theorem set_fact_stores_text `{PyRuntime}
  (st : Run) (rule : Rule.t) (step : InferenceStep) (name_text value_text : string) :
  PyStr.contains_char PyStr.comma name_text = false ->
  Rule.action rule = "set_fact(" +:+ name_text +:+ "," +:+ value_text +:+ ")" ->
  let fact_name := _extract_string_arg (PyStr.strip name_text) in
  let fact_value := _extract_string_arg (PyStr.strip value_text) in
  _execute_action (run_facts st) (Rule.action rule) rule =
    Ok (Some ("Hecho establecido: " +:+ fact_name +:+ " = " +:+ fact_value),
        <[fact_name := VStr fact_value]> (run_facts st)) /\
  exists st',
    fire st rule step = Ok st' /\
    (fact_name <> executed_flag (Rule.id rule) ->
     run_facts st' !! fact_name = Some (VStr fact_value) /\
     (ALLOWED_FUNCTIONS fact_name = None ->
      _eval_node (run_facts st') (ast.Name fact_name) = Ok (VStr fact_value))).
Proof.
  intros Hname Haction fact_name fact_value.
  destruct (set_fact_call_text name_text value_text Hname) as [Hparse Hsplit].
  assert (Hexec : _execute_action (run_facts st) (Rule.action rule) rule =
                    Ok (Some ("Hecho establecido: " +:+ fact_name +:+ " = " +:+ fact_value),
                        <[fact_name := VStr fact_value]> (run_facts st))).
  { unfold _execute_action. rewrite Haction, Hparse. simpl. rewrite Hsplit. reflexivity. }
  split; [exact Hexec|].
  unfold fire. rewrite Hexec. simpl. eexists. split; [reflexivity|].
  intros Hflag. simpl.
  assert (Hlookup : <[executed_flag (Rule.id rule) := VBool true]>
                      (<[fact_name := VStr fact_value]> (run_facts st)) !! fact_name
                    = Some (VStr fact_value)).
  { rewrite lookup_insert_ne by congruence. apply lookup_insert_eq. }
  split; [exact Hlookup|]. intros Hallowed. now rewrite Hallowed, Hlookup.
Qed.

Definition riesgo_rule : Rule.t :=
  Rule.mk "r1" "Marca riesgo" "True" "set_fact('riesgo', 'alto')" (Some 1) None None.

Lemma set_fact_stores_text_witness :
  exists st',
    @fire Demo.runtime (@initial_run Demo.runtime ∅) riesgo_rule
      (@make_step Demo.runtime ∅ riesgo_rule (VBool true)) = Ok st' /\
    run_facts st' !! "riesgo" = Some (VStr "alto") /\
    @evaluate Demo.runtime (run_facts st') "riesgo == 'alto'" = Ok (VBool true).
Proof.
  destruct (@set_fact_stores_text Demo.runtime (@initial_run Demo.runtime ∅) riesgo_rule
              (@make_step Demo.runtime ∅ riesgo_rule (VBool true)) "'riesgo'" " 'alto'"
              eq_refl eq_refl) as (_ & st' & Hfire & Hkeep).
  exists st'. split; [exact Hfire|].
  destruct Hkeep as [Hlookup Hname]; [discriminate|].
  split; [exact Hlookup|].
  apply (evaluate_parsed _ _
           (ast.Compare (ast.Name "riesgo") [ast.Eq] [ast.Constant (VStr "alto")]));
    [reflexivity|].
  rewrite (_eval_node_compare1 _ _ ast.Eq _ _ eq_refl).
  change (ast.Name "riesgo")
    with (ast.Name (@_extract_string_arg (PyStr.strip "'riesgo'"))).
  rewrite (Hname eq_refl). reflexivity.
Defined.

(** Rule chaining: the fact a rule sets is read by the condition of a later
    rule. *)
Example ex_chaining :
  (res ← @forward_chaining Demo.runtime
           [ riesgo_rule;
             Rule.mk "r2" "Escala" "riesgo == 'alto'" "require_approval()" (Some 2)
               None None ]
           ∅ max_iterations_default;
   Ok (rule_id <$> steps res, final_facts res !! "requiere_aprobacion"))
  = Ok (["r1"; "r2"], Some (VBool true)).
Proof. vm_compute. reflexivity. Qed.

(** ** The special functions on an absent timestamp *)

Lemma ord_int op a b :
  Py.ord op (VInt a) (VInt b) = Ok (Py.ord_of_comparison op (a ?= b)%Z).
Proof.
  simpl. f_equal. f_equal. unfold Qccompare. simpl.
  rewrite <- Qred_compare. unfold Qcompare. simpl. now rewrite !Z.mul_1_r.
Qed.

(** C10.  [days_since] and [hours_since] raise nothing on a falsy argument
    and return 999; the engine installs them under their names; so, for a
    name [x] that is no fact of the run (and no allow-listed function), the
    conditions [days_since(x) > n] and [hours_since(x) > n] evaluate to
    [999 > n]: true for every [n] below 999. *)
Theorem special_functions_absent_timestamp `{PyRuntime} :
  (forall v, Py.truthy v = false ->
             call DaysSince [v] = Ok (VInt 999) /\ call HoursSince [v] = Ok (VInt 999)) /\
  (forall initial_facts,
      run_facts (initial_run initial_facts) !! "days_since" = Some (VFun DaysSince) /\
      run_facts (initial_run initial_facts) !! "hours_since" = Some (VFun HoursSince)) /\
  (forall initial_facts f x n text,
      f = "days_since" \/ f = "hours_since" ->
      ALLOWED_FUNCTIONS x = None ->
      run_facts (initial_run initial_facts) !! x = None ->
      ast_parse text =
        Ok (ast.Compare (ast.Call (ast.Name f) [ast.Name x]) [ast.Gt]
              [ast.Constant (VInt n)]) ->
      evaluate (run_facts (initial_run initial_facts)) text = Ok (VBool (n <? 999)%Z) /\
      ((n < 999)%Z ->
       evaluate (run_facts (initial_run initial_facts)) text = Ok (VBool true))).
Proof.
  assert (Hinst : forall initial_facts,
             run_facts (initial_run initial_facts) !! "days_since" = Some (VFun DaysSince) /\
             run_facts (initial_run initial_facts) !! "hours_since" = Some (VFun HoursSince)).
  { intros initial_facts. simpl. unfold _add_special_functions. split.
    - rewrite !lookup_insert_ne by discriminate. apply lookup_insert_eq.
    - rewrite !lookup_insert_ne by discriminate. apply lookup_insert_eq. }
  split; [|split; [exact Hinst|]].
  - intros v Hv. simpl. now rewrite Hv.
  - intros initial_facts f x n text Hf Hx Hmiss Hparse.
    destruct (Hinst initial_facts) as [Hd Hh].
    assert (Heval : evaluate (run_facts (initial_run initial_facts)) text
                    = Ok (VBool (n <? 999)%Z)).
    { apply (evaluate_parsed _ _ _ _ Hparse).
      cbn [_eval_node].
      destruct Hf as [-> | ->]; cbn [ALLOWED_FUNCTIONS String.eqb Ascii.eqb Bool.eqb];
        rewrite ?Hd, ?Hh; cbn [mapM _eval_node]; rewrite Hx, Hmiss;
        cbn [mbind result_bind bind default call Py.truthy ALLOWED_OPERATORS_cmp];
        rewrite ord_int; cbn [lift_bool mbind result_bind bind Py.ord_of_comparison];
        rewrite (Z.compare_antisym n 999), Z.ltb_compare;
        destruct (n ?= 999)%Z; reflexivity. }
    split; [exact Heval|]. intros Hn. rewrite Heval.
    now destruct (Z.ltb_spec n 999); [|lia].
Qed.

Lemma special_functions_absent_timestamp_witness :
  @evaluate Demo.runtime (run_facts (@initial_run Demo.runtime ∅))
    "days_since(certificate_deadline) > 30" = Ok (VBool true) /\
  @evaluate Demo.runtime (run_facts (@initial_run Demo.runtime ∅))
    "hours_since(certificate_deadline) > 24" = Ok (VBool true).
Proof.
  destruct (@special_functions_absent_timestamp Demo.runtime) as (_ & _ & Hcond).
  split.
  - apply (Hcond ∅ "days_since" "certificate_deadline" 30%Z);
      try (vm_compute; reflexivity); auto.
  - apply (Hcond ∅ "hours_since" "certificate_deadline" 24%Z);
      try (vm_compute; reflexivity); auto.
Defined.

(** ** Validation of a condition *)

Section Validation.

Context `{PyRuntime}.

(** The handler of [validate_condition] never runs: [evaluate] has caught
    everything already. *)
Lemma validate_condition_by_result condition :
  Py.truthy (VStr condition) = true ->
  Py.truthy (VStr (PyStr.strip condition)) = true ->
  exists res,
    evaluate test_facts condition = Ok res /\
    validate_condition condition =
      Ok (if is_False res then (true, "Condición válida (evalúa a False)")
          else if is_True res then (true, "Condición válida (evalúa a True)")
          else if is_bool res then (true, "Condición válida")
          else (false, "La condición debe evaluar a True/False")).
Proof.
  intros H1 H2. destruct (evaluate_returns test_facts condition) as [res Hres].
  exists res. split; [exact Hres|].
  unfold validate_condition. rewrite H1, H2, Hres. simpl.
  destruct (is_False res), (is_True res), (is_bool res); reflexivity.
Qed.

End Validation.

(** C5 does not hold of the code.  [validate_condition] is built on
    [evaluate], which has already turned every failure into [False]: a
    condition text that is not blank and whose parsing or evaluation fails
    is accepted, with the message of a condition that evaluates to
    [False]. *)
Theorem validate_condition_accepts_failures `{PyRuntime} (condition : string) (e : exn) :
  Py.truthy (VStr (PyStr.strip condition)) = true ->
  (tree ← ast_parse condition; _eval_node test_facts tree) = Raise e ->
  validate_condition condition = Ok (true, "Condición válida (evalúa a False)").
Proof.
  intros Hstrip Hfail.
  assert (Hne : Py.truthy (VStr condition) = true).
  { destruct condition; [discriminate Hstrip | reflexivity]. }
  destruct (validate_condition_by_result condition Hne Hstrip) as (res & Hres & ->).
  rewrite (evaluate_failure _ _ _ Hfail) in Hres. injection Hres as <-. reflexivity.
Qed.

Lemma validate_condition_accepts_failures_witness :
  @ast_parse Demo.runtime "foo(" = Raise SyntaxError /\
  @validate_condition Demo.runtime "foo(" = Ok (true, "Condición válida (evalúa a False)") /\
  @validate_condition Demo.runtime "duracion === 5"
    = Ok (true, "Condición válida (evalúa a False)") /\
  @validate_condition Demo.runtime "open('x')"
    = Ok (true, "Condición válida (evalúa a False)").
Proof.
  split; [reflexivity|]. split; [|split].
  - apply (@validate_condition_accepts_failures Demo.runtime "foo(" SyntaxError);
      vm_compute; reflexivity.
  - apply (@validate_condition_accepts_failures Demo.runtime "duracion === 5" SyntaxError);
      vm_compute; reflexivity.
  - apply (@validate_condition_accepts_failures Demo.runtime "open('x')" ValueError);
      vm_compute; reflexivity.
Defined.

Example ex_validate_condition :
  @validate_condition Demo.runtime "duracion > 5"
    = Ok (true, "Condición válida (evalúa a False)") /\
  @validate_condition Demo.runtime "duracion"
    = Ok (false, "La condición debe evaluar a True/False") /\
  @validate_condition Demo.runtime "   " = Ok (false, "Condición no puede estar vacía").
Proof. repeat split; vm_compute; reflexivity. Qed.

(** ** Storing a case twice *)

Section StoreCase.

Context `{PyRuntime}.

Lemma filter_other_id (id : string) (rows : list CaseRow) :
  filter (fun r => Case.case_id (row_case r) = id)
    (filter (fun r => Case.case_id (row_case r) ≠ id) rows) = [].
Proof.
  induction rows as [|r rows IH]; [reflexivity|].
  rewrite (filter_cons (fun r => Case.case_id (row_case r) ≠ id)).
  destruct (decide (Case.case_id (row_case r) ≠ id)) as [Hne|_]; [|exact IH].
  rewrite filter_cons. destruct (decide (Case.case_id (row_case r) = id)); [done | exact IH].
Qed.

(** After an [INSERT OR REPLACE] the table has one row of that
    identifier. *)
Lemma insert_or_replace_one_row (c : Case.t) (store : CaseStore) :
  filter (fun r => Case.case_id (row_case r) = Case.case_id c)
    (table (insert_or_replace c store)) =
  [ {| row_id := next_row_id store; row_case := c |} ].
Proof.
  unfold insert_or_replace. simpl. rewrite filter_app, filter_other_id. simpl.
  rewrite filter_cons. simpl. destruct (decide (Case.case_id c = Case.case_id c)); done.
Qed.

(** The identifier is a function of the facts, the rules and the actions;
    the store and the outcome do not enter it. *)
Lemma store_case_spec store facts rules_applied actions_taken outcome :
  store_case store facts rules_applied actions_taken outcome =
    (content ← json_dumps (case_content (serializable facts) rules_applied actions_taken);
     features ← extract_features facts;
     let c := Case.mk (PyStr.take 12 (md5_hexdigest content)) (serializable facts)
                rules_applied actions_taken outcome None features datetime_now false in
     Ok (Case.case_id c,
         insert_or_replace c
           {| cases := cases store ++ [c]; table := table store;
              next_row_id := next_row_id store |})).
Proof. reflexivity. Qed.

End StoreCase.

(** C6 does not hold of the code.  Storing the same facts, rules, actions
    and outcome a second time returns the same [case_id], and the table of
    the database still has one row of that identifier (the second call
    replaces the row); but the list [self.cases], which the retrieval
    reads, has the case twice. *)
Theorem store_case_twice `{PyRuntime}
  (store : CaseStore) (facts : gmap string value)
  (rules_applied actions_taken : list string) (outcome case_id : string)
  (store1 : CaseStore) :
  store_case store facts rules_applied actions_taken outcome = Ok (case_id, store1) ->
  exists store2 c1 c2,
    store_case store1 facts rules_applied actions_taken outcome = Ok (case_id, store2) /\
    Case.case_id c1 = case_id /\ Case.case_id c2 = case_id /\
    cases store2 = cases store ++ [c1; c2] /\
    length (cases store2) = S (S (length (cases store))) /\
    filter (fun r => Case.case_id (row_case r) = case_id) (table store2) =
      [ {| row_id := next_row_id store1; row_case := c2 |} ].
Proof.
  rewrite !store_case_spec. intros Hfirst.
  destruct (json_dumps _) as [content|]; [|discriminate].
  destruct (extract_features facts) as [features|]; [|discriminate].
  cbn [mbind result_bind bind Case.case_id] in *.
  injection Hfirst as <- <-.
  set (c := Case.mk (PyStr.take 12 (md5_hexdigest content)) (serializable facts)
              rules_applied actions_taken outcome None features datetime_now false).
  eexists. exists c, c. split; [reflexivity|]. split; [reflexivity|].
  split; [reflexivity|].
  cbn [cases insert_or_replace].
  split; [now rewrite <- app_assoc|]. split.
  - rewrite <- app_assoc, length_app. cbn [length app]. lia.
  - match goal with
    | |- context [table (insert_or_replace c ?s)] =>
        exact (insert_or_replace_one_row c s)
    end.
Qed.

Definition art_facts : gmap string value :=
  <["motivo" := VStr "ART"]> (<["duracion" := VInt 5]> ∅).

Definition empty_store : CaseStore := {| cases := []; table := []; next_row_id := 1 |}.

Lemma store_case_twice_witness :
  exists store1 store2,
    @store_case Demo.runtime empty_store art_facts ["cert_missing_critical"]
      ["add_observacion"] "approved" = Ok ("29ac73e26bfb", store1) /\
    @store_case Demo.runtime store1 art_facts ["cert_missing_critical"]
      ["add_observacion"] "approved" = Ok ("29ac73e26bfb", store2) /\
    length (cases store2) = 2%nat /\
    length (filter (fun r => Case.case_id (row_case r) = "29ac73e26bfb") (table store2))
      = 1%nat.
Proof.
  assert (Hid : (r ← @store_case Demo.runtime empty_store art_facts
                       ["cert_missing_critical"] ["add_observacion"] "approved";
                 Ok (fst r)) = Ok "29ac73e26bfb") by (vm_compute; reflexivity).
  destruct (observe_inv _ _ _ Hid) as ([id store1] & Hfirst & Hfst).
  simpl in Hfst. subst id. exists store1.
  destruct (@store_case_twice Demo.runtime empty_store art_facts ["cert_missing_critical"]
              ["add_observacion"] "approved" "29ac73e26bfb" store1 Hfirst)
    as (store2 & c1 & c2 & Hsecond & _ & _ & _ & Hlen & Hrows).
  exists store2. split; [exact Hfirst|]. split; [exact Hsecond|].
  split; [exact Hlen | now rewrite Hrows].
Defined.

(** ** Retrieval of similar cases *)

Lemma qc_leb_le x y : qc_leb x y = true <-> (x <= y)%Qc.
Proof. unfold qc_leb, Qcle. apply Qle_bool_iff. Qed.

Lemma qc_ltb_lt x y : qc_ltb x y = true <-> (x < y)%Qc.
Proof.
  unfold qc_ltb. rewrite negb_true_iff, <- not_true_iff_false.
  change (Qle_bool y x = true) with (qc_leb y x = true). rewrite qc_leb_le.
  split; [apply Qcnot_le_lt | apply Qclt_not_le].
Qed.

Lemma qc_eqb_eq x y : qc_eqb x y = true <-> x = y.
Proof.
  unfold qc_eqb. rewrite Qeq_bool_iff. split; [apply Qc_is_canon | now intros ->].
Qed.

Lemma qc_leb_total x y : qc_leb x y = false -> qc_leb y x = true.
Proof.
  intros Hxy. apply qc_leb_le, Qclt_le_weak, Qcnot_le_lt.
  intros Hle. apply qc_leb_le in Hle. congruence.
Qed.


(** A loop that appends the images of the elements it keeps. *)
Lemma fold_left_append_kept {A B} (keep : A -> bool) (f : A -> B) (l : list A) (acc : list B) :
  fold_left (fun acc x => if keep x then acc ++ [f x] else acc) l acc
  = acc ++ (f <$> List.filter keep l).
Proof.
  revert acc. induction l as [|x l IH]; intros acc; simpl.
  - now rewrite app_nil_r.
  - rewrite IH. destruct (keep x); [|reflexivity].
    now rewrite <- app_assoc.
Qed.

Lemma filter_fmap {A B} (P : B -> bool) (f : A -> B) (l : list A) :
  List.filter P (f <$> l) = f <$> List.filter (fun x => P (f x)) l.
Proof.
  induction l as [|x l IH]; [reflexivity|].
  rewrite fmap_cons. cbn [List.filter].
  destruct (P (f x)); [rewrite fmap_cons|]; now rewrite IH.
Qed.

Section Retrieval.

Context `{PyRuntime}.

(** The [SimilarCase] built for a stored case. *)
Definition neighbor (current_features : gmap string Qc) (c : Case.t) : SimilarCase :=
  {| case := c;
     similarity_score := calculate_similarity current_features (Case.similarity_features c);
     matching_features := matching current_features (Case.similarity_features c) |}.

(** [a] may stand before [b] in the ranking. *)
Definition ranks_before (a b : SimilarCase) : bool :=
  qc_leb (similarity_score b) (similarity_score a).

Lemma find_similar_cases_unfold store current_facts top_k min_similarity current_features :
  extract_features current_facts = Ok current_features ->
  find_similar_cases store current_facts top_k min_similarity =
    Ok (slice_to top_k
          (py_sorted ranks_before
             (neighbor current_features <$>
                List.filter
                  (fun c => qc_leb min_similarity
                              (calculate_similarity current_features
                                 (Case.similarity_features c)))
                  (cases store)))).
Proof.
  intros Hf. unfold find_similar_cases. rewrite Hf.
  destruct (cases store) as [|c l] eqn:Hc.
  { cbn [List.filter fmap list_fmap py_sorted foldr]. unfold slice_to.
    destruct (0 <=? top_k)%Z; now rewrite firstn_nil. }
  cbn [mbind result_bind bind]. f_equal. f_equal. f_equal.
  exact (fold_left_append_kept _ (neighbor current_features) (c :: l) []).
Qed.

Lemma slice_to_nonneg {A} (k : Z) (l : list A) :
  (0 <= k)%Z -> slice_to k l = firstn (Z.to_nat k) l.
Proof. intros Hk. unfold slice_to. now destruct (Z.leb_spec 0 k); [|lia]. Qed.

End Retrieval.


Definition query_facts : gmap string value :=
  <["motivo" := VStr "ART"]>
    (<["duracion" := VInt 5]>
       (<["ausencias_ultimo_mes" := VInt 2]>
          (<["certificate_uploaded" := VBool false]>
             (<["validation_status" := VStr "validated"]>
                (<["sector" := VStr "linea1"]> ∅))))).

Definition features_of (motivo duracion ausencias certificate validation sector : Qc)
  : gmap string Qc :=
  <["motivo" := motivo]>
    (<["duracion" := duracion]>
       (<["ausencias_ultimo_mes" := ausencias]>
          (<["certificate_uploaded" := certificate]>
             (<["validation_status" := validation]>
                (<["deadline_exceeded" := dec 0 1]>
                   (<["sector" := sector]> ∅)))))).

(** A case that differs from the query in its validation state only. *)
Definition case_approved : Case.t :=
  Case.mk "aaaaaaaaaaaa" ∅ [] [] "approved" None
    (features_of (dec 1 1) (dec 5 1) (dec 2 1) (dec 0 1) (dec 1 2) (dec 1 1)) 0 false.

(** A case that differs from the query in reason, duration and
    certificate. *)
Definition case_escalated : Case.t :=
  Case.mk "bbbbbbbbbbbb" ∅ ["frequent_absences_pattern"] ["require_approval"] "escalated" None
    (features_of (dec 2 1) (dec 0 1) (dec 2 1) (dec 1 1) (dec 1 1) (dec 1 1)) 0 false.

Definition two_case_store : CaseStore :=
  {| cases := [case_escalated; case_approved]; table := []; next_row_id := 1 |}.

(** The third scenario of the specification, retrieval: the case stored
    second has the higher similarity and comes first. *)
Example ex_scenario3_retrieval :
  (similar ← @find_similar_cases Demo.runtime two_case_store query_facts 5 (dec 3 10);
   Ok ((fun sc => (Case.outcome (case sc), this (similarity_score sc)))
         <$> (similar : list SimilarCase)))
  = Ok [("approved", (9 # 10)%Q); ("escalated", (2 # 5)%Q)].
Proof. vm_compute. reflexivity. Qed.


(** ** The recommendation *)

Definition qc_sum (l : list Qc) : Qc := foldr Qcplus 0%Qc l.

Definition outcome_of (sc : SimilarCase) : string := Case.outcome (case sc).

(** The similarity-weighted vote of the neighbours for an outcome. *)
Definition weighted_vote (neighbors : list SimilarCase) (o : string) : Qc :=
  qc_sum (similarity_score <$>
            List.filter (fun sc => String.eqb (outcome_of sc) o) neighbors).

(** [d.get(o, 0)]. *)
Definition votes_of (d : list (string * Qc)) (o : string) : Qc :=
  default 0%Qc (Py.assoc o d).

Definition vote_step (counts : list (string * Qc)) (sc : SimilarCase) : list (string * Qc) :=
  add_vote (outcome_of sc) (similarity_score sc) counts.

Lemma add_vote_votes k w d o :
  votes_of (add_vote k w d) o =
  if String.eqb o k then (votes_of d o + w)%Qc else votes_of d o.
Proof.
  unfold votes_of. induction d as [|[k' v] d IH]; simpl.
  - destruct (String.eqb o k); reflexivity.
  - destruct (String.eqb k k') eqn:Hkk'; simpl.
    + apply String.eqb_eq in Hkk' as ->. destruct (String.eqb o k'); reflexivity.
    + destruct (String.eqb o k') eqn:Hok'; [|exact IH].
      destruct (String.eqb o k) eqn:Hok; [|reflexivity].
      apply String.eqb_eq in Hok', Hok. subst. now rewrite String.eqb_refl in Hkk'.
Qed.

Lemma add_vote_keys k w d x :
  x ∈ (fst <$> add_vote k w d) <-> x = k \/ x ∈ (fst <$> d).
Proof.
  induction d as [|[k' v] d IH]; simpl.
  - rewrite list_elem_of_singleton. split; [auto | intros [?|Hx]; [done | inversion Hx]].
  - destruct (String.eqb k k') eqn:Hkk'; simpl.
    + apply String.eqb_eq in Hkk' as ->. rewrite elem_of_cons. tauto.
    + rewrite !elem_of_cons, IH. tauto.
Qed.

Lemma add_vote_NoDup k w d :
  NoDup (fst <$> d) -> NoDup (fst <$> add_vote k w d).
Proof.
  induction d as [|[k' v] d IH]; simpl; intros Hnd.
  - apply NoDup_singleton.
  - apply NoDup_cons in Hnd as [Hk' Hnd].
    destruct (String.eqb k k') eqn:Hkk'; simpl.
    + now apply NoDup_cons.
    + apply NoDup_cons. split; [|now apply IH].
      rewrite add_vote_keys. intros [-> | Hin]; [|done].
      now rewrite String.eqb_refl in Hkk'.
Qed.

Lemma assoc_of_member (d : list (string * Qc)) o v :
  NoDup (fst <$> d) -> (o, v) ∈ d -> Py.assoc o d = Some v.
Proof.
  induction d as [|[k' v'] d IH]; simpl; intros Hnd Hin; [inversion Hin|].
  apply NoDup_cons in Hnd as [Hk' Hnd].
  apply elem_of_cons in Hin as [[= -> ->] | Hin].
  - now rewrite String.eqb_refl.
  - destruct (String.eqb o k') eqn:Hok; [|now apply IH].
    apply String.eqb_eq in Hok as ->. destruct Hk'.
    apply list_elem_of_fmap. now exists (k', v).
Qed.

Lemma member_of_key (d : list (string * Qc)) o :
  o ∈ (fst <$> d) -> exists v, (o, v) ∈ d.
Proof.
  intros Hin. apply list_elem_of_fmap in Hin as ([k v] & -> & Hin). now exists v.
Qed.

Lemma weighted_vote_cons sc l o :
  weighted_vote (sc :: l) o =
  if String.eqb (outcome_of sc) o
  then (similarity_score sc + weighted_vote l o)%Qc else weighted_vote l o.
Proof.
  unfold weighted_vote. cbn [List.filter].
  destruct (String.eqb (outcome_of sc) o); reflexivity.
Qed.

Lemma fold_votes l d o :
  votes_of (fold_left vote_step l d) o = (votes_of d o + weighted_vote l o)%Qc.
Proof.
  revert d. induction l as [|sc l IH]; intros d; cbn [fold_left].
  - unfold weighted_vote. simpl. now rewrite Qcplus_0_r.
  - rewrite IH, weighted_vote_cons. unfold vote_step at 1. rewrite add_vote_votes.
    rewrite (String.eqb_sym o). destruct (String.eqb (outcome_of sc) o); [|reflexivity].
    now rewrite Qcplus_assoc.
Qed.

Lemma fold_keys l d x :
  x ∈ (fst <$> fold_left vote_step l d) <->
  x ∈ (fst <$> d) \/ exists sc, sc ∈ l /\ outcome_of sc = x.
Proof.
  revert d. induction l as [|sc l IH]; intros d; cbn [fold_left].
  - split; [auto | intros [?|(sc & Hsc & _)]; [done | inversion Hsc]].
  - rewrite IH. unfold vote_step at 1. rewrite add_vote_keys. split.
    + intros [[-> | Hd] | (sc' & Hsc' & Ho)].
      * right. exists sc. split; [apply list_elem_of_here | reflexivity].
      * now left.
      * right. exists sc'. split; [now apply list_elem_of_further | exact Ho].
    + intros [Hd | (sc' & Hsc' & Ho)]; [now left; right|].
      apply elem_of_cons in Hsc' as [-> | Hsc']; [left; left; now symmetry|].
      right. now exists sc'.
Qed.

Lemma fold_NoDup l d :
  NoDup (fst <$> d) -> NoDup (fst <$> fold_left vote_step l d).
Proof.
  revert d. induction l as [|sc l IH]; intros d Hnd; cbn [fold_left]; [exact Hnd|].
  apply IH. now apply add_vote_NoDup.
Qed.

Lemma qc_sum_nonneg (l : list Qc) :
  Forall (fun q => (0 < q)%Qc) l -> (0 <= qc_sum l)%Qc.
Proof.
  induction 1 as [|q l Hq _ IH]; simpl; [apply Qcle_refl|].
  rewrite <- (Qcplus_0_l 0). apply Qcplus_le_compat; [now apply Qclt_le_weak | exact IH].
Qed.

Lemma qc_sum_pos (l : list Qc) :
  l <> [] -> Forall (fun q => (0 < q)%Qc) l -> (0 < qc_sum l)%Qc.
Proof.
  intros Hne Hall. destruct Hall as [|q l Hq Hall]; [done|]. simpl.
  apply (Qclt_le_trans _ (q + 0)); [now rewrite Qcplus_0_r|].
  apply Qcplus_le_compat; [apply Qcle_refl | now apply qc_sum_nonneg].
Qed.

Lemma weighted_vote_nonneg l o :
  Forall (fun sc => (0 < similarity_score sc)%Qc) l -> (0 <= weighted_vote l o)%Qc.
Proof.
  intros Hall. apply qc_sum_nonneg, Forall_fmap, Forall_forall.
  intros sc Hsc. rewrite Forall_forall in Hall. apply Hall.
  apply list_elem_of_In, filter_In in Hsc as [Hsc _]. now apply list_elem_of_In.
Qed.

Lemma weighted_vote_absent l o :
  (forall sc, sc ∈ l -> outcome_of sc <> o) -> weighted_vote l o = 0%Qc.
Proof.
  induction l as [|sc l IH]; intros Habs; [reflexivity|].
  rewrite weighted_vote_cons.
  destruct (String.eqb (outcome_of sc) o) eqn:Ho.
  - apply String.eqb_eq in Ho. destruct (Habs sc); [apply list_elem_of_here | exact Ho].
  - apply IH. intros sc' Hsc'. apply Habs. now apply list_elem_of_further.
Qed.

Lemma total_similarity_sum l a :
  fold_left (fun total sc => (total + similarity_score sc)%Qc) l a
  = (a + qc_sum (similarity_score <$> l))%Qc.
Proof.
  revert a. induction l as [|sc l IH]; intros a; simpl.
  - now rewrite Qcplus_0_r.
  - now rewrite IH, Qcplus_assoc.
Qed.

(** The first item of maximal value. *)
Lemma fold_best_spec (r : list (string * Qc)) (x : string * Qc) :
  let b := fold_left (fun best y => if qc_ltb (snd best) (snd y) then y else best) r x in
  (b = x \/ b ∈ r) /\ (snd x <= snd b)%Qc /\ forall y, y ∈ r -> (snd y <= snd b)%Qc.
Proof.
  revert x. induction r as [|y r IH]; intros x; cbn [fold_left].
  - split; [now left|]. split; [apply Qcle_refl | intros y Hy; inversion Hy].
  - set (x' := if qc_ltb (snd x) (snd y) then y else x).
    destruct (IH x') as (Hmem & Hle & Hall).
    assert (Hx : (snd x <= snd x')%Qc /\ (snd y <= snd x')%Qc /\ (x' = x \/ x' = y)).
    { unfold x'. destruct (qc_ltb (snd x) (snd y)) eqn:Hlt.
      - apply qc_ltb_lt in Hlt. split; [now apply Qclt_le_weak|].
        split; [apply Qcle_refl | now right].
      - split; [apply Qcle_refl|]. split; [|now left].
        apply Qcnot_lt_le. intros Hlt'. apply qc_ltb_lt in Hlt'. congruence. }
    destruct Hx as (Hxx' & Hyx' & Hx').
    split; [|split].
    + destruct Hmem as [-> | Hmem]; [|right; now apply list_elem_of_further].
      destruct Hx' as [-> | ->]; [now left | right; apply list_elem_of_here].
    + eapply Qcle_trans; eassumption.
    + intros z Hz. apply elem_of_cons in Hz as [-> | Hz]; [|now apply Hall].
      eapply Qcle_trans; eassumption.
Qed.

Lemma max_by_value_spec (d : list (string * Qc)) :
  d <> [] ->
  exists o v, max_by_value d = Ok (o, v) /\ (o, v) ∈ d /\
              forall o' v', (o', v') ∈ d -> (v' <= v)%Qc.
Proof.
  destruct d as [|x r]; [done|]. intros _. unfold max_by_value.
  destruct (fold_best_spec r x) as (Hmem & Hle & Hall).
  destruct (fold_left _ r x) as [o v] eqn:Hb. exists o, v.
  split; [reflexivity|]. split.
  - destruct Hmem as [<- | Hmem]; [apply list_elem_of_here | now apply list_elem_of_further].
  - intros o' v' Hin. apply elem_of_cons in Hin as [Heq | Hin].
    + subst x. exact Hle.
    + exact (Hall (o', v') Hin).
Qed.

Section Recommendation.

Context `{PyRuntime}.

Lemma slice_to_Forall {A} (P : A -> Prop) (k : Z) (l : list A) :
  Forall P l -> Forall P (slice_to k l).
Proof.
  intros Hl. unfold slice_to. destruct (0 <=? k)%Z; now apply Forall_take.
Qed.

(** The neighbours that the retrieval returns are at or above the
    threshold. *)
Lemma find_similar_cases_scores store current_facts top_k min_similarity similar :
  find_similar_cases store current_facts top_k min_similarity = Ok similar ->
  Forall (fun sc => (min_similarity <= similarity_score sc)%Qc) similar.
Proof.
  intros Hfind.
  destruct (cases store) as [|c l] eqn:Hc.
  { unfold find_similar_cases in Hfind. rewrite Hc in Hfind.
    injection Hfind as <-. constructor. }
  destruct (extract_features current_facts) as [current_features|e] eqn:Hf.
  - rewrite (find_similar_cases_unfold _ _ _ _ _ Hf) in Hfind. injection Hfind as <-.
    apply slice_to_Forall.
    eapply Permutation_Forall; [symmetry; apply py_sorted_perm|].
    apply Forall_fmap, Forall_forall. intros c' Hc'. simpl.
    apply qc_leb_le. apply list_elem_of_In, filter_In in Hc'. tauto.
  - unfold find_similar_cases in Hfind. rewrite Hc, Hf in Hfind. discriminate.
Qed.

Lemma py_div_nonzero a b : b <> 0%Qc -> py_div a b = Ok (a / b)%Qc.
Proof.
  intros Hb. unfold py_div. destruct (qc_eqb b 0) eqn:Hz; [|reflexivity].
  now apply qc_eqb_eq in Hz.
Qed.

(** The synthesis on neighbours of positive similarity. *)
Lemma synthesize_spec (similar : list SimilarCase) :
  similar <> [] ->
  Forall (fun sc => (0 < similarity_score sc)%Qc) similar ->
  exists rec o,
    synthesize similar = Ok rec /\
    head (recommendations rec) =
      Some {| rec_type := "outcome_prediction";
              suggestion := "Outcome más probable: " +:+ o;
              rec_confidence := confidence rec |} /\
    (exists sc, sc ∈ similar /\ outcome_of sc = o) /\
    (forall o', (weighted_vote similar o' <= weighted_vote similar o)%Qc) /\
    confidence rec
      = (weighted_vote similar o / qc_sum (similarity_score <$> similar))%Qc.
Proof.
  intros Hne Hpos.
  set (d := fold_left vote_step similar []).
  assert (Hnd : NoDup (fst <$> d)) by (apply fold_NoDup; constructor).
  assert (Hd : d <> []).
  { destruct similar as [|sc0 rest]; [done|].
    assert (Hk : outcome_of sc0 ∈ (fst <$> d)).
    { apply fold_keys. right. exists sc0. split; [apply list_elem_of_here | reflexivity]. }
    intros Hd. rewrite Hd in Hk. inversion Hk. }
  destruct (max_by_value_spec d Hd) as (o & v & Hmax & Hin & Hall).
  assert (Hv : v = weighted_vote similar o).
  { pose proof (fold_votes similar [] o) as Hvotes. fold d in Hvotes.
    unfold votes_of in Hvotes at 1. rewrite (assoc_of_member d o v Hnd Hin) in Hvotes.
    simpl in Hvotes. unfold votes_of in Hvotes. simpl in Hvotes.
    now rewrite Qcplus_0_l in Hvotes. }
  assert (Ho : exists sc, sc ∈ similar /\ outcome_of sc = o).
  { assert (Hk : o ∈ (fst <$> d)) by (apply list_elem_of_fmap; now exists (o, v)).
    apply fold_keys in Hk as [Hk | Hk]; [inversion Hk | exact Hk]. }
  assert (Htotal : total_similarity similar = qc_sum (similarity_score <$> similar)).
  { unfold total_similarity. rewrite total_similarity_sum. apply Qcplus_0_l. }
  assert (Hnz : total_similarity similar <> 0%Qc).
  { rewrite Htotal. apply not_eq_sym, Qclt_not_eq, qc_sum_pos.
    - destruct similar; [done | discriminate].
    - now apply Forall_fmap. }
  assert (Hbest : forall o', (weighted_vote similar o' <= weighted_vote similar o)%Qc).
  { intros o'. rewrite <- Hv.
    destruct (decide (o' ∈ (fst <$> d))) as [Hk | Hk].
    - destruct (member_of_key d o' Hk) as [v' Hin'].
      pose proof (fold_votes similar [] o') as Hvotes. fold d in Hvotes.
      unfold votes_of in Hvotes at 1. rewrite (assoc_of_member d o' v' Hnd Hin') in Hvotes.
      simpl in Hvotes. unfold votes_of in Hvotes. simpl in Hvotes.
      rewrite Qcplus_0_l in Hvotes. rewrite <- Hvotes. exact (Hall o' v' Hin').
    - rewrite weighted_vote_absent.
      + rewrite Hv. now apply weighted_vote_nonneg.
      + intros sc Hsc Ho'. apply Hk, fold_keys. right. now exists sc. }
  unfold synthesize.
  change (tally (fun sc => [Case.outcome (case sc)]) similar) with d.
  rewrite Hmax. cbn [mbind result_bind bind snd fst].
  rewrite (py_div_nonzero v _ Hnz). cbn [mbind result_bind bind].
  destruct (firstn 3 _) as [|top tops].
  - cbn [mbind result_bind bind]. do 2 eexists. split; [reflexivity|].
    cbn [recommendations confidence app head]. split; [reflexivity|].
    split; [exact Ho|]. split; [exact Hbest|]. now rewrite Hv, Htotal.
  - rewrite (py_div_nonzero (snd top) _ Hnz). cbn [mbind result_bind bind].
    do 2 eexists. split; [reflexivity|].
    cbn [recommendations confidence app head]. split; [reflexivity|].
    split; [exact Ho|]. split; [exact Hbest|]. now rewrite Hv, Htotal.
Qed.

End Recommendation.



(** The third scenario of the specification, end to end: the stored cases
    have similarities 0.9 and 0.4 to the query. *)
Example ex_scenario3_recommendation :
  (rec ← @get_recommendations Demo.runtime two_case_store query_facts;
   Ok (suggestion <$> head (recommendations rec), this (confidence rec),
       similar_cases_count rec))
  = Ok (Some "Outcome más probable: approved", (9 # 13)%Q, 2%nat).
Proof. vm_compute. reflexivity. Qed.

(** The second scenario of the specification. *)
Example ex_scenario2 :
  (res ← @forward_chaining Demo.runtime
           [ Rule.mk "cert_required" "Certificado requerido"
               "motivo in ['ART'] and not certificate_uploaded" "mark_sanction()"
               (Some 10) (Some "error") None ]
           (<["motivo" := VStr "ART"]> (<["certificate_uploaded" := VBool false]> ∅))
           max_iterations_default;
   Ok (final_facts res !! "sancion_aplicada", length (steps res)))
  = Ok (Some (VBool true), 1%nat).
Proof. vm_compute. reflexivity. Qed.

(** ** A second runtime for the examples

    [Demo2.runtime] is [Demo.runtime] with the syntax trees of some more
    condition texts. *)

Module Demo2.

Definition parse_table : list (string * result ast.expr) :=
  [ ("True or open('x')",
      Ok (ast.BoolOp ast.Or
            [ast.Constant (VBool true);
             ast.Call (ast.Name "open") [ast.Constant (VStr "x")]]));
    ("duracion > 'abc'",
      Ok (ast.Compare (ast.Name "duracion") [ast.Gt] [ast.Constant (VStr "abc")]));
    ("not duracion", Ok (ast.UnaryOp ast.Not (ast.Name "duracion")));
    ("not certificate_uploaded",
      Ok (ast.UnaryOp ast.Not (ast.Name "certificate_uploaded")));
    ("ausencias_ultimo_mes >= 3",
      Ok (ast.Compare (ast.Name "ausencias_ultimo_mes") [ast.GtE]
            [ast.Constant (VInt 3)]));
    ("duracion >= 3 and motivo == 'ART'",
      Ok (ast.BoolOp ast.And
            [ast.Compare (ast.Name "duracion") [ast.GtE] [ast.Constant (VInt 3)];
             ast.Compare (ast.Name "motivo") [ast.Eq] [ast.Constant (VStr "ART")]])) ].

Definition parse (text : string) : result ast.expr :=
  match Py.assoc text parse_table with
  | Some r => r
  | None => Demo.parse text
  end.

Lemma parse_more_exn text : raises_only_Exception (parse text).
Proof.
  unfold parse. intros e He.
  assert (Hall : Forall (fun p => raises_only_Exception (snd p)) parse_table).
  { repeat constructor; intros e'; simpl; intros He'; inversion He'. }
  induction Hall as [|[k r] tbl Hr _ IH]; simpl in He.
  - exact (Demo.parse_exn text e He).
  - destruct (String.eqb text k); [exact (Hr e He) | exact (IH He)].
Qed.

#[export] Instance runtime : PyRuntime := {|
  ast_parse := parse;
  call_builtin := Demo.builtins;
  datetime_now := 1762344000000000;
  json_dumps := Demo.dumps;
  md5_hexdigest := Demo.md5;
  ast_parse_exn := parse_more_exn;
  call_builtin_exn := Demo.builtins_exn
|}.

End Demo2.

(** Three rules for the examples: a sanction for repeated absences, an
    observation for a missing certificate, and a risk mark. *)
Definition reincidencia_rules : list Rule.t :=
  [ Rule.mk "reincidencia" "Ausencias reiteradas" "ausencias_ultimo_mes >= 3"
      "mark_sanction()" (Some 10) (Some "warning") None;
    Rule.mk "certificado" "Certificado pendiente" "not certificate_uploaded"
      "add_observacion('Falta el certificado')" (Some 20) None None;
    Rule.mk "riesgo" "Riesgo alto" "ausencias_ultimo_mes >= 3"
      "set_fact('riesgo_empleado', 'alto')" (Some 30) None None ].

(** A request with four absences in the last month and no certificate. *)
Definition reincidencia_facts : gmap string value :=
  <["motivo" := VStr "ART"]>
    (<["duracion" := VInt 2]>
       (<["ausencias_ultimo_mes" := VInt 4]>
          (<["certificate_uploaded" := VBool false]> ∅))).


(** * Further properties of the code *)

(** ** The evaluator *)

Section EvaluatorMore.

Context `{PyRuntime}.

Lemma mapM_raises {A B} (f : A -> result B) (l : list A) x e :
  x ∈ l -> f x = Raise e -> exists e', mapM f l = Raise e'.
Proof.
  induction l as [|y l IH]; intros Hx Hfx; [inversion Hx|].
  apply elem_of_cons in Hx as [<- | Hx]; simpl.
  - rewrite Hfx. simpl. eauto.
  - destruct (f y) as [b|e0]; simpl; [|eauto].
    destruct (IH Hx Hfx) as [e' ->]. simpl. eauto.
Qed.

(** The result of the comparison loop is a boolean when it starts from
    one. *)
Lemma compare_loop_bool facts ops comparators :
  forall lhs b v,
    (fix loop (ops : list ast.cmpop) (comparators : list ast.expr)
              (lhs res : value) {struct comparators} : result value :=
       match ops, comparators with
       | op :: ops', comparator :: comparators' =>
           rhs ← _eval_node facts comparator;
           match ALLOWED_OPERATORS_cmp op with
           | Some f =>
               res' ← (if Py.truthy res then f lhs rhs else Ok res);
               loop ops' comparators' rhs res'
           | None => Raise ValueError
           end
       | _, _ => Ok res
       end) ops comparators lhs (VBool b) = Ok v ->
    exists b', v = VBool b'.
Proof.
  revert ops. induction comparators as [|c cs IH]; intros ops lhs b v.
  - destruct ops; intros [= <-]; eauto.
  - destruct ops as [|op ops]; [intros [= <-]; eauto|].
    destruct (_eval_node facts c) as [rhs|]; [|discriminate]. cbn [mbind result_bind bind].
    destruct (ALLOWED_OPERATORS_cmp op) as [f|] eqn:Hop; [|discriminate].
    destruct b; cbn [Py.truthy].
    + destruct (f lhs rhs) as [r|] eqn:Hf; [|discriminate]. cbn [mbind result_bind bind].
      assert (exists b1, r = VBool b1) as [b1 ->].
      { destruct op; try discriminate Hop; injection Hop as <-;
          unfold lift_bool in Hf; cbn in Hf;
          try (injection Hf as <-; eauto; fail);
          match type of Hf with
          | context [Py.ord ?o ?a ?b] => destruct (Py.ord o a b); simpl in Hf
          | context [Py.contains ?a ?b] => destruct (Py.contains a b); simpl in Hf
          end; try discriminate; injection Hf as <-; eauto. }
      apply IH.
    + cbn [mbind result_bind bind]. apply IH.
Qed.

Lemma _eval_node_compare_bool facts lhs ops comparators v :
  _eval_node facts (ast.Compare lhs ops comparators) = Ok v -> exists b, v = VBool b.
Proof.
  cbn [_eval_node]. destruct (_eval_node facts lhs) as [l|]; [|discriminate].
  cbn [mbind result_bind bind]. apply compare_loop_bool.
Qed.

Lemma evaluate_compare_bool facts text lhs ops comparators :
  ast_parse text = Ok (ast.Compare lhs ops comparators) ->
  exists b, evaluate facts text = Ok (VBool b).
Proof.
  intros Hp. destruct (_eval_node facts (ast.Compare lhs ops comparators)) as [v|e] eqn:Hv.
  - destruct (_eval_node_compare_bool _ _ _ _ _ Hv) as [b ->].
    exists b. now apply (evaluate_parsed _ _ _ _ Hp).
  - exists false. apply (evaluate_failure _ _ e). now rewrite Hp.
Qed.

End EvaluatorMore.

(** X1.  A comparison of an unknown fact with an integer literal is true
    for [!=] only: the name evaluates to [None], which equals no number and
    cannot be ordered or searched, so [x > n], [x <= n], [x == n],
    [x in n], ... all evaluate to [False]. *)
Theorem missing_fact_comparison `{PyRuntime}
  (facts : gmap string value) (x : string) (op : ast.cmpop) (n : Z) (text : string) :
  ALLOWED_FUNCTIONS x = None ->
  facts !! x = None ->
  ast_parse text = Ok (ast.Compare (ast.Name x) [op] [ast.Constant (VInt n)]) ->
  evaluate facts text =
    Ok (VBool match op with ast.NotEq => true | _ => false end).
Proof.
  intros Hx Hmiss Hp.
  destruct op;
    first
      [ apply (evaluate_parsed _ _ _ _ Hp); cbn [_eval_node]; rewrite Hx, Hmiss;
        reflexivity
      | apply (evaluate_failure _ _ TypeError); rewrite Hp;
        cbn [mbind result_bind bind _eval_node]; rewrite Hx, Hmiss; reflexivity
      | apply (evaluate_failure _ _ ValueError); rewrite Hp;
        cbn [mbind result_bind bind _eval_node]; rewrite Hx, Hmiss; reflexivity ].
Qed.

Lemma missing_fact_comparison_witness :
  @evaluate Demo.runtime ∅ "duracion > 5" = Ok (VBool false).
Proof.
  apply (@missing_fact_comparison Demo.runtime ∅ "duracion" ast.Gt 5%Z "duracion > 5");
    vm_compute; reflexivity.
Defined.

(** X2.  [and] and [or] do not short-circuit: every operand is evaluated
    before the operator is applied, so when one operand fails the whole
    condition evaluates to [False], also when an operand before it would
    have decided the result ([True or f(x)] with a failing [f(x)] is
    [False]). *)
Theorem boolop_evaluates_every_operand `{PyRuntime}
  (facts : gmap string value) (text : string) (op : ast.boolop)
  (values : list ast.expr) (operand : ast.expr) (e : exn) :
  ast_parse text = Ok (ast.BoolOp op values) ->
  operand ∈ values ->
  _eval_node facts operand = Raise e ->
  evaluate facts text = Ok (VBool false).
Proof.
  intros Hp Hin He.
  destruct (mapM_raises (_eval_node facts) values operand e Hin He) as [e' He'].
  apply (evaluate_failure _ _ e'). rewrite Hp. cbn [mbind result_bind bind _eval_node].
  destruct op; cbn [ALLOWED_OPERATORS_bool]; now rewrite He'.
Qed.

Lemma boolop_evaluates_every_operand_witness :
  @evaluate Demo2.runtime ∅ "True or open('x')" = Ok (VBool false).
Proof.
  apply (@boolop_evaluates_every_operand Demo2.runtime ∅ "True or open('x')" ast.Or
           [ast.Constant (VBool true); ast.Call (ast.Name "open") [ast.Constant (VStr "x")]]
           (ast.Call (ast.Name "open") [ast.Constant (VStr "x")]) ValueError).
  - vm_compute; reflexivity.
  - apply elem_of_cons. right. apply elem_of_cons. now left.
  - vm_compute; reflexivity.
Defined.

(** X3.  A comparison never evaluates to anything but a boolean, so
    [validate_condition] accepts every condition text that is not blank and
    parses to a comparison, whatever the types of its operands (a
    comparison that fails to evaluate counts as one that is false). *)
Theorem validate_condition_accepts_comparisons `{PyRuntime}
  (condition : string) (lhs : ast.expr) (ops : list ast.cmpop)
  (comparators : list ast.expr) :
  Py.truthy (VStr (PyStr.strip condition)) = true ->
  ast_parse condition = Ok (ast.Compare lhs ops comparators) ->
  (forall facts, exists b, evaluate facts condition = Ok (VBool b)) /\
  exists message, validate_condition condition = Ok (true, message).
Proof.
  intros Hstrip Hp.
  split; [intros facts; exact (evaluate_compare_bool facts _ _ _ _ Hp)|].
  assert (Hne : Py.truthy (VStr condition) = true).
  { destruct condition; [discriminate Hstrip | reflexivity]. }
  destruct (validate_condition_by_result condition Hne Hstrip) as (res & Hres & ->).
  destruct (evaluate_compare_bool test_facts _ _ _ _ Hp) as [b Hb].
  rewrite Hb in Hres. injection Hres as <-. destruct b; simpl; eauto.
Qed.

Lemma validate_condition_accepts_comparisons_witness :
  exists message, @validate_condition Demo2.runtime "duracion > 'abc'" = Ok (true, message).
Proof.
  apply (@validate_condition_accepts_comparisons Demo2.runtime "duracion > 'abc'"
           (ast.Name "duracion") [ast.Gt] [ast.Constant (VStr "abc")]);
    vm_compute; reflexivity.
Defined.

(** ** Invariants of the forward-chaining loop *)

Section LoopInvariants.

Context `{PyRuntime}.

(** A property kept by every firing holds when the loop returns. *)
Lemma while_loop_invariant (P : Run -> Prop) rules :
  (forall st, P st -> P (next_iteration st)) ->
  (forall st st', P st -> scan rules st = Ok (Some st') -> P st') ->
  forall budget st st', P st -> while_loop rules budget st = Ok st' -> P st'.
Proof.
  intros Hnext Hscan. induction budget as [|budget IH]; intros st st' HP.
  - intros [= <-]. exact HP.
  - rewrite while_loop_S.
    destruct (scan rules (next_iteration st)) as [[st1|]|e] eqn:Hs;
      cbn [mbind result_bind bind]; try discriminate.
    + apply IH. eapply Hscan; [apply Hnext, HP | exact Hs].
    + intros [= <-]. now apply Hnext.
Qed.

(** A pass that fires: the rule, the value of its condition and the effect
    of its action. *)
Lemma scan_some_inv rules st st' :
  scan rules st = Ok (Some st') ->
  exists rule v r facts',
    rule ∈ rules /\
    _should_evaluate_rule (run_facts st) rule = Ok true /\
    evaluate (run_facts st) (Rule.condition rule) = Ok v /\ Py.truthy v = true /\
    _execute_action (run_facts st) (Rule.action rule) rule = Ok (r, facts') /\
    action_effect (run_facts st) (Rule.action rule) rule r facts' /\
    st' = {| run_facts := <[executed_flag (Rule.id rule) := VBool true]> facts';
             run_steps := run_steps st ++ [make_step (run_facts st) rule v];
             run_conclusions :=
               match r with
               | Some _ => run_conclusions st ++ [Rule.name rule]
               | None => run_conclusions st
               end;
             run_actions :=
               match r with
               | Some a => run_actions st ++ [a]
               | None => run_actions st
               end;
             iteration := iteration st |}.
Proof.
  intros Hscan.
  destruct (scan_spec rules st) as [[Hnone _] |
    (pre & rule & post & v & r & facts' & Hrules & _ & Hs & Hv & Ht & He & Heff & Heq)];
    [congruence|].
  rewrite Heq in Hscan. injection Hscan as <-.
  exists rule, v, r, facts'. repeat split; auto.
  rewrite Hrules. apply elem_of_app. right. constructor.
Qed.

Lemma run_loop_invariant (P : Run -> Prop) rules initial_facts max_iterations st :
  (forall st, P st -> P (next_iteration st)) ->
  (forall st st', P st -> scan rules st = Ok (Some st') -> P st') ->
  P (initial_run initial_facts) ->
  run_loop rules initial_facts max_iterations = Ok st -> P st.
Proof.
  intros Hnext Hscan H0 Hst.
  exact (while_loop_invariant P rules Hnext Hscan _ _ _ H0 Hst).
Qed.

(** The run always returns. *)
Lemma forward_chaining_returns rules initial_facts max_iterations :
  exists st,
    run_loop rules initial_facts max_iterations = Ok st /\
    forward_chaining rules initial_facts max_iterations = Ok (result_of st).
Proof.
  destruct (run_loop_spec rules initial_facts max_iterations) as (st & Hst & _).
  exists st. split; [exact Hst|]. unfold forward_chaining. now rewrite Hst.
Qed.

(** A property of the initial run that every firing keeps holds of the run
    behind the result. *)
Lemma forward_chaining_invariant (P : Run -> Prop) rules initial_facts max_iterations :
  (forall st, P st -> P (next_iteration st)) ->
  (forall st st', P st -> scan rules st = Ok (Some st') -> P st') ->
  P (initial_run initial_facts) ->
  exists st,
    forward_chaining rules initial_facts max_iterations = Ok (result_of st) /\ P st.
Proof.
  intros Hnext Hscan H0.
  destruct (forward_chaining_returns rules initial_facts max_iterations) as (st & Hst & Hfc).
  exists st. split; [exact Hfc|].
  exact (while_loop_invariant P rules Hnext Hscan _ _ _ H0 Hst).
Qed.

End LoopInvariants.

(** A step that records a firing of a rule of the set. *)
Definition step_of_rule (rules : list Rule.t) (s : InferenceStep) : Prop :=
  condition_result s = true /\
  exists rule, rule ∈ rules /\
    rule_id s = Rule.id rule /\ rule_name s = Rule.name rule /\
    condition s = Rule.condition rule /\ action s = Rule.action rule.

(** X4.  The trace of a run is sound.  Every step of the result records a
    rule of the rule set (its id, name, condition and action) with a
    condition result that is true; the conclusions are rule names of the
    steps, in the order of the steps; and there is one action summary for
    each conclusion.  This holds for every rule set, every initial fact
    environment and every iteration cap. *)
Theorem trace_is_sound `{PyRuntime}
  (rules : list Rule.t) (initial_facts : gmap string value) (max_iterations : Z) :
  exists res,
    forward_chaining rules initial_facts max_iterations = Ok res /\
    Forall (step_of_rule rules) (steps res) /\
    sublist (conclusions res) (rule_name <$> steps res) /\
    length (actions_taken res) = length (conclusions res).
Proof.
  destruct (forward_chaining_invariant
              (fun st => Forall (step_of_rule rules) (run_steps st) /\
                         sublist (run_conclusions st) (rule_name <$> run_steps st) /\
                         length (run_actions st) = length (run_conclusions st))
              rules initial_facts max_iterations) as (st & Hfc & Hst).
  - intros st Hst. exact Hst.
  - intros st st' (Hsteps & Hsub & Hlen) Hscan.
    destruct (scan_some_inv _ _ _ Hscan)
      as (rule & v & r & facts' & Hin & _ & _ & Ht & _ & _ & ->).
    cbn [run_steps run_conclusions run_actions]. rewrite fmap_app. split; [|split].
    + apply Forall_app. split; [exact Hsteps|]. constructor; [|constructor].
      split; [exact Ht|]. exists rule. cbn. auto.
    + destruct r; [apply sublist_app; [exact Hsub | reflexivity]|].
      now apply sublist_inserts_r.
    + destruct r; [rewrite !length_app; simpl; lia | exact Hlen].
  - cbn. repeat split; constructor.
  - exists (result_of st). split; [exact Hfc | exact Hst].
Qed.

(** ** What a run writes *)

(** The names [forward_chaining] binds before its first pass. *)
Definition special_names : list string :=
  ["now"; "days_since"; "hours_since"; "is_weekend"; "current_hour"].

(** The names a rule writes when it fires: its [executed] flag and the
    names its action writes. *)
Definition written_by (rule : Rule.t) : list string :=
  executed_flag (Rule.id rule) ::
  match parse_call (Rule.action rule) with
  | Some (func_name, args_str) =>
      if String.eqb func_name "add_observacion" then ["observaciones"]
      else if String.eqb func_name "mark_sanction"
      then ["sancion_aplicada"; "sancion_motivo"]
      else if String.eqb func_name "set_fact" then
        match PyStr.split1 PyStr.comma args_str with
        | (part0, Some _) => [_extract_string_arg (PyStr.strip part0)]
        | (_, None) => []
        end
      else if String.eqb func_name "require_approval"
      then ["requiere_aprobacion"; "aprobacion_motivo"]
      else []
  | None => []
  end.

Section Frame.

Context `{PyRuntime}.

Lemma _execute_action_frame facts rule r facts' k :
  _execute_action facts (Rule.action rule) rule = Ok (r, facts') ->
  k ∉ written_by rule ->
  facts' !! k = facts !! k.
Proof.
  unfold _execute_action, written_by. intros He Hk.
  apply not_elem_of_cons in Hk as [_ Hk].
  destruct (parse_call (Rule.action rule)) as [[func_name args_str]|];
    [|now injection He as <- <-].
  destruct (String.eqb func_name "add_observacion").
  { unfold _add_observacion in He.
    destruct (facts !! "observaciones") as [[]|]; cbn in He; injection He as <- <-;
      try reflexivity; apply lookup_insert_ne; set_solver. }
  destruct (String.eqb func_name "mark_sanction").
  { cbn in He. injection He as <- <-. unfold _mark_sanction.
    rewrite !lookup_insert_ne; [reflexivity | set_solver..]. }
  destruct (String.eqb func_name "set_fact").
  { destruct (PyStr.split1 PyStr.comma args_str) as [part0 [part1|]];
      cbn in He; injection He as <- <-; [|reflexivity].
    apply lookup_insert_ne. set_solver. }
  destruct (String.eqb func_name "require_approval"); cbn in He; injection He as <- <-;
    [|reflexivity].
  unfold _require_approval. rewrite !lookup_insert_ne; [reflexivity | set_solver..].
Qed.

Lemma action_effect_is_Some facts action rule r facts' k :
  action_effect facts action rule r facts' ->
  is_Some (facts !! k) -> is_Some (facts' !! k).
Proof.
  intros Heff Hk.
  destruct Heff; unfold _mark_sanction, _require_approval;
    repeat (apply lookup_insert_is_Some'; right); exact Hk.
Qed.

Lemma special_names_bound initial_facts k :
  k ∈ special_names -> is_Some (run_facts (initial_run initial_facts) !! k).
Proof.
  unfold special_names, initial_run, _add_special_functions. cbn [run_facts].
  intros Hk.
  repeat (apply elem_of_cons in Hk as [-> | Hk];
          [repeat (apply lookup_insert_is_Some'; first [left; reflexivity | right])|]).
  inversion Hk.
Qed.

End Frame.

Section RunFrame.

Context `{PyRuntime}.

(** A name that no rule of the set writes keeps, through the passes, the
    value it has before the first. *)
Lemma run_loop_frame rules initial_facts max_iterations st k :
  k ∉ flat_map written_by rules ->
  run_loop rules initial_facts max_iterations = Ok st ->
  run_facts st !! k = run_facts (initial_run initial_facts) !! k.
Proof.
  intros Hk.
  assert (Hrules : forall rule, rule ∈ rules -> k ∉ written_by rule).
  { intros rule Hin Hw. apply Hk.
    apply list_elem_of_In, in_flat_map. exists rule.
    split; now apply list_elem_of_In. }
  apply (run_loop_invariant
           (fun st => run_facts st !! k = run_facts (initial_run initial_facts) !! k)).
  - intros st0 Hst. exact Hst.
  - intros st0 st' Hst Hscan.
    destruct (scan_some_inv _ _ _ Hscan)
      as (rule & v & r & facts' & Hin & _ & _ & _ & He & _ & ->).
    cbn [run_facts]. pose proof (Hrules rule Hin) as Hw.
    rewrite lookup_insert_ne
      by (intros Heq; apply Hw; unfold written_by; rewrite Heq; constructor).
    rewrite <- Hst. exact (_execute_action_frame _ _ _ _ _ He Hw).
  - reflexivity.
Qed.

End RunFrame.

(** X5.  A run writes only the names of its rules.  A name that is neither
    the [executed] flag of a rule of the set nor a name its action writes
    ([observaciones] for [add_observacion]; [sancion_aplicada] and
    [sancion_motivo] for [mark_sanction]; [requiere_aprobacion] and
    [aprobacion_motivo] for [require_approval]; the target of a [set_fact])
    has in the final facts the value it had before the first pass: the
    caller's value, unless it is one of the special names [now],
    [days_since], [hours_since], [is_weekend] and [current_hour], which the
    engine binds over whatever the caller supplied. *)
Theorem run_writes_only_its_names `{PyRuntime}
  (rules : list Rule.t) (initial_facts : gmap string value) (max_iterations : Z)
  (k : string) :
  k ∉ flat_map written_by rules ->
  exists res,
    forward_chaining rules initial_facts max_iterations = Ok res /\
    final_facts res !! k
      = _add_special_functions (<["now" := VTime datetime_now]> initial_facts) !! k /\
    (k ∉ special_names -> final_facts res !! k = initial_facts !! k).
Proof.
  intros Hk.
  destruct (forward_chaining_returns rules initial_facts max_iterations) as (st & Hst & Hfc).
  pose proof (run_loop_frame _ _ _ _ _ Hk Hst) as Hframe.
  exists (result_of st). split; [exact Hfc|]. cbn [final_facts result_of].
  split; [exact Hframe|].
  intros Hns. rewrite Hframe. unfold initial_run, _add_special_functions, special_names in *.
  cbn [run_facts]. rewrite !lookup_insert_ne; [reflexivity | set_solver..].
Qed.

Lemma run_writes_only_its_names_witness :
  exists res,
    @forward_chaining Demo2.runtime reincidencia_rules reincidencia_facts 100 = Ok res /\
    final_facts res !! "motivo"
      = @_add_special_functions Demo2.runtime
          (<["now" := VTime (@datetime_now Demo2.runtime)]> reincidencia_facts) !! "motivo" /\
    ("motivo" ∉ special_names ->
     final_facts res !! "motivo" = reincidencia_facts !! "motivo").
Proof.
  apply (@run_writes_only_its_names Demo2.runtime reincidencia_rules reincidencia_facts
           100 "motivo").
  apply (bool_decide_unpack _). vm_compute. exact I.
Defined.

(** X6.  A run never deletes a fact.  Every name the caller supplied is
    still bound in the final facts (its value may have been overwritten),
    the five special names are bound, and so is the [executed] flag of every
    rule that has a step. *)
Theorem run_keeps_every_fact `{PyRuntime}
  (rules : list Rule.t) (initial_facts : gmap string value) (max_iterations : Z) :
  exists res,
    forward_chaining rules initial_facts max_iterations = Ok res /\
    dom initial_facts ⊆ dom (final_facts res) /\
    (forall k, k ∈ special_names -> k ∈ dom (final_facts res)) /\
    Forall (fun s => executed_flag (rule_id s) ∈ dom (final_facts res)) (steps res).
Proof.
  destruct (forward_chaining_invariant
              (fun st =>
                 (forall k, is_Some (run_facts (initial_run initial_facts) !! k) ->
                            is_Some (run_facts st !! k)) /\
                 Forall (fun s => is_Some (run_facts st !! executed_flag (rule_id s)))
                   (run_steps st))
              rules initial_facts max_iterations) as (st & Hfc & Hkeep & Hflags).
  - intros st Hst. exact Hst.
  - intros st st' [Hkeep Hflags] Hscan.
    destruct (scan_some_inv _ _ _ Hscan)
      as (rule & v & r & facts' & _ & _ & _ & _ & _ & Heff & ->).
    cbn [run_facts run_steps].
    assert (Hstep : forall k, is_Some (run_facts st !! k) ->
              is_Some (<[executed_flag (Rule.id rule) := VBool true]> facts' !! k)).
    { intros k Hk. apply lookup_insert_is_Some'. right.
      exact (action_effect_is_Some _ _ _ _ _ _ Heff Hk). }
    split; [intros k Hk; apply Hstep, Hkeep, Hk|].
    apply Forall_app. split.
    + eapply Forall_impl; [exact Hflags|]. intros s Hs. now apply Hstep.
    + constructor; [|constructor]. cbn [rule_id make_step].
      apply lookup_insert_is_Some'. now left.
  - split; [auto | constructor].
  - exists (result_of st). split; [exact Hfc|]. cbn [final_facts steps result_of].
    split; [|split].
    + intros k Hk. apply elem_of_dom. apply Hkeep.
      apply elem_of_dom in Hk. unfold initial_run, _add_special_functions.
      cbn [run_facts]. repeat (apply lookup_insert_is_Some'; right). exact Hk.
    + intros k Hk. apply elem_of_dom, Hkeep. now apply special_names_bound.
    + eapply Forall_impl; [exact Hflags|]. intros s Hs. now apply elem_of_dom.
Qed.

(** ** Where a run stops *)

(** A rule that does not fire on the facts: it is not due (its [executed]
    flag is set, or its activation condition is false) or its condition is
    false. *)
Definition cannot_fire `{PyRuntime} (facts : gmap string value) (rule : Rule.t) : Prop :=
  _should_evaluate_rule facts rule = Ok false \/
  exists v, evaluate facts (Rule.condition rule) = Ok v /\ Py.truthy v = false.

Section FixedPoint.

Context `{PyRuntime}.

(** The loop stops when a pass fires no rule, or when every pass of the
    budget has fired one. *)
Lemma while_loop_stop rules budget st :
  exists st' new,
    while_loop rules budget st = Ok st' /\
    run_steps st' = run_steps st ++ new /\
    (Forall (cannot_fire (run_facts st')) rules \/ length new = budget).
Proof.
  revert st. induction budget as [|budget IH]; intros st.
  - exists st, []. rewrite app_nil_r. repeat split. now right.
  - rewrite while_loop_S.
    destruct (scan_spec rules (next_iteration st)) as [[Hnone Hall] |
      (pre & rule & post & v & r & facts' & _ & _ & _ & _ & _ & _ & _ & Heq)].
    + rewrite Hnone. cbn [mbind result_bind bind].
      exists (next_iteration st), []. rewrite app_nil_r. repeat split. left. exact Hall.
    + rewrite Heq. cbn [mbind result_bind bind].
      match goal with |- context [while_loop rules budget ?s] =>
        destruct (IH s) as (st' & new & Hloop & Hsteps & Hstop) end.
      cbn [run_steps next_iteration] in Hsteps.
      exists st', (make_step (run_facts (next_iteration st)) rule v :: new).
      split; [exact Hloop|]. split; [now rewrite Hsteps, <- app_assoc|].
      destruct Hstop as [Hfix | Hlen]; [now left | right; simpl; now rewrite Hlen].
Qed.

(** The rules that have a step are rules of the set. *)
Lemma run_loop_step_ids rules initial_facts max_iterations st :
  run_loop rules initial_facts max_iterations = Ok st ->
  forall id, id ∈ rule_id <$> run_steps st -> id ∈ Rule.id <$> rules.
Proof.
  apply (run_loop_invariant
           (fun st => forall id, id ∈ rule_id <$> run_steps st -> id ∈ Rule.id <$> rules)).
  - intros st0 Hst. exact Hst.
  - intros st0 st' Hst Hscan.
    destruct (scan_some_inv _ _ _ Hscan)
      as (rule & v & r & facts' & Hin & _ & _ & _ & _ & _ & ->).
    cbn [run_steps]. intros id Hid. rewrite fmap_app in Hid.
    apply elem_of_app in Hid as [Hid | Hid]; [now apply Hst|].
    apply list_elem_of_singleton in Hid as ->. cbn [rule_id make_step].
    now apply list_elem_of_fmap_2.
  - intros id Hid. inversion Hid.
Qed.

End FixedPoint.

(** X7.  The iteration cap is the only reason for a run to stop short of a
    fixed point: either no rule can fire on the final facts, or the run has
    fired a rule in every one of its [max_iterations] passes. *)
Theorem run_stops_at_fixed_point_or_cap `{PyRuntime}
  (rules : list Rule.t) (initial_facts : gmap string value) (max_iterations : Z) :
  exists res,
    forward_chaining rules initial_facts max_iterations = Ok res /\
    (Forall (cannot_fire (final_facts res)) rules \/
     length (steps res) = Z.to_nat max_iterations).
Proof.
  destruct (while_loop_stop rules (Z.to_nat max_iterations) (initial_run initial_facts))
    as (st & new & Hloop & Hsteps & Hstop).
  exists (result_of st). split.
  - unfold forward_chaining, run_loop. now rewrite Hloop.
  - cbn [final_facts steps result_of]. rewrite Hsteps. exact Hstop.
Qed.

(** X8.  A rule set whose [set_fact] actions leave the [executed] flags
    alone, run with a cap above the number of its rules (the default cap of
    100 with fewer than 100 rules), reaches a fixed point: no rule of
    the set can fire on the final facts. *)
Theorem run_reaches_fixed_point `{PyRuntime}
  (rules : list Rule.t) (initial_facts : gmap string value) (max_iterations : Z) :
  flags_kept rules ->
  (Z.of_nat (length rules) < max_iterations)%Z ->
  exists res,
    forward_chaining rules initial_facts max_iterations = Ok res /\
    Forall (cannot_fire (final_facts res)) rules.
Proof.
  intros Hkept Hcap.
  destruct (while_loop_stop rules (Z.to_nat max_iterations) (initial_run initial_facts))
    as (st & new & Hloop & Hsteps & Hstop).
  exists (result_of st). split; [unfold forward_chaining, run_loop; now rewrite Hloop|].
  cbn [final_facts result_of]. destruct Hstop as [Hfix | Hlen]; [exact Hfix | exfalso].
  destruct (run_loop_spec rules initial_facts max_iterations)
    as (st1 & Hst1 & _ & _ & _ & Honce).
  unfold run_loop in Hst1. rewrite Hloop in Hst1. injection Hst1 as <-.
  specialize (Honce Hkept). unfold fires_at_most_once in Honce.
  pose proof (run_loop_step_ids rules initial_facts max_iterations st Hloop) as Hids.
  pose proof (submseteq_length _ _ (NoDup_submseteq _ _ Honce Hids)) as Hle.
  rewrite !length_fmap, Hsteps in Hle. cbn [run_steps initial_run app] in Hle. lia.
Qed.

Lemma flags_kept_reincidencia : flags_kept reincidencia_rules.
Proof.
  intros r r' Hr Hr'. unfold reincidencia_rules in Hr.
  repeat (apply elem_of_cons in Hr as [-> | Hr]; [vm_compute; discriminate|]).
  inversion Hr.
Qed.

Lemma run_reaches_fixed_point_witness :
  exists res,
    @forward_chaining Demo2.runtime reincidencia_rules reincidencia_facts 100 = Ok res /\
    Forall (@cannot_fire Demo2.runtime (final_facts res)) reincidencia_rules.
Proof.
  apply (@run_reaches_fixed_point Demo2.runtime reincidencia_rules reincidencia_facts 100).
  - exact flags_kept_reincidencia.
  - vm_compute. reflexivity.
Defined.

(** ** The action [add_observacion] *)

(** An ASCII character is no part of a longer white-space character. *)
Lemma is_space2_ascii a b :
  (nat_of_ascii a < 128)%nat -> PyStr.is_space2 a b = false.
Proof.
  intros Ha. unfold PyStr.is_space2.
  rewrite (proj2 (Nat.eqb_neq _ _)) by lia. reflexivity.
Qed.

Lemma is_space3_ascii a b c :
  (nat_of_ascii a < 128)%nat -> PyStr.is_space3 a b c = false.
Proof.
  intros Ha. unfold PyStr.is_space3. cbv zeta.
  rewrite (proj2 (Nat.eqb_neq (nat_of_ascii a) 225)) by lia.
  rewrite (proj2 (Nat.eqb_neq (nat_of_ascii a) 226)) by lia.
  rewrite (proj2 (Nat.eqb_neq (nat_of_ascii a) 227)) by lia.
  reflexivity.
Qed.

Lemma is_space2_snd_ascii a b :
  (nat_of_ascii b < 128)%nat -> PyStr.is_space2 a b = false.
Proof.
  intros Hb. unfold PyStr.is_space2.
  rewrite (proj2 (Nat.eqb_neq (nat_of_ascii b) 133)) by lia.
  rewrite (proj2 (Nat.eqb_neq (nat_of_ascii b) 160)) by lia.
  apply andb_false_r.
Qed.

Lemma is_space3_trd_ascii a b c :
  (nat_of_ascii c < 128)%nat -> PyStr.is_space3 a b c = false.
Proof.
  intros Hc. unfold PyStr.is_space3. cbv zeta.
  rewrite (proj2 (Nat.eqb_neq (nat_of_ascii c) 128)) by lia.
  rewrite (proj2 (Nat.eqb_neq (nat_of_ascii c) 168)) by lia.
  rewrite (proj2 (Nat.eqb_neq (nat_of_ascii c) 169)) by lia.
  rewrite (proj2 (Nat.eqb_neq (nat_of_ascii c) 175)) by lia.
  rewrite (proj2 (Nat.eqb_neq (nat_of_ascii c) 159)) by lia.
  rewrite (proj2 (Nat.leb_gt 128 (nat_of_ascii c))) by lia.
  rewrite !andb_false_r. reflexivity.
Qed.

Lemma lstrip_nonspace a s :
  PyStr.is_space a = false -> (nat_of_ascii a < 128)%nat ->
  PyStr.lstrip (String a s) = String a s.
Proof.
  intros Ha Hn. cbn [PyStr.lstrip]. rewrite Ha.
  destruct s as [|b [|c r]]; [reflexivity | |].
  - now rewrite (is_space2_ascii a b Hn).
  - now rewrite (is_space2_ascii a b Hn), (is_space3_ascii a b c Hn).
Qed.

(** A text that ends in an ASCII character other than white space is not
    all white space. *)
Lemma all_space_snoc s a :
  PyStr.is_space a = false -> (nat_of_ascii a < 128)%nat ->
  PyStr.all_space (s +:+ String a EmptyString) = false.
Proof.
  intros Ha Hn.
  enough (Hex : forall n t, (String.length t <= n)%nat ->
                 exists b r, PyStr.lstrip (t +:+ String a EmptyString) = String b r).
  { unfold PyStr.all_space. destruct (Hex _ s (le_n _)) as (b & r & ->). reflexivity. }
  assert (Hone : exists b r, PyStr.lstrip (String a EmptyString) = String b r)
    by (exists a, EmptyString; now apply lstrip_nonspace).
  induction n as [|n IH]; intros t Hlen.
  - destruct t; [exact Hone | simpl in Hlen; lia].
  - destruct t as [|x t]; [exact Hone|].
    change (exists b r, PyStr.lstrip (String x (t +:+ String a EmptyString)) = String b r).
    cbn [PyStr.lstrip]. cbn [String.length] in Hlen.
    destruct (PyStr.is_space x); [apply IH; lia|].
    destruct t as [|y t].
    + change (EmptyString +:+ String a EmptyString) with (String a EmptyString).
      cbv beta iota. rewrite (is_space2_snd_ascii x a Hn). eauto.
    + change (String y t +:+ String a EmptyString)
        with (String y (t +:+ String a EmptyString)).
      cbv beta iota. cbn [String.length] in Hlen.
      destruct (PyStr.is_space2 x y); [apply IH; lia|].
      destruct t as [|z t].
      * change (EmptyString +:+ String a EmptyString) with (String a EmptyString).
        cbv beta iota. rewrite (is_space3_trd_ascii x y a Hn). eauto.
      * change (String z t +:+ String a EmptyString)
          with (String z (t +:+ String a EmptyString)).
        cbv beta iota. cbn [String.length] in Hlen.
        destruct (PyStr.is_space3 x y z); [apply IH; lia | eauto].
Qed.

Lemma rstrip_snoc s a :
  PyStr.is_space a = false -> (nat_of_ascii a < 128)%nat ->
  PyStr.rstrip (s +:+ String a EmptyString) = s +:+ String a EmptyString.
Proof.
  intros Ha Hn. induction s as [|b s IH].
  - change (PyStr.rstrip (String a EmptyString) = String a EmptyString).
    cbn [PyStr.rstrip].
    pose proof (all_space_snoc EmptyString a Ha Hn) as Hs.
    change (EmptyString +:+ String a EmptyString) with (String a EmptyString) in Hs.
    rewrite Hs. reflexivity.
  - change (PyStr.rstrip (String b (s +:+ String a EmptyString))
            = String b (s +:+ String a EmptyString)).
    cbn [PyStr.rstrip].
    pose proof (all_space_snoc (String b s) a Ha Hn) as Hs.
    change (String b s +:+ String a EmptyString)
      with (String b (s +:+ String a EmptyString)) in Hs.
    rewrite Hs. now rewrite IH.
Qed.

Lemma endswith_snoc s a :
  PyStr.endswith a (s +:+ String a EmptyString) = true.
Proof.
  induction s as [|b s IH].
  - change (PyStr.endswith a (String a EmptyString) = true). simpl. apply Ascii.eqb_refl.
  - change (PyStr.endswith a (String b (s +:+ String a EmptyString)) = true).
    cbn [PyStr.endswith]. rewrite IH. destruct s; reflexivity.
Qed.

Lemma drop_last_snoc s a :
  PyStr.drop_last (s +:+ String a EmptyString) = s.
Proof.
  induction s as [|b s IH]; [reflexivity|].
  change (PyStr.drop_last (String b (s +:+ String a EmptyString)) = String b s).
  cbn [PyStr.drop_last]. rewrite IH. destruct s; reflexivity.
Qed.

(** A text between two quotes of one kind denotes the text between
    them. *)
Lemma _extract_string_arg_quoted `{PyRuntime} (q : ascii) (text : string) :
  q = PyStr.quote1 \/ q = PyStr.quote2 ->
  _extract_string_arg (String q (text +:+ String q EmptyString)) = text.
Proof.
  intros Hq. unfold _extract_string_arg.
  assert (Hsp : PyStr.is_space q = false) by (destruct Hq as [-> | ->]; reflexivity).
  assert (Hn : (nat_of_ascii q < 128)%nat) by (destruct Hq as [-> | ->]; vm_compute; lia).
  assert (Hstrip : PyStr.strip (String q (text +:+ String q EmptyString))
                   = String q (text +:+ String q EmptyString)).
  { unfold PyStr.strip. rewrite (lstrip_nonspace _ _ Hsp Hn).
    exact (rstrip_snoc (String q text) q Hsp Hn). }
  rewrite Hstrip.
  assert (Hend : PyStr.endswith q (String q (text +:+ String q EmptyString)) = true)
    by exact (endswith_snoc (String q text) q).
  assert (Hslice : PyStr.slice_1_m1 (String q (text +:+ String q EmptyString)) = text)
    by (cbn [PyStr.slice_1_m1]; apply drop_last_snoc).
  destruct Hq as [-> | ->].
  - rewrite Hend. cbn [PyStr.startswith]. rewrite Hslice.
    replace (Ascii.eqb PyStr.quote1 PyStr.quote2) with false by reflexivity.
    rewrite Ascii.eqb_refl. reflexivity.
  - rewrite Hend. cbn [PyStr.startswith]. rewrite Ascii.eqb_refl. cbn [andb].
    exact Hslice.
Qed.

(** How [_execute_action] reads the text [name(arguments)]. *)
Lemma parse_call_text (func_name args_str : string) :
  PyStr.contains_char PyStr.lparen func_name = false ->
  parse_call (func_name +:+ String PyStr.lparen (args_str +:+ String PyStr.rparen EmptyString))
    = Some (PyStr.strip func_name, args_str).
Proof.
  intros Hname. unfold parse_call, PyStr.before_first.
  rewrite contains_char_app.
  rewrite (contains_char_append PyStr.rparen func_name).
  2:{ apply (contains_char_app PyStr.rparen (String PyStr.lparen args_str) EmptyString). }
  rewrite (split1_app _ _ _ Hname). cbn [andb fst snd default].
  unfold PyStr.rsplit1_head. unfold id. now rewrite before_last_opt_snoc.
Qed.

(** X9.  The action [add_observacion('m')] records the message [m] as it
    stands between the quotes, whatever characters it has (parentheses,
    commas and quotes included).  It appends one entry, with the message,
    the severity of the rule (['info'] when it has none), the id of the rule
    and the time, to the list under [observaciones], which it creates when
    the name is unbound.  When [observaciones] is bound to something that
    is not a list the action fails inside the engine: the facts stay as they
    are and no summary is returned. *)
Theorem add_observacion_appends `{PyRuntime}
  (facts : gmap string value) (rule : Rule.t) (message : string) :
  let action := "add_observacion('" +:+ message +:+ "')" in
  let entry := VDict [("message", VStr message);
                      ("severity", VStr (default "info" (Rule.severity rule)));
                      ("rule_id", VStr (Rule.id rule));
                      ("timestamp", VStr (DateTime.isoformat datetime_now))] in
  _execute_action facts action rule =
    match facts !! "observaciones" with
    | None =>
        Ok (Some ("Observación agregada: " +:+ message),
            <["observaciones" := VList [entry]]> facts)
    | Some (VList l) =>
        Ok (Some ("Observación agregada: " +:+ message),
            <["observaciones" := VList (l ++ [entry])]> facts)
    | Some _ => Ok (None, facts)
    end.
Proof.
  intros action entry.
  assert (Hparse : parse_call action
                   = Some ("add_observacion", String PyStr.quote1
                                                (message +:+ String PyStr.quote1 EmptyString))).
  { pose proof (parse_call_text "add_observacion"
                  (String PyStr.quote1 (message +:+ String PyStr.quote1 EmptyString))
                  eq_refl) as Hp.
    replace (PyStr.strip "add_observacion") with "add_observacion" in Hp by reflexivity.
    rewrite <- Hp. f_equal. unfold action.
    assert (Hm : message +:+ "')"
                 = (message +:+ String PyStr.quote1 EmptyString)
                     +:+ String PyStr.rparen EmptyString).
    { clear. induction message as [|a m IH]; [reflexivity|].
      change (String a (m +:+ "')")
              = String a ((m +:+ String PyStr.quote1 EmptyString)
                            +:+ String PyStr.rparen EmptyString)).
      now rewrite IH. }
    transitivity ("add_observacion" +:+ String PyStr.lparen
                    (String PyStr.quote1
                       ((message +:+ String PyStr.quote1 EmptyString)
                          +:+ String PyStr.rparen EmptyString)));
      [rewrite <- Hm; reflexivity | reflexivity]. }
  unfold _execute_action. rewrite Hparse.
  replace (String.eqb "add_observacion" "add_observacion") with true by reflexivity.
  cbv zeta. rewrite (_extract_string_arg_quoted PyStr.quote1 message (or_introl eq_refl)).
  unfold _add_observacion, severity_of. fold entry.
  destruct (facts !! "observaciones") as [[]|]; reflexivity.
Qed.

(** ** From the run to the decision *)

Section Decision.

Context `{PyRuntime}.

Variable lower : string -> string.

(** A true [sancion_aplicada] or [requiere_aprobacion] stays true through
    an action that does not set it to the empty text. *)
Lemma action_effect_keeps_mark facts action rule r facts' k :
  action_effect facts action rule r facts' ->
  k = "sancion_aplicada" \/ k = "requiere_aprobacion" ->
  set_fact_call action <> Some (k, EmptyString) ->
  Py.truthy (default (VBool false) (facts !! k)) = true ->
  Py.truthy (default (VBool false) (facts' !! k)) = true.
Proof.
  intros Heff Hk Hset Ht.
  destruct Heff as [|msg l| | |n v Hcall].
  - exact Ht.
  - rewrite lookup_insert_ne; [exact Ht | destruct Hk as [-> | ->]; discriminate].
  - unfold _mark_sanction. destruct Hk as [-> | ->].
    + rewrite lookup_insert_ne by discriminate. now rewrite lookup_insert_eq.
    + now rewrite !lookup_insert_ne by discriminate.
  - unfold _require_approval. destruct Hk as [-> | ->].
    + now rewrite !lookup_insert_ne by discriminate.
    + rewrite lookup_insert_ne by discriminate. now rewrite lookup_insert_eq.
  - destruct (decide (n = k)) as [->|Hne].
    + rewrite lookup_insert_eq. simpl.
      destruct v; [|reflexivity]. now rewrite Hcall in Hset.
    + now rewrite lookup_insert_ne.
Qed.

Lemma _execute_action_mark_sanction facts action rule args :
  parse_call action = Some ("mark_sanction", args) ->
  _execute_action facts action rule = Ok (Some "Sanción aplicada", _mark_sanction facts rule).
Proof. intros Hp. unfold _execute_action. now rewrite Hp. Qed.

Lemma _execute_action_require_approval facts action rule args :
  parse_call action = Some ("require_approval", args) ->
  _execute_action facts action rule
    = Ok (Some "Requiere aprobación supervisor", _require_approval facts rule).
Proof. intros Hp. unfold _execute_action. now rewrite Hp. Qed.

(** The loop keeps: a step whose action is a call of [mark] has left the
    fact [k] true. *)
Lemma mark_invariant rules initial_facts max_iterations st
  (mark k : string) (set : gmap string value -> Rule.t -> gmap string value) :
  k = "sancion_aplicada" \/ k = "requiere_aprobacion" ->
  (forall facts action rule args r facts',
      parse_call action = Some (mark, args) ->
      _execute_action facts action rule = Ok (r, facts') -> facts' = set facts rule) ->
  (forall facts rule, Py.truthy (default (VBool false) (set facts rule !! k)) = true) ->
  (forall rule, rule ∈ rules -> set_fact_call (Rule.action rule) <> Some (k, EmptyString)) ->
  run_loop rules initial_facts max_iterations = Ok st ->
  forall s args,
    s ∈ run_steps st -> parse_call (action s) = Some (mark, args) ->
    Py.truthy (default (VBool false) (run_facts st !! k)) = true.
Proof.
  intros Hk Hexec Hset Hkept.
  apply (run_loop_invariant
           (fun st => forall s args,
                s ∈ run_steps st -> parse_call (action s) = Some (mark, args) ->
                Py.truthy (default (VBool false) (run_facts st !! k)) = true)).
  - intros st0 Hst. exact Hst.
  - intros st0 st' Hst Hscan.
    destruct (scan_some_inv _ _ _ Hscan)
      as (rule & v & r & facts' & Hin & _ & _ & _ & He & Heff & ->).
    cbn [run_steps run_facts]. intros s args Hs Hp.
    assert (Hflag : executed_flag (Rule.id rule) <> k).
    { destruct (executed_flag_reserved (Rule.id rule)) as (_ & H1 & _ & H2 & _).
      destruct Hk as [-> | ->]; assumption. }
    rewrite lookup_insert_ne by exact Hflag.
    apply elem_of_app in Hs as [Hs | Hs].
    + eapply action_effect_keeps_mark; [exact Heff | exact Hk | now apply Hkept |].
      exact (Hst s args Hs Hp).
    + apply list_elem_of_singleton in Hs as ->. cbn [action make_step] in Hp.
      rewrite (Hexec _ _ _ _ _ _ Hp He). apply Hset.
  - intros s args Hs. inversion Hs.
Qed.

End Decision.

(** X10.  A sanction decides the case.  Let no [set_fact] of the rule set
    write the empty text to [sancion_aplicada].  Then whenever the trace of
    a run has a step whose action is a call of [mark_sanction] (whatever
    stands between its parentheses), the outcome is ['sanctioned'], the
    case requires human review whatever the case memory recommends, and the
    risk level, when it can be assessed, is ['MEDIUM'] or ['HIGH']. *)
Theorem sanction_decides_the_case `{PyRuntime} (lower : string -> string)
  (rules : list Rule.t) (initial_facts : gmap string value) (max_iterations : Z) :
  (forall rule, rule ∈ rules ->
     set_fact_call (Rule.action rule) <> Some ("sancion_aplicada", EmptyString)) ->
  exists res,
    forward_chaining rules initial_facts max_iterations = Ok res /\
    forall s args,
      s ∈ steps res -> parse_call (action s) = Some ("mark_sanction", args) ->
      _determine_outcome lower res initial_facts = "sanctioned" /\
      (forall cbr_recommendations, _requires_human_review res cbr_recommendations = true) /\
      (forall level, _assess_risk_level (final_facts res) = Ok level ->
                     level = "MEDIUM" \/ level = "HIGH").
Proof.
  intros Hkept.
  destruct (forward_chaining_returns rules initial_facts max_iterations) as (st & Hst & Hfc).
  exists (result_of st). split; [exact Hfc|]. intros s args Hs Hp.
  assert (Ht : Py.truthy (default (VBool false) (run_facts st !! "sancion_aplicada")) = true).
  { eapply (mark_invariant rules initial_facts max_iterations st "mark_sanction"
              "sancion_aplicada" _mark_sanction); eauto.
    - intros facts action rule args' r facts' Hp' He.
      rewrite (_execute_action_mark_sanction _ _ _ _ Hp') in He. now injection He.
    - intros facts rule. unfold _mark_sanction.
      rewrite lookup_insert_ne by discriminate. now rewrite lookup_insert_eq. }
  unfold _determine_outcome, _requires_human_review, _assess_risk_level.
  cbn [final_facts result_of]. rewrite Ht. repeat split.
  intros level.
  destruct (Py.eq _ _);
    destruct (Py.ord Py.OGe _ (VInt 4)) as [[]|]; cbn [mbind result_bind bind];
    try discriminate;
    try (destruct (Py.ord Py.OGe _ (VInt 3)) as [[]|]; cbn [mbind result_bind bind];
         try discriminate);
    destruct (negb _); cbn; intros [= <-]; auto.
Qed.

Lemma sanction_decides_the_case_witness :
  exists res,
    @forward_chaining Demo2.runtime reincidencia_rules reincidencia_facts 100 = Ok res /\
    _determine_outcome (fun s => s) res reincidencia_facts = "sanctioned".
Proof.
  destruct (@sanction_decides_the_case Demo2.runtime (fun s => s) reincidencia_rules
              reincidencia_facts 100) as (res & Hfc & Himp).
  { intros rule Hin. unfold reincidencia_rules in Hin.
    repeat (apply elem_of_cons in Hin as [-> | Hin]; [vm_compute; discriminate|]).
    inversion Hin. }
  exists res. split; [exact Hfc|].
  set (rule := Rule.mk "reincidencia" "Ausencias reiteradas" "ausencias_ultimo_mes >= 3"
                 "mark_sanction()" (Some 10) (Some "warning") None).
  destruct (@first_step_of_run Demo2.runtime rule (tail reincidencia_rules) 99
              (@initial_run Demo2.runtime reincidencia_facts))
    as (v & st' & new & _ & _ & Hloop & Hsteps).
  { split; [vm_compute; reflexivity|].
    exists (VBool true). split; vm_compute; reflexivity. }
  unfold forward_chaining, run_loop in Hfc.
  change (Z.to_nat 100) with (S 99) in Hfc.
  change reincidencia_rules with (rule :: tail reincidencia_rules) in Hfc.
  rewrite Hloop in Hfc. injection Hfc as <-.
  refine (proj1 (Himp _ EmptyString _ _)).
  - cbn [steps result_of]. rewrite Hsteps. apply list_elem_of_here.
  - reflexivity.
Defined.

(** X11.  [_determine_outcome] has five outcomes: its last branch, which
    would answer ['approved'], cannot be reached, whatever [str.lower]
    does.  For each of the five, [_suggest_next_actions] proposes at least
    one action when it returns. *)
Theorem approved_is_never_the_outcome `{PyRuntime} (lower : string -> string)
  (inference_result : InferenceResult) (facts final_facts : gmap string value) :
  let outcome := _determine_outcome lower inference_result facts in
  outcome ∈ ["sanctioned"; "requires_approval"; "auto_approved"; "rejected";
             "approved_with_conditions"] /\
  outcome <> "approved" /\
  forall actions, _suggest_next_actions outcome final_facts = Ok actions -> actions <> [].
Proof.
  intros outcome.
  assert (Hcases : outcome = "sanctioned" \/ outcome = "requires_approval" \/
                   outcome = "auto_approved" \/ outcome = "rejected" \/
                   outcome = "approved_with_conditions").
  { unfold outcome, _determine_outcome.
    destruct (Py.truthy _); [auto|].
    destruct (Py.truthy _); [auto|].
    destruct (steps inference_result) as [|s l]; [auto|].
    cbn [length Nat.eqb Nat.ltb Nat.leb].
    destruct (existsb _ _); auto 6. }
  clearbody outcome.
  split; [|split].
  - destruct Hcases as [-> | [-> | [-> | [-> | ->]]]];
      repeat first [apply list_elem_of_here | apply list_elem_of_further].
  - destruct Hcases as [-> | [-> | [-> | [-> | ->]]]]; discriminate.
  - intros actions. unfold _suggest_next_actions.
    destruct (Py.ord _ _ _) as [b|]; [|discriminate]. cbn [mbind result_bind bind].
    intros [= <-].
    destruct Hcases as [-> | [-> | [-> | [-> | ->]]]]; cbn;
      destruct b; try discriminate;
      intros Hnil; apply app_eq_nil in Hnil as [Hnil _]; discriminate.
Qed.

(** X12.  A request for which the case memory finds no similar case
    requires human review: the recommendation then has confidence 0, which
    is below the threshold 0.5, whatever the rules concluded.  This is so
    for every request on an empty case memory. *)
Theorem no_similar_case_requires_review `{PyRuntime}
  (store : CaseStore) (current_facts : gmap string value)
  (cbr_recommendations : Recommendation) (inference_result : InferenceResult) :
  get_recommendations store current_facts = Ok cbr_recommendations ->
  similar_cases_count cbr_recommendations = O ->
  confidence cbr_recommendations = dec 0 1 /\
  _requires_human_review inference_result cbr_recommendations = true.
Proof.
  intros Hrec Hcount.
  assert (Hconf : confidence cbr_recommendations = dec 0 1).
  { unfold get_recommendations in Hrec.
    destruct (find_similar_cases store current_facts 5 (dec 4 10)) as [similar|];
      [|discriminate].
    cbn [mbind result_bind bind] in Hrec.
    destruct similar as [|sc similar]; [now injection Hrec as <-|].
    unfold synthesize in Hrec.
    destruct (max_by_value _) as [best|]; [|discriminate].
    cbn [mbind result_bind bind] in Hrec.
    destruct (py_div _ _) as [c|]; [|discriminate].
    cbn [mbind result_bind bind] in Hrec.
    match type of Hrec with
    | (?a ≫= _) = _ => destruct a as [suggestion|]; [|discriminate]
    end.
    cbn [mbind result_bind bind] in Hrec. injection Hrec as <-.
    discriminate Hcount. }
  split; [exact Hconf|].
  unfold _requires_human_review. rewrite Hconf.
  destruct (Py.truthy _); [reflexivity|]. destruct (Py.truthy _); reflexivity.
Qed.

Definition no_cases : CaseStore := {| cases := []; table := []; next_row_id := 1 |}.

Lemma no_similar_case_requires_review_witness :
  let nothing := {| recommendations := []; confidence := dec 0 1;
                    similar_cases_count := O; similar_cases := [] |} in
  let idle := {| conclusions := []; actions_taken := []; steps := [];
                 final_facts := ∅ |} in
  confidence nothing = dec 0 1 /\ _requires_human_review idle nothing = true.
Proof.
  intros nothing idle.
  apply (@no_similar_case_requires_review Demo2.runtime no_cases ∅ nothing idle);
    reflexivity.
Defined.

(** X13.  [_assess_risk_level] compares [ausencias_ultimo_mes] with
    numbers.  It answers with one of four levels when the name is unbound
    or bound to a number, and raises [TypeError] when it is bound to
    anything else: to [None] or to a text, as after a [set_fact] on that
    name, which stores a text. *)
Theorem risk_level_needs_a_number `{PyRuntime} (final_facts : gmap string value) :
  match Py.num_of (default (VInt 0) (final_facts !! "ausencias_ultimo_mes")) with
  | Some _ =>
      exists level,
        _assess_risk_level final_facts = Ok level /\
        level ∈ ["HIGH"; "MEDIUM"; "LOW"; "MINIMAL"]
  | None =>
      _assess_risk_level final_facts = Raise TypeError /\
      forall outcome, _suggest_next_actions outcome final_facts = Raise TypeError
  end /\
  forall fact_value,
    _assess_risk_level (<["ausencias_ultimo_mes" := VStr fact_value]> final_facts)
      = Raise TypeError.
Proof.
  assert (Hnum : forall v n,
            Py.ord Py.OGe v (VInt n)
            = match Py.num_of v with
              | Some p => Ok (Py.ord_of_comparison Py.OGe (p ?= Q2Qc (inject_Z n))%Qc)
              | None => Raise TypeError
              end).
  { intros v n. destruct v; try reflexivity. }
  split.
  - unfold _assess_risk_level, _suggest_next_actions. rewrite !Hnum.
    set (ausencias := default (VInt 0) (final_facts !! "ausencias_ultimo_mes")).
    destruct (Py.num_of ausencias) as [p|]; [|split; [reflexivity | intros; reflexivity]].
    cbn [mbind result_bind bind].
    set (sancion := Py.truthy (default (VBool false) (final_facts !! "sancion_aplicada"))).
    set (riesgo := Py.eq (default VNone (final_facts !! "riesgo_empleado")) (VStr "alto")).
    set (at_least_4 := Py.ord_of_comparison Py.OGe (p ?= Q2Qc (inject_Z 4))%Qc).
    set (at_least_3 := Py.ord_of_comparison Py.OGe (p ?= Q2Qc (inject_Z 3))%Qc).
    set (uploaded :=
           Py.truthy (default (VBool true) (final_facts !! "certificate_uploaded"))).
    clearbody sancion riesgo at_least_4 at_least_3 uploaded.
    destruct sancion, riesgo, at_least_4, at_least_3, uploaded;
      (eexists; split; [reflexivity|]);
      repeat first [apply list_elem_of_here | apply list_elem_of_further].
  - intros fact_value. unfold _assess_risk_level. now rewrite lookup_insert_eq.
Qed.

(** X14.  [get_system_stats] cannot report on a system with an empty case
    memory: [get_learning_stats] then answers with [total_cases] alone, and
    reading [learning_active] from it raises [KeyError].  With at least one
    case it returns, and reports the case-based learning as ['active'] from
    ten cases on and as ['training'] below. *)
Theorem get_system_stats_needs_a_case `{PyRuntime}
  (store : CaseStore) (processing_history : list HistoryEntry) :
  (cases store = [] -> get_system_stats store processing_history = Raise KeyError) /\
  (cases store <> [] ->
   exists stats,
     get_system_stats store processing_history = Ok stats /\
     Py.assoc "case_based_learning" (components stats)
       = Some (if (10 <=? length (cases store))%nat then "active" else "training") /\
     total_processed stats = length processing_history).
Proof.
  unfold get_system_stats, get_learning_stats. split.
  - intros ->. reflexivity.
  - intros Hne. destruct (cases store) as [|c l] eqn:Hc; [done|].
    destruct (fold_left _ (c :: l) _) as [[outcome_dist validated_cases] recent_cases].
    eexists. split; [reflexivity|]. split; [|reflexivity].
    cbn [components Py.assoc String.eqb Ascii.eqb Bool.eqb Py.truthy].
    replace (10 <=? Z.of_nat (length (c :: l)))%Z with (10 <=? length (c :: l))%nat;
      [reflexivity|].
    destruct (Nat.leb_spec 10 (length (c :: l))), (Z.leb_spec 10 (Z.of_nat (length (c :: l))));
      try reflexivity; lia.
Qed.

Lemma get_system_stats_needs_a_case_witness :
  @get_system_stats Demo2.runtime no_cases [] = Raise KeyError.
Proof.
  apply (proj1 (@get_system_stats_needs_a_case Demo2.runtime no_cases [])). reflexivity.
Defined.

(** ** The validators of the rules manager and the engine *)

Lemma existsb_eqb_elem_of (x : string) (l : list string) :
  existsb (String.eqb x) l = true <-> x ∈ l.
Proof.
  rewrite existsb_exists. split.
  - intros (y & Hy & Heq). apply String.eqb_eq in Heq as ->. now apply list_elem_of_In.
  - intros Hx. exists x. split; [now apply list_elem_of_In | apply String.eqb_refl].
Qed.

(** X15.  An action that [validate_action] accepts is one the engine
    dispatches: [_execute_action] reads from it the name of one of the four
    allowed actions.  Unless that name is [set_fact], the engine acts on the
    text; a [set_fact] has exactly one comma in its whole text, which need
    not stand between the parentheses, where the engine looks for it. *)
Theorem validate_action_sound (action : string) :
  fst (validate_action action) = true ->
  exists func_name args_str,
    parse_call action = Some (func_name, args_str) /\
    func_name ∈ allowed_actions /\
    (func_name <> "set_fact" -> recognized_call action = true) /\
    (func_name = "set_fact" -> PyStr.count_char PyStr.comma action = 1%nat).
Proof.
  unfold validate_action, recognized_call, parse_call.
  destruct (negb (Py.truthy (VStr action)) || _); [discriminate|].
  destruct (PyStr.contains_char PyStr.lparen action); [|discriminate].
  destruct (PyStr.contains_char PyStr.rparen action); [|discriminate].
  cbn [negb orb andb].
  set (func_name := PyStr.strip (PyStr.before_first PyStr.lparen action)).
  set (args_str := PyStr.rsplit1_head _ _).
  destruct (existsb (String.eqb func_name) allowed_actions) eqn:Hallowed; [|discriminate].
  apply existsb_eqb_elem_of in Hallowed. cbn [negb].
  intros Hvalid. exists func_name, args_str.
  split; [reflexivity|]. split; [exact Hallowed|]. split.
  - intros Hne. unfold allowed_actions in Hallowed.
    repeat (apply elem_of_cons in Hallowed as [Heq | Hallowed];
            [try (now destruct Hne); rewrite Heq; reflexivity|]).
    inversion Hallowed.
  - intros Heq. rewrite Heq in Hvalid. cbn in Hvalid.
    destruct (Nat.eqb_spec (PyStr.count_char PyStr.comma action) 1);
      [assumption | discriminate].
Qed.

Lemma validate_action_sound_witness :
  exists func_name args_str,
    parse_call "add_observacion('Falta el certificado')" = Some (func_name, args_str) /\
    func_name ∈ allowed_actions /\
    (func_name <> "set_fact" ->
     recognized_call "add_observacion('Falta el certificado')" = true) /\
    (func_name = "set_fact" ->
     PyStr.count_char PyStr.comma "add_observacion('Falta el certificado')" = 1%nat).
Proof.
  apply (validate_action_sound "add_observacion('Falta el certificado')").
  vm_compute. reflexivity.
Defined.

(** The comma of an accepted [set_fact] can stand after the parentheses;
    the engine then does nothing. *)
Lemma validate_action_accepts_a_set_fact_that_does_nothing `{PyRuntime}
  (facts : gmap string value) (rule : Rule.t) :
  validate_action "set_fact('riesgo'),'alto'" = (true, "Acción válida") /\
  _execute_action facts "set_fact('riesgo'),'alto'" rule = Ok (None, facts).
Proof. split; reflexivity. Qed.

(** X16.  [validate_priority] accepts the integers from 1 to 100, and
    [True], which is an [int] of value 1 for Python; it rejects every other
    value, and the rules that exist change its message only. *)
Theorem validate_priority_accepts (priority : value) (existing_rules : list Rule.t) :
  fst (validate_priority priority existing_rules) = true <->
  (exists n, priority = VInt n /\ (1 <= n <= 100)%Z) \/ priority = VBool true.
Proof.
  unfold validate_priority. split.
  - destruct priority as [|b|n| | | | | |]; cbn [is_int fst]; try discriminate.
    + destruct b; [auto | discriminate].
    + destruct (Z.ltb_spec n 1); [discriminate|].
      destruct (Z.ltb_spec 100 n); [discriminate|]. left. exists n. split; [reflexivity | lia].
  - intros [(n & -> & Hn) | ->]; cbn [is_int].
    + destruct (Z.ltb_spec n 1); [lia|]. destruct (Z.ltb_spec 100 n); [lia|].
      cbn [orb]. now destruct (existsb _ _).
    + cbn. now destruct (existsb _ _).
Qed.

Lemma validate_priority_range (p : Z) (existing_rules : list Rule.t) :
  fst (validate_priority (VInt p) existing_rules) = true -> (1 <= p <= 100)%Z.
Proof.
  unfold validate_priority. cbn [is_int].
  destruct (Z.ltb_spec p 1); [discriminate|].
  destruct (Z.ltb_spec 100 p); [discriminate|]. lia.
Qed.

Lemma StronglySorted_app_r {A} (R : A -> A -> Prop) (l1 l2 : list A) :
  StronglySorted R (l1 ++ l2) -> StronglySorted R l2.
Proof.
  induction l1 as [|x l1 IH]; simpl; intros Hs; [exact Hs|].
  apply IH. now apply StronglySorted_inv in Hs as [Hs _].
Qed.

Lemma validate_priority_accepts_witness :
  fst (validate_priority (VBool true) []) = true.
Proof. apply (validate_priority_accepts (VBool true) []). now right. Defined.

(** X17.  A rule with a priority that [validate_priority] accepts is
    scanned before every rule that has no priority: in the list
    [_load_rules] builds, no such rule stands after a rule without
    priority. *)
Theorem validated_priority_runs_first `{PyRuntime}
  (rules existing_rules pre post : list Rule.t) (rule other : Rule.t) (p : Z) :
  fst (validate_priority (VInt p) existing_rules) = true ->
  Rule.priority rule = Some p ->
  Rule.priority other = None ->
  _load_rules (Ok rules) = pre ++ other :: post ->
  rule ∉ post.
Proof.
  intros Hvalid Hrule Hother Hload Hin.
  apply validate_priority_range in Hvalid as Hn.
  destruct (_load_rules_sorted rules) as (_ & Hsorted & _).
  rewrite Hload in Hsorted. apply StronglySorted_app_r in Hsorted.
  apply StronglySorted_inv in Hsorted as [_ Hall].
  rewrite Forall_forall in Hall. specialize (Hall rule Hin).
  unfold priority_key in Hall. rewrite Hrule, Hother in Hall. simpl in Hall. lia.
Qed.

Lemma validated_priority_runs_first_witness :
  let rule := Rule.mk "a" "A" "True" "mark_sanction()" (Some 50) None None in
  let other := Rule.mk "b" "B" "True" "mark_sanction()" None None None in
  let last := Rule.mk "c" "C" "True" "mark_sanction()" None None None in
  fst (validate_priority (VInt 50) []) = true /\ rule ∉ [last].
Proof.
  intros rule other last. split; [reflexivity|].
  apply (@validated_priority_runs_first Demo2.runtime [other; rule; last] []
           [rule] [last] rule other 50);
    reflexivity.
Defined.

(** ** The similarity of two feature vectors *)

Lemma qc_0_le_1 : (0 <= 1)%Qc.
Proof. now apply qc_leb_le. Qed.

Lemma qc_0_lt_1 : (0 < 1)%Qc.
Proof. now apply qc_ltb_lt. Qed.

Lemma qc_abs_nonneg x : (0 <= qc_abs x)%Qc.
Proof.
  unfold qc_abs. destruct (qc_leb 0 x) eqn:Hx; [now apply qc_leb_le|].
  apply qc_leb_total, qc_leb_le in Hx.
  apply Qcopp_le_compat in Hx. exact Hx.
Qed.

Lemma qc_abs_sym x y : qc_abs (x - y) = qc_abs (y - x).
Proof.
  assert (Hopp : (y - x = - (x - y))%Qc) by ring.
  unfold qc_abs. rewrite Hopp.
  destruct (qc_leb 0 (x - y)) eqn:H1, (qc_leb 0 (- (x - y))) eqn:H2.
  - apply qc_leb_le in H1, H2. apply Qcopp_le_compat in H2.
    rewrite Qcopp_involutive in H2.
    assert (Hz : (x - y = 0)%Qc) by (apply Qcle_antisym; assumption).
    now rewrite Hz.
  - now rewrite Qcopp_involutive.
  - reflexivity.
  - apply qc_leb_total, qc_leb_le in H1. apply qc_leb_total, qc_leb_le in H2.
    apply Qcopp_le_compat in H2. rewrite Qcopp_involutive in H2.
    assert (Hz : (x - y = 0)%Qc) by (apply Qcle_antisym; assumption).
    now rewrite Hz.
Qed.

Lemma qc_max_sym x y : qc_max x y = qc_max y x.
Proof.
  unfold qc_max. destruct (qc_ltb x y) eqn:H1, (qc_ltb y x) eqn:H2; try reflexivity.
  - apply qc_ltb_lt in H1, H2. exfalso. exact (Qclt_not_le _ _ H1 (Qclt_le_weak _ _ H2)).
  - apply Qcle_antisym; apply Qcnot_lt_le; intros Hlt; apply qc_ltb_lt in Hlt; congruence.
Qed.

Lemma qc_max_l x y : (x <= qc_max x y)%Qc.
Proof.
  unfold qc_max. destruct (qc_ltb x y) eqn:H1; [|apply Qcle_refl].
  now apply Qclt_le_weak, qc_ltb_lt.
Qed.

Lemma qc_max_r x y : (y <= qc_max x y)%Qc.
Proof. rewrite qc_max_sym. apply qc_max_l. Qed.

Lemma qc_eqb_sym x y : qc_eqb x y = qc_eqb y x.
Proof.
  destruct (qc_eqb x y) eqn:H1, (qc_eqb y x) eqn:H2; try reflexivity.
  - apply qc_eqb_eq in H1. subst. assert (qc_eqb y y = true) by now apply qc_eqb_eq.
    congruence.
  - apply qc_eqb_eq in H2. subst. assert (qc_eqb x x = true) by now apply qc_eqb_eq.
    congruence.
Qed.


Lemma qc_div_nonneg x y : (0 <= x)%Qc -> (0 < y)%Qc -> (0 <= x / y)%Qc.
Proof.
  intros Hx Hy. apply (Qcmult_lt_0_le_reg_r _ _ y Hy).
  rewrite Qcmult_0_l. unfold Qcdiv. rewrite <- Qcmult_assoc, (Qcmult_comm (/ y)).
  rewrite Qcmult_inv_r, Qcmult_1_r; [exact Hx|].
  intros ->. exact (Qclt_not_eq _ _ Hy eq_refl).
Qed.

Lemma qc_div_le_1 x y : (x <= y)%Qc -> (0 < y)%Qc -> (x / y <= 1)%Qc.
Proof.
  intros Hx Hy. apply (Qcmult_lt_0_le_reg_r _ _ y Hy).
  rewrite Qcmult_1_l. unfold Qcdiv. rewrite <- Qcmult_assoc, (Qcmult_comm (/ y)).
  rewrite Qcmult_inv_r, Qcmult_1_r; [exact Hx|].
  intros ->. exact (Qclt_not_eq _ _ Hy eq_refl).
Qed.


Lemma qc_abs_diff_le_max x y :
  (0 <= x)%Qc -> (0 <= y)%Qc -> (qc_abs (x - y) <= qc_max x y)%Qc.
Proof.
  intros Hx Hy. unfold qc_abs. destruct (qc_leb 0 (x - y)) eqn:Hd.
  - eapply Qcle_trans; [|apply qc_max_l].
    apply Qcle_minus_iff. replace (x + - (x - y))%Qc with y by ring. exact Hy.
  - eapply Qcle_trans; [|apply qc_max_r].
    apply Qcle_minus_iff. replace (y + - - (x - y))%Qc with x by ring. exact Hx.
Qed.

(** The similarity of two values of a feature is symmetric and at most 1;
    it is at least 0 for values that are not negative, and 1 for equal
    values. *)
Lemma feature_sim_sym feature a b : feature_sim feature a b = feature_sim feature b a.
Proof.
  unfold feature_sim. rewrite (qc_eqb_sym a b), (qc_abs_sym a b), (qc_max_sym a b).
  reflexivity.
Qed.

Lemma feature_sim_max_pos a b : (0 < qc_max (qc_max a b) (dec 1 1))%Qc.
Proof. eapply Qclt_le_trans; [exact qc_0_lt_1 | apply qc_max_r]. Qed.

Lemma feature_sim_le_1 feature a b : (feature_sim feature a b <= 1)%Qc.
Proof.
  unfold feature_sim.
  assert (Hbin : ((if qc_eqb a b then dec 1 1 else dec 0 1) <= 1)%Qc).
  { destruct (qc_eqb a b); [apply Qcle_refl | exact qc_0_le_1]. }
  destruct (String.eqb feature "motivo"); [exact Hbin|].
  destruct (_ || _); [exact Hbin|]. cbv zeta.
  apply Qcle_minus_iff.
  match goal with
  | |- (0 <= 1 + - (dec 1 1 - ?q))%Qc => replace (1 + - (dec 1 1 - q))%Qc with q
  end.
  - apply qc_div_nonneg; [apply qc_abs_nonneg | apply feature_sim_max_pos].
  - change (dec 1 1) with 1%Qc. ring.
Qed.

Lemma feature_sim_nonneg feature a b :
  (0 <= a)%Qc -> (0 <= b)%Qc -> (0 <= feature_sim feature a b)%Qc.
Proof.
  intros Ha Hb. unfold feature_sim.
  assert (Hbin : (0 <= (if qc_eqb a b then dec 1 1 else dec 0 1))%Qc).
  { destruct (qc_eqb a b); [exact qc_0_le_1 | apply Qcle_refl]. }
  destruct (String.eqb feature "motivo"); [exact Hbin|].
  destruct (_ || _); [exact Hbin|]. cbv zeta.
  match goal with
  | |- (0 <= dec 1 1 - ?q)%Qc => apply (proj1 (Qcle_minus_iff q 1))
  end.
  apply qc_div_le_1; [|apply feature_sim_max_pos].
  eapply Qcle_trans; [apply qc_abs_diff_le_max; assumption | apply qc_max_l].
Qed.


(** One turn of the loop of [calculate_similarity]. *)
Definition similarity_step (features1 features2 : gmap string Qc)
  (acc : Qc * Qc) (fw : string * Qc) : Qc * Qc :=
  let '(similarity, total_weight) := acc in
  let '(feature, weight) := fw in
  match features1 !! feature, features2 !! feature with
  | Some val1, Some val2 =>
      ((similarity + feature_sim feature val1 val2 * weight)%Qc,
       (total_weight + weight)%Qc)
  | _, _ => (similarity, total_weight)
  end.

Lemma fold_left_pointwise {A B} (f g : A -> B -> A) (l : list B) (a : A) :
  (forall a b, f a b = g a b) -> fold_left f l a = fold_left g l a.
Proof.
  intros Hfg. revert a. induction l as [|b l IH]; intros a; simpl; [reflexivity|].
  now rewrite Hfg, IH.
Qed.

Lemma calculate_similarity_unfold features1 features2 :
  calculate_similarity features1 features2 =
    if dict_empty features1 || dict_empty features2 then dec 0 1
    else
      let acc := fold_left (similarity_step features1 features2) feature_weights
                   (dec 0 1, dec 0 1) in
      if qc_ltb (dec 0 1) (snd acc) then (fst acc / snd acc)%Qc else dec 0 1.
Proof.
  unfold calculate_similarity. destruct (_ || _); [reflexivity|].
  match goal with
  | |- context [fold_left ?f feature_weights ?i] =>
      rewrite (fold_left_pointwise f (similarity_step features1 features2)
                 feature_weights i) by (intros [? ?] [? ?]; reflexivity)
  end.
  now destruct (fold_left _ _ _).
Qed.

Lemma similarity_step_sym features1 features2 acc fw :
  similarity_step features1 features2 acc fw = similarity_step features2 features1 acc fw.
Proof.
  destruct acc as [s t], fw as [feature weight]. simpl.
  destruct (features1 !! feature), (features2 !! feature); try reflexivity.
  now rewrite feature_sim_sym.
Qed.

(** The loop keeps the similarity at or below the weight, for weights that
    are not negative. *)
Lemma similarity_fold_le features1 features2 (l : list (string * Qc)) s t :
  Forall (fun fw => (0 <= snd fw)%Qc) l ->
  (s <= t)%Qc ->
  let acc := fold_left (similarity_step features1 features2) l (s, t) in
  (fst acc <= snd acc)%Qc.
Proof.
  intros Hl. revert s t. induction Hl as [|[feature weight] l Hw _ IH]; intros s t Hst.
  - exact Hst.
  - cbn [fold_left similarity_step]. simpl in Hw.
    destruct (features1 !! feature) as [a|], (features2 !! feature) as [b|];
      try (apply IH; exact Hst).
    apply IH. apply Qcplus_le_compat; [exact Hst|].
    rewrite <- (Qcmult_1_l weight) at 2.
    apply Qcmult_le_compat_r; [apply feature_sim_le_1 | exact Hw].
Qed.

Lemma similarity_fold_nonneg features1 features2 (l : list (string * Qc)) s t :
  Forall (fun fw => (0 <= snd fw)%Qc) l ->
  (forall k v, features1 !! k = Some v -> (0 <= v)%Qc) ->
  (forall k v, features2 !! k = Some v -> (0 <= v)%Qc) ->
  (0 <= s)%Qc ->
  (0 <= fst (fold_left (similarity_step features1 features2) l (s, t)))%Qc.
Proof.
  intros Hl H1 H2. revert s t. induction Hl as [|[feature weight] l Hw _ IH]; intros s t Hs.
  - exact Hs.
  - cbn [fold_left similarity_step]. simpl in Hw.
    destruct (features1 !! feature) as [a|] eqn:Ha, (features2 !! feature) as [b|] eqn:Hb;
      try (apply IH; exact Hs).
    apply IH. rewrite <- (Qcplus_0_l 0). apply Qcplus_le_compat; [exact Hs|].
    rewrite <- (Qcmult_0_l weight).
    apply Qcmult_le_compat_r; [|exact Hw].
    apply feature_sim_nonneg; eauto.
Qed.

Lemma feature_weights_nonneg : Forall (fun fw => (0 <= snd fw)%Qc) feature_weights.
Proof. repeat constructor; now apply qc_leb_le. Qed.

Lemma calculate_similarity_le_1 (features1 features2 : gmap string Qc) :
  (calculate_similarity features1 features2 <= 1)%Qc.
Proof.
  rewrite calculate_similarity_unfold.
  destruct (_ || _); [exact qc_0_le_1|]. cbv zeta.
  destruct (qc_ltb _ _) eqn:Ht; [|exact qc_0_le_1].
  apply qc_div_le_1; [|now apply qc_ltb_lt].
  apply similarity_fold_le; [exact feature_weights_nonneg | apply Qcle_refl].
Qed.

(** X18.  The similarity of two feature vectors does not depend on their
    order, and it never exceeds 1; when no feature value is negative it is
    not negative either.  (A negative value, a negative duration for one,
    can make it negative.) *)
Theorem calculate_similarity_symmetric_bounded (features1 features2 : gmap string Qc) :
  calculate_similarity features1 features2 = calculate_similarity features2 features1 /\
  (calculate_similarity features1 features2 <= 1)%Qc /\
  ((forall k v, features1 !! k = Some v -> (0 <= v)%Qc) ->
   (forall k v, features2 !! k = Some v -> (0 <= v)%Qc) ->
   (0 <= calculate_similarity features1 features2)%Qc).
Proof.
  split; [|split].
  - rewrite !calculate_similarity_unfold, (orb_comm (dict_empty features1)).
    now rewrite (fold_left_pointwise _ _ _ _ (similarity_step_sym features1 features2)).
  - apply calculate_similarity_le_1.
  - intros H1 H2. rewrite calculate_similarity_unfold.
    destruct (_ || _); [apply Qcle_refl|]. cbv zeta.
    destruct (qc_ltb _ _) eqn:Ht; [|apply Qcle_refl].
    apply qc_div_nonneg; [|now apply qc_ltb_lt].
    apply similarity_fold_nonneg; auto using feature_weights_nonneg, Qcle_refl.
Qed.

Lemma calculate_similarity_symmetric_bounded_witness :
  calculate_similarity {["duracion" := dec 2 1]} {["duracion" := dec 4 1]}
    = calculate_similarity {["duracion" := dec 4 1]} {["duracion" := dec 2 1]} /\
  (0 <= calculate_similarity {["duracion" := dec 2 1]} {["duracion" := dec 4 1]})%Qc.
Proof.
  pose proof (calculate_similarity_symmetric_bounded
                {["duracion" := dec 2 1]} {["duracion" := dec 4 1]})
    as (Hsym & _ & Hnonneg).
  split; [exact Hsym|].
  apply Hnonneg;
    intros k v Hk; apply lookup_singleton_Some in Hk as [_ <-]; now apply qc_leb_le.
Defined.

(** ** A stored case is found again *)






Section RoundTrip.

Context `{PyRuntime}.






End RoundTrip.



(** ** Feedback and the recommendations *)

(** A case without its feedback and validation mark. *)
Definition forget_feedback (c : Case.t) : Case.t :=
  {| Case.case_id := Case.case_id c;
     Case.facts := Case.facts c;
     Case.rules_applied := Case.rules_applied c;
     Case.actions_taken := Case.actions_taken c;
     Case.outcome := Case.outcome c;
     Case.feedback := None;
     Case.similarity_features := Case.similarity_features c;
     Case.timestamp := Case.timestamp c;
     Case.expert_validation := false |}.

Definition forget_neighbor (sc : SimilarCase) : SimilarCase :=
  {| case := forget_feedback (case sc);
     similarity_score := similarity_score sc;
     matching_features := matching_features sc |}.

Lemma update_first_forgotten case_id feedback expert_validation l :
  forget_feedback <$> update_first case_id feedback expert_validation l
  = forget_feedback <$> l.
Proof.
  induction l as [|c l IH]; [reflexivity|]. cbn [update_first].
  destruct (String.eqb (Case.case_id c) case_id); [reflexivity|].
  rewrite !fmap_cons. now rewrite IH.
Qed.

Lemma update_first_length case_id feedback expert_validation l :
  length (update_first case_id feedback expert_validation l) = length l.
Proof.
  rewrite <- (length_fmap forget_feedback), update_first_forgotten. apply length_fmap.
Qed.

Lemma insert_sorted_fmap {A B} (f : A -> B) (le : A -> A -> bool) (le' : B -> B -> bool) x l :
  (forall a b, le' (f a) (f b) = le a b) ->
  insert_sorted le' (f x) (f <$> l) = f <$> insert_sorted le x l.
Proof.
  intros Hle. induction l as [|y l IH]; [reflexivity|].
  rewrite fmap_cons. cbn [insert_sorted]. rewrite Hle.
  destruct (le x y); [reflexivity|]. rewrite fmap_cons. now rewrite IH.
Qed.

Lemma py_sorted_fmap {A B} (f : A -> B) (le : A -> A -> bool) (le' : B -> B -> bool) l :
  (forall a b, le' (f a) (f b) = le a b) ->
  py_sorted le' (f <$> l) = f <$> py_sorted le l.
Proof.
  intros Hle. induction l as [|x l IH]; [reflexivity|].
  rewrite fmap_cons. unfold py_sorted in *. cbn [foldr]. rewrite IH.
  now apply insert_sorted_fmap.
Qed.

Lemma slice_to_fmap {A B} (f : A -> B) (k : Z) (l : list A) :
  slice_to k (f <$> l) = f <$> slice_to k l.
Proof.
  unfold slice_to. rewrite length_fmap.
  destruct (0 <=? k)%Z; symmetry; apply fmap_take.
Qed.

Lemma fold_left_fmap {A B C} (f : A -> C -> A) (g : B -> C) (l : list B) (a : A) :
  fold_left f (g <$> l) a = fold_left (fun a x => f a (g x)) l a.
Proof. revert a. induction l as [|x l IH]; intros a; [reflexivity|]. simpl. apply IH. Qed.

Section Feedback.

Context `{PyRuntime}.

(** The retrieval reads the cases without their feedback. *)
Lemma find_similar_cases_forgotten (store store' : CaseStore)
  (current_facts : gmap string value) (top_k : Z) (min_similarity : Qc) :
  forget_feedback <$> cases store' = forget_feedback <$> cases store ->
  (l ← find_similar_cases store' current_facts top_k min_similarity;
   Ok (forget_neighbor <$> (l : list SimilarCase)))
  = (l ← find_similar_cases store current_facts top_k min_similarity;
     Ok (forget_neighbor <$> (l : list SimilarCase))).
Proof.
  intros Hcases.
  destruct (cases store) as [|c l] eqn:Hc, (cases store') as [|c' l'] eqn:Hc';
    try discriminate Hcases.
  { unfold find_similar_cases. now rewrite Hc, Hc'. }
  destruct (extract_features current_facts) as [features|e] eqn:Hf.
  2:{ unfold find_similar_cases. now rewrite Hc, Hc', Hf. }
  rewrite !(find_similar_cases_unfold _ _ _ _ _ Hf), Hc, Hc'.
  cbn [mbind result_bind bind]. f_equal.
  rewrite <- !slice_to_fmap.
  rewrite <- !(py_sorted_fmap forget_neighbor ranks_before ranks_before)
    by reflexivity.
  f_equal. f_equal.
  set (keep := fun c0 : Case.t =>
                 qc_leb min_similarity
                   (calculate_similarity features (Case.similarity_features c0))).
  assert (Hnb : forall cs,
            forget_neighbor <$> (neighbor features <$> List.filter keep cs)
            = neighbor features <$> List.filter keep (forget_feedback <$> cs)).
  { intros cs. rewrite filter_fmap, <- !list_fmap_compose. reflexivity. }
  now rewrite !Hnb, Hcases.
Qed.

Lemma tally_forgotten (keys : SimilarCase -> list string) (similar : list SimilarCase) :
  (forall sc, keys (forget_neighbor sc) = keys sc) ->
  tally keys (forget_neighbor <$> similar) = tally keys similar.
Proof.
  intros Hkeys. unfold tally. rewrite fold_left_fmap.
  apply fold_left_pointwise. intros counts sc. now rewrite Hkeys.
Qed.

Lemma synthesize_forgotten (similar : list SimilarCase) :
  synthesize (forget_neighbor <$> similar) = synthesize similar.
Proof.
  unfold synthesize.
  rewrite !tally_forgotten by reflexivity.
  unfold total_similarity. rewrite fold_left_fmap.
  rewrite length_fmap, <- list_fmap_compose. reflexivity.
Qed.

Lemma get_recommendations_forgotten (store store' : CaseStore)
  (current_facts : gmap string value) :
  forget_feedback <$> cases store' = forget_feedback <$> cases store ->
  get_recommendations store' current_facts = get_recommendations store current_facts.
Proof.
  intros Hcases.
  pose proof (find_similar_cases_forgotten store store' current_facts 5 (dec 4 10) Hcases)
    as Hfind.
  unfold get_recommendations.
  destruct (find_similar_cases store' current_facts 5 (dec 4 10)) as [l'|e'],
           (find_similar_cases store current_facts 5 (dec 4 10)) as [l|e];
    cbn [mbind result_bind bind] in *; try discriminate.
  - injection Hfind as Hl.
    destruct l' as [|sc' l'], l as [|sc l]; try discriminate Hl; [reflexivity|].
    rewrite <- (synthesize_forgotten (sc' :: l')), <- (synthesize_forgotten (sc :: l)).
    now rewrite Hl.
  - now injection Hfind as ->.
Qed.

End Feedback.

(** X20.  Feedback teaches the recommender nothing.  After
    [update_case_feedback], whatever the feedback text and the validation
    mark, [get_recommendations] answers every request exactly as before:
    the case memory keeps its length, and the recommendation reads neither
    the feedback nor the validation of a case. *)
Theorem feedback_does_not_change_recommendations `{PyRuntime}
  (store : CaseStore) (case_id feedback : string) (expert_validation : bool)
  (current_facts : gmap string value) :
  let store' := update_case_feedback store case_id feedback expert_validation in
  length (cases store') = length (cases store) /\
  get_recommendations store' current_facts = get_recommendations store current_facts /\
  forall top_k min_similarity,
    (l ← find_similar_cases store' current_facts top_k min_similarity;
     Ok ((fun sc => (Case.case_id (case sc), similarity_score sc))
           <$> (l : list SimilarCase)))
    = (l ← find_similar_cases store current_facts top_k min_similarity;
       Ok ((fun sc => (Case.case_id (case sc), similarity_score sc))
             <$> (l : list SimilarCase))).
Proof.
  intros store'.
  assert (Hcases : forget_feedback <$> cases store' = forget_feedback <$> cases store)
    by apply update_first_forgotten.
  split; [apply update_first_length|]. split.
  - now apply get_recommendations_forgotten.
  - intros top_k min_similarity.
    pose proof (find_similar_cases_forgotten store store' current_facts top_k
                  min_similarity Hcases) as Hfind.
    destruct (find_similar_cases store' current_facts top_k min_similarity) as [l'|e'],
             (find_similar_cases store current_facts top_k min_similarity) as [l|e];
      cbn [mbind result_bind bind] in *; try discriminate;
      [|now injection Hfind as ->].
    injection Hfind as Hl. f_equal.
    change (fun sc => (Case.case_id (case sc), similarity_score sc))
      with ((fun sc => (Case.case_id (case sc), similarity_score sc)) ∘ forget_neighbor).
    now rewrite !list_fmap_compose, Hl.
Qed.

(** ** The confidence of a recommendation *)

Lemma weighted_vote_le_sum l o :
  Forall (fun sc => (0 < similarity_score sc)%Qc) l ->
  (weighted_vote l o <= qc_sum (similarity_score <$> l))%Qc.
Proof.
  induction 1 as [|sc l Hsc Hl IH]; [apply Qcle_refl|].
  rewrite weighted_vote_cons, fmap_cons. cbn [qc_sum foldr]. fold (qc_sum (similarity_score <$> l)).
  destruct (String.eqb (outcome_of sc) o).
  - apply Qcplus_le_compat; [apply Qcle_refl | exact IH].
  - rewrite <- (Qcplus_0_l (weighted_vote l o)).
    apply Qcplus_le_compat; [now apply Qclt_le_weak | exact IH].
Qed.

Lemma weighted_vote_pos l o sc :
  Forall (fun sc => (0 < similarity_score sc)%Qc) l ->
  sc ∈ l -> outcome_of sc = o -> (0 < weighted_vote l o)%Qc.
Proof.
  intros Hl Hin Ho. induction Hl as [|sc' l Hsc' Hl IH]; [inversion Hin|].
  rewrite weighted_vote_cons.
  apply elem_of_cons in Hin as [<- | Hin].
  - rewrite Ho, String.eqb_refl.
    apply (Qclt_le_trans _ (similarity_score sc + 0)); [now rewrite Qcplus_0_r|].
    apply Qcplus_le_compat; [apply Qcle_refl | now apply weighted_vote_nonneg].
  - destruct (String.eqb (outcome_of sc') o); [|now apply IH].
    apply (Qclt_le_trans _ (0 + weighted_vote l o)); [rewrite Qcplus_0_l; now apply IH|].
    apply Qcplus_le_compat; [now apply Qclt_le_weak | apply Qcle_refl].
Qed.

Lemma qc_div_pos x y : (0 < x)%Qc -> (0 < y)%Qc -> (0 < x / y)%Qc.
Proof.
  intros Hx Hy. apply Qcnot_le_lt. intros Hle.
  assert (Hx' : (x <= 0)%Qc).
  { replace x with (x / y * y)%Qc.
    - rewrite <- (Qcmult_0_l y). apply Qcmult_le_compat_r; [exact Hle | now apply Qclt_le_weak].
    - unfold Qcdiv. rewrite <- Qcmult_assoc, (Qcmult_comm (/ y)), Qcmult_inv_r;
        [apply Qcmult_1_r|].
      intros ->. exact (Qclt_not_eq _ _ Hy eq_refl). }
  exact (Qclt_not_le _ _ Hx Hx').
Qed.

Lemma synthesize_count (similar : list SimilarCase) (rec : Recommendation) :
  synthesize similar = Ok rec -> similar_cases_count rec = length similar.
Proof.
  unfold synthesize. intros Hrec.
  destruct (max_by_value _) as [best|]; [|discriminate].
  cbn [mbind result_bind bind] in Hrec.
  destruct (py_div _ _) as [c|]; [|discriminate].
  cbn [mbind result_bind bind] in Hrec.
  match type of Hrec with
  | (?a ≫= _) = _ => destruct a as [suggestion|]; [|discriminate]
  end.
  cbn [mbind result_bind bind] in Hrec. now injection Hrec as <-.
Qed.

Section Confidence.

Context `{PyRuntime}.

Lemma find_similar_cases_length store current_facts top_k min_similarity similar :
  (0 <= top_k)%Z ->
  find_similar_cases store current_facts top_k min_similarity = Ok similar ->
  (length similar <= Z.to_nat top_k)%nat.
Proof.
  intros Hk Hfind.
  destruct (cases store) as [|c l] eqn:Hc.
  { unfold find_similar_cases in Hfind. rewrite Hc in Hfind.
    injection Hfind as <-. simpl. lia. }
  destruct (extract_features current_facts) as [features|e] eqn:Hf.
  - rewrite (find_similar_cases_unfold _ _ _ _ _ Hf) in Hfind. injection Hfind as <-.
    rewrite slice_to_nonneg by exact Hk. rewrite length_take. lia.
  - unfold find_similar_cases in Hfind. rewrite Hc, Hf in Hfind. discriminate.
Qed.

Lemma find_similar_cases_returns store current_facts top_k min_similarity :
  cases store = [] \/ (exists features, extract_features current_facts = Ok features) ->
  exists similar, find_similar_cases store current_facts top_k min_similarity = Ok similar.
Proof.
  intros [Hc | [features Hf]].
  - unfold find_similar_cases. rewrite Hc. eauto.
  - rewrite (find_similar_cases_unfold _ _ _ _ _ Hf). eauto.
Qed.

End Confidence.

(** X21.  [get_recommendations] answers every request whose features can
    be extracted, and every request at all while the case memory is empty:
    its divisions cannot fail.  The confidence lies between 0 and 1; it is
    0 exactly when no similar case was found, and then there is no
    recommendation; at most five similar cases are counted. *)
Theorem recommendation_confidence_is_a_share `{PyRuntime}
  (store : CaseStore) (current_facts : gmap string value) :
  cases store = [] \/ (exists features, extract_features current_facts = Ok features) ->
  exists rec,
    get_recommendations store current_facts = Ok rec /\
    (0 <= confidence rec)%Qc /\ (confidence rec <= 1)%Qc /\
    (similar_cases_count rec <= 5)%nat /\
    (similar_cases_count rec = O <-> confidence rec = 0%Qc) /\
    (similar_cases_count rec = O <-> recommendations rec = []).
Proof.
  intros Hok.
  destruct (find_similar_cases_returns store current_facts 5 (dec 4 10) Hok)
    as [similar Hfind].
  assert (Hlen : (length similar <= 5)%nat).
  { apply (find_similar_cases_length store current_facts 5 (dec 4 10) similar); [lia|].
    exact Hfind. }
  pose proof (find_similar_cases_scores _ _ _ _ _ Hfind) as Hscores.
  unfold get_recommendations. rewrite Hfind. cbn [mbind result_bind bind].
  destruct similar as [|sc similar].
  { eexists. split; [reflexivity|]. cbn [confidence similar_cases_count recommendations].
    split; [apply Qcle_refl|]. split; [exact qc_0_le_1|]. split; [lia|].
    split; split; reflexivity. }
  assert (Hpos : Forall (fun sc => (0 < similarity_score sc)%Qc) (sc :: similar)).
  { eapply Forall_impl; [exact Hscores|]. intros sc' Hsc'.
    eapply Qclt_le_trans; [|exact Hsc']. now apply qc_ltb_lt. }
  destruct (synthesize_spec (sc :: similar) ltac:(discriminate) Hpos)
    as (rec & o & Hrec & Hhead & (sc' & Hsc' & Ho) & _ & Hconf).
  exists rec. split; [exact Hrec|].
  pose proof (synthesize_count _ _ Hrec) as Hcount.
  assert (Hsum : (0 < qc_sum (similarity_score <$> sc :: similar))%Qc).
  { apply qc_sum_pos; [discriminate | now apply Forall_fmap]. }
  assert (Hvote : (0 < weighted_vote (sc :: similar) o)%Qc)
    by exact (weighted_vote_pos _ _ _ Hpos Hsc' Ho).
  assert (Hcpos : (0 < confidence rec)%Qc) by (rewrite Hconf; now apply qc_div_pos).
  split; [now apply Qclt_le_weak|]. split.
  { rewrite Hconf. apply qc_div_le_1; [now apply weighted_vote_le_sum | exact Hsum]. }
  split; [rewrite Hcount; exact Hlen|]. rewrite Hcount. split; split.
  - discriminate.
  - intros Hz. rewrite Hz in Hcpos. exfalso. exact (Qclt_not_eq _ _ Hcpos eq_refl).
  - discriminate.
  - intros Hnil. rewrite Hnil in Hhead. discriminate.
Qed.

Lemma recommendation_confidence_is_a_share_witness :
  exists rec,
    @get_recommendations Demo2.runtime no_cases reincidencia_facts = Ok rec /\
    confidence rec = 0%Qc.
Proof.
  destruct (@recommendation_confidence_is_a_share Demo2.runtime no_cases reincidencia_facts)
    as (rec & Hrec & _ & _ & _ & Hzero & _).
  - left. reflexivity.
  - exists rec. split; [exact Hrec|]. apply Hzero.
    unfold get_recommendations in Hrec. cbn in Hrec. now injection Hrec as <-.
Defined.

(** ** The identifier of a case *)

Lemma ascii_compare_refl a : Ascii.compare a a = Eq.
Proof. unfold Ascii.compare. apply N.compare_refl. Qed.

Lemma ascii_compare_lt_trans a b c :
  Ascii.compare a b = Lt -> Ascii.compare b c = Lt -> Ascii.compare a c = Lt.
Proof. unfold Ascii.compare. rewrite !N.compare_lt_iff. apply N.lt_trans. Qed.

Lemma string_compare_refl s : String.compare s s = Eq.
Proof. induction s as [|a s IH]; [reflexivity|]. simpl. now rewrite ascii_compare_refl. Qed.

Lemma string_compare_lt_trans s t u :
  String.compare s t = Lt -> String.compare t u = Lt -> String.compare s u = Lt.
Proof.
  revert t u. induction s as [|a s IH]; intros [|b t] [|c u]; simpl; try discriminate; auto.
  destruct (Ascii.compare a b) eqn:Hab; try discriminate.
  - apply Ascii.compare_eq_iff in Hab as ->.
    destruct (Ascii.compare b c); try discriminate; eauto.
  - destruct (Ascii.compare b c) eqn:Hbc; try discriminate.
    + apply Ascii.compare_eq_iff in Hbc as <-. now rewrite Hab.
    + now rewrite (ascii_compare_lt_trans _ _ _ Hab Hbc).
Qed.

Lemma string_leb_trans s t u :
  String.leb s t = true -> String.leb t u = true -> String.leb s u = true.
Proof.
  unfold String.leb.
  destruct (String.compare s t) eqn:Hst; try discriminate;
    destruct (String.compare t u) eqn:Htu; try discriminate; intros _ _.
  - apply String.compare_eq_iff in Hst as ->. now rewrite Htu.
  - apply String.compare_eq_iff in Hst as ->. now rewrite Htu.
  - apply String.compare_eq_iff in Htu as <-. now rewrite Hst.
  - now rewrite (string_compare_lt_trans _ _ _ Hst Htu).
Qed.

Lemma string_leb_total s t : String.leb s t = false -> String.leb t s = true.
Proof. intros Hst. destruct (String.leb_total s t) as [H1 | H1]; congruence. Qed.

(** Two sorted lists with the same elements are equal, for an order that
    is antisymmetric. *)
Lemma sorted_permutation_unique {A} (R : A -> A -> Prop) (l1 l2 : list A) :
  (forall x y, R x y -> R y x -> x = y) ->
  StronglySorted R l1 -> StronglySorted R l2 -> Permutation l1 l2 -> l1 = l2.
Proof.
  intros Hanti Hs1. revert l2.
  induction Hs1 as [|x l1 Hs1 IH Hx]; intros l2 Hs2 Hperm.
  - now apply Permutation_nil in Hperm.
  - destruct Hs2 as [|y l2 Hs2 Hy].
    { apply Permutation_sym, Permutation_nil in Hperm. discriminate. }
    assert (Hxy : x = y).
    { assert (Hx2 : In x (y :: l2)) by (eapply Permutation_in; [exact Hperm | now left]).
      assert (Hy1 : In y (x :: l1))
        by (eapply Permutation_in; [symmetry; exact Hperm | now left]).
      destruct Hx2 as [-> | Hx2]; [reflexivity|].
      destruct Hy1 as [-> | Hy1]; [reflexivity|].
      rewrite List.Forall_forall in Hx, Hy. apply Hanti; auto. }
    subst y. f_equal. apply IH; [exact Hs2|].
    now apply Permutation_cons_inv in Hperm.
Qed.

Lemma py_sorted_strings_permutation (l1 l2 : list string) :
  Permutation l1 l2 -> py_sorted String.leb l1 = py_sorted String.leb l2.
Proof.
  intros Hperm.
  apply (sorted_permutation_unique (fun a b => String.leb a b = true)).
  - apply String.leb_antisym.
  - apply py_sorted_sorted; [exact string_leb_total | exact string_leb_trans].
  - apply py_sorted_sorted; [exact string_leb_total | exact string_leb_trans].
  - now rewrite !py_sorted_perm.
Qed.

(** The rows [INSERT OR REPLACE] keeps have another identifier. *)
Lemma filter_replaced_rows (case_id : string) (l : list CaseRow) :
  List.filter (fun r => String.eqb (Case.case_id (row_case r)) case_id)
    (filter (fun r => Case.case_id (row_case r) <> case_id) l) = [].
Proof.
  induction l as [|r l IH]; [reflexivity|].
  rewrite filter_cons. destruct (decide _) as [Hne | Heq]; [|exact IH].
  cbn [List.filter]. destruct (String.eqb_spec (Case.case_id (row_case r)) case_id);
    [contradiction | exact IH].
Qed.

(** X22.  The identifier of a case depends on the facts and on which
    rules and actions there were, not on their order, and not on the
    outcome: the same request with the rules or actions recorded in another
    order, or with another outcome, is stored under the same [case_id], so
    that its row in the table replaces the earlier one. *)
Theorem case_id_ignores_order_and_outcome `{PyRuntime}
  (store1 store2 : CaseStore) (facts : gmap string value)
  (rules1 rules2 actions1 actions2 : list string) (outcome1 outcome2 : string) :
  Permutation rules1 rules2 ->
  Permutation actions1 actions2 ->
  (r ← store_case store1 facts rules1 actions1 outcome1; Ok (fst r))
  = (r ← store_case store2 facts rules2 actions2 outcome2; Ok (fst r)) /\
  forall case_id store1',
    store_case store1 facts rules1 actions1 outcome1 = Ok (case_id, store1') ->
    exists store',
      store_case store1' facts rules2 actions2 outcome2 = Ok (case_id, store') /\
      Case.outcome <$> (row_case <$>
        List.filter (fun r => String.eqb (Case.case_id (row_case r)) case_id) (table store'))
      = [outcome2].
Proof.
  intros Hrules Hactions.
  assert (Hcontent : case_content (serializable facts) rules1 actions1
                     = case_content (serializable facts) rules2 actions2).
  { unfold case_content.
    now rewrite (py_sorted_strings_permutation _ _ Hrules),
                (py_sorted_strings_permutation _ _ Hactions). }
  split.
  - rewrite !store_case_spec, Hcontent.
    destruct (json_dumps _) as [content|]; [|reflexivity].
    destruct (extract_features facts) as [features|]; reflexivity.
  - intros case_id store1'. rewrite !store_case_spec, Hcontent.
    destruct (json_dumps _) as [content|]; [|discriminate].
    destruct (extract_features facts) as [features|]; [|discriminate].
    cbn [mbind result_bind bind]. cbv zeta.
    remember (PyStr.take 12 (md5_hexdigest content)) as digest eqn:Hdigest.
    cbn [Case.case_id]. intros [= <- <-].
    eexists. split; [reflexivity|].
    unfold insert_or_replace. cbn [table cases next_row_id].
    rewrite List.filter_app, filter_replaced_rows.
    cbn [app List.filter row_case Case.case_id]. now rewrite String.eqb_refl.
Qed.

Lemma case_id_ignores_order_and_outcome_witness :
  (r ← @store_case Demo2.runtime no_cases art_facts ["b"; "a"] ["x"; "y"] "approved";
   Ok (fst r))
  = (r ← @store_case Demo2.runtime no_cases art_facts ["a"; "b"] ["y"; "x"] "rejected";
     Ok (fst r)).
Proof.
  apply (proj1 (@case_id_ignores_order_and_outcome Demo2.runtime no_cases no_cases art_facts
                  ["b"; "a"] ["a"; "b"] ["x"; "y"] ["y"; "x"] "approved" "rejected"
                  (perm_swap _ _ _) (perm_swap _ _ _))).
Defined.

(** ** The outcome the preview shows *)

(** X23.  The preview of a rule shows the outcome that the integrated
    system decides when a sanction or an approval is marked.  It does not
    otherwise: when rules fired and left no observation (their actions were
    [set_fact] calls, or texts the engine does not act on), the preview
    shows ['auto_approved'] for a run that the integrated system files as
    ['approved_with_conditions'] or ['rejected']; and the preview never
    shows ['rejected']. *)
Theorem preview_outcome_and_decision `{PyRuntime} (lower : string -> string)
  (inference_result : InferenceResult) (facts : gmap string value) :
  let final := final_facts inference_result in
  let marked k := Py.truthy (default (VBool false) (final !! k)) in
  (marked "sancion_aplicada" = true \/ marked "requiere_aprobacion" = true ->
   _determine_outcome_preview final = _determine_outcome lower inference_result facts) /\
  (marked "sancion_aplicada" = false -> marked "requiere_aprobacion" = false ->
   steps inference_result <> [] ->
   Py.truthy (default (VList []) (final !! "observaciones")) = false ->
   _determine_outcome_preview final = "auto_approved" /\
   (_determine_outcome lower inference_result facts = "approved_with_conditions" \/
    _determine_outcome lower inference_result facts = "rejected")) /\
  _determine_outcome_preview final <> "rejected".
Proof.
  intros final marked. unfold _determine_outcome_preview, _determine_outcome.
  fold final. fold (marked "sancion_aplicada"). fold (marked "requiere_aprobacion").
  split; [|split].
  - intros [-> | Hm]; [reflexivity|].
    destruct (marked "sancion_aplicada"); [reflexivity | now rewrite Hm].
  - intros -> -> Hsteps ->. split; [reflexivity|].
    destruct (steps inference_result) as [|s l]; [done|].
    cbn [length Nat.eqb Nat.ltb Nat.leb]. destruct (existsb _ _); auto.
  - destruct (marked "sancion_aplicada"); [discriminate|].
    destruct (marked "requiere_aprobacion"); [discriminate|].
    destruct (Py.truthy _); discriminate.
Qed.

(** A run of one rule whose action sets a fact. *)
Lemma preview_outcome_and_decision_witness :
  exists res,
    @forward_chaining Demo2.runtime
      [Rule.mk "riesgo" "Riesgo alto" "ausencias_ultimo_mes >= 3"
         "set_fact('riesgo_empleado', 'alto')" (Some 30) None None]
      reincidencia_facts 100 = Ok res /\
    _determine_outcome_preview (final_facts res) = "auto_approved" /\
    (_determine_outcome (fun s => s) res reincidencia_facts = "approved_with_conditions" \/
     _determine_outcome (fun s => s) res reincidencia_facts = "rejected").
Proof.
  set (rule := Rule.mk "riesgo" "Riesgo alto" "ausencias_ultimo_mes >= 3"
                 "set_fact('riesgo_empleado', 'alto')" (Some 30) None None).
  destruct (@first_step_of_run Demo2.runtime rule [] 99
              (@initial_run Demo2.runtime reincidencia_facts))
    as (v & st' & new & _ & _ & Hloop & Hsteps).
  { split; [vm_compute; reflexivity|].
    exists (VBool true). split; vm_compute; reflexivity. }
  assert (Hfc : @forward_chaining Demo2.runtime [rule] reincidencia_facts 100
                = Ok (result_of st')).
  { unfold forward_chaining, run_loop. change (Z.to_nat 100) with (S 99).
    now rewrite Hloop. }
  assert (Hkeep : forall k, k ∈ ["sancion_aplicada"; "requiere_aprobacion"; "observaciones"] ->
            final_facts (result_of st') !! k = None).
  { intros k Hk. cbn [final_facts result_of].
    rewrite (@run_loop_frame Demo2.runtime [rule] reincidencia_facts 100 st' k);
      [| |exact Hloop];
      repeat (apply elem_of_cons in Hk as [-> | Hk];
              [first [vm_compute; reflexivity
                     | apply (bool_decide_unpack _); vm_compute; exact I]|]);
      inversion Hk. }
  exists (result_of st'). split; [exact Hfc|].
  apply (proj1 (proj2 (@preview_outcome_and_decision Demo2.runtime (fun s => s)
                         (result_of st') reincidencia_facts))).
  - rewrite Hkeep; [reflexivity|]. apply list_elem_of_here.
  - rewrite Hkeep; [reflexivity|]. apply list_elem_of_further, list_elem_of_here.
  - cbn [steps result_of]. rewrite Hsteps. discriminate.
  - rewrite Hkeep; [reflexivity|].
    do 2 apply list_elem_of_further. apply list_elem_of_here.
Defined.

(** ** A rules file that cannot be read *)

(** X24.  The engine fails open.  When reading or parsing the rules file
    raises an [Exception], [_load_rules] answers with no rules; a run then fires nothing,
    and the integrated system files the request as ['auto_approved'],
    unless the caller's own facts mark a sanction or an approval. *)
Theorem unreadable_rules_auto_approve `{PyRuntime} (lower : string -> string)
  (e : exn) (initial_facts : gmap string value) (max_iterations : Z) :
  is_Exception e = true ->
  Py.truthy (default (VBool false) (initial_facts !! "sancion_aplicada")) = false ->
  Py.truthy (default (VBool false) (initial_facts !! "requiere_aprobacion")) = false ->
  exists res,
    forward_chaining (_load_rules (Raise e)) initial_facts max_iterations = Ok res /\
    steps res = [] /\ conclusions res = [] /\ actions_taken res = [] /\
    _determine_outcome lower res initial_facts = "auto_approved".
Proof.
  intros _ Hs Ha. cbn [_load_rules].
  assert (Hloop : exists st,
            run_loop [] initial_facts max_iterations = Ok st /\
            run_steps st = [] /\ run_conclusions st = [] /\ run_actions st = [] /\
            run_facts st = run_facts (initial_run initial_facts)).
  { unfold run_loop. destruct (Z.to_nat max_iterations) as [|budget].
    - eexists. split; [reflexivity|]. repeat split.
    - eexists. split; [reflexivity|]. repeat split. }
  destruct Hloop as (st & Hst & Hsteps & Hconcl & Hact & Hfacts).
  exists (result_of st). unfold forward_chaining. rewrite Hst.
  split; [reflexivity|]. cbn [steps conclusions actions_taken result_of].
  split; [exact Hsteps|]. split; [exact Hconcl|]. split; [exact Hact|].
  unfold _determine_outcome. cbn [final_facts steps result_of]. rewrite Hfacts, Hsteps.
  unfold initial_run, _add_special_functions. cbn [run_facts].
  rewrite !lookup_insert_ne by discriminate. now rewrite Hs, Ha.
Qed.

Lemma unreadable_rules_auto_approve_witness :
  exists res,
    @forward_chaining Demo2.runtime (_load_rules (Raise SyntaxError)) reincidencia_facts 100
      = Ok res /\
    steps res = [] /\ conclusions res = [] /\ actions_taken res = [] /\
    _determine_outcome (fun s => s) res reincidencia_facts = "auto_approved".
Proof.
  apply (@unreadable_rules_auto_approve Demo2.runtime (fun s => s) SyntaxError
           reincidencia_facts 100); reflexivity.
Defined.
